(** * elimage: a content-addressed image store served over HTTP

    A shallow embedding of [main.py]: the canonical redirector
    ([HashHandler]), the type sniffer ([guess_mime_using_file],
    [guess_extension]), the upload handler ([IndexHandler.post]) and the
    negotiating static handler ([MyStaticFileHandler.get]) together with
    the WebP-to-PNG conversion ([convert_webp]).

    Python [str] values are modelled as [string] (sequences of 8-bit
    characters; every string the handlers inspect is ASCII), [bytes] as
    [list Byte.byte], the file system as a finite map from paths to nodes,
    and the subprocesses [file] and [dwebp] as oracles.

    What the environment may do: [os.mkdir] and [open(path, 'wb')] raise
    [OSError] at the paths a world marks unwritable, and create nothing
    there; at the paths it marks truncating the file is created and the
    write is cut short; [dwebp] may not start at all, and writes at its
    output path only. The paths are absolute and normalized, so that
    [os.path.abspath] changes nothing. The methods of the framework that
    the handlers call are modelled after Tornado's static file handler;
    [super().get(path)] itself is kept as the action the handler ends
    with. *)

From Stdlib Require Import ZArith Ascii String List Lia.
From Stdlib Require Strings.Byte.
From stdpp Require Import base option list gmap strings.

Local Open Scope Z_scope.

(** ** Python string operations used by the handlers *)

Module Py.

(** [c in s] for a one-character [c]. *)
Fixpoint in_char (c : ascii) (s : string) : bool :=
  match s with
  | EmptyString => false
  | String a s' => Ascii.eqb a c || in_char c s'
  end.

(** [s.split(sep)] and [s.split(sep, maxsplit)] for a one-character
    separator; [maxsplit = None] is the unbounded split. *)
Fixpoint split_char (sep : ascii) (maxsplit : option nat) (s : string)
  : list string :=
  match s with
  | EmptyString => [EmptyString]
  | String a s' =>
      match Ascii.eqb a sep, maxsplit with
      | true, None => EmptyString :: split_char sep None s'
      | true, Some (S n) => EmptyString :: split_char sep (Some n) s'
      | _, _ =>
          match split_char sep maxsplit s' with
          | h :: t => String a h :: t
          | [] => [String a EmptyString]
          end
      end
  end.

(** [s.replace(c, '')]. *)
Fixpoint delete_char (c : ascii) (s : string) : string :=
  match s with
  | EmptyString => EmptyString
  | String a s' =>
      if Ascii.eqb a c then delete_char c s' else String a (delete_char c s')
  end.

(** [s[:n]] and [s[n:]] for a non-negative [n]. *)
Fixpoint take (n : nat) (s : string) : string :=
  match n, s with
  | S n', String a s' => String a (take n' s')
  | _, _ => EmptyString
  end.

Fixpoint drop (n : nat) (s : string) : string :=
  match n, s with
  | S n', String _ s' => drop n' s'
  | _, _ => s
  end.

(** [s.startswith(p)]. *)
Fixpoint startswith (p s : string) : bool :=
  match p, s with
  | EmptyString, _ => true
  | String a p', String b s' => Ascii.eqb a b && startswith p' s'
  | String _ _, EmptyString => false
  end.

(** [sub in s]. *)
Fixpoint contains (sub s : string) : bool :=
  startswith sub s ||
  match s with
  | EmptyString => false
  | String _ s' => contains sub s'
  end.

(** [s.endswith(suffix)]. *)
Definition endswith (suffix s : string) : bool :=
  String.eqb (drop (String.length s - String.length suffix) s) suffix
  && (String.length suffix <=? String.length s)%nat.

(** [s.rstrip(c)] for a one-character [c]. *)
Fixpoint rstrip_char (c : ascii) (s : string) : string :=
  match s with
  | EmptyString => EmptyString
  | String a s' =>
      match rstrip_char c s' with
      | EmptyString => if Ascii.eqb a c then EmptyString else String a EmptyString
      | r => String a r
      end
  end.

(** [s.lower()] on ASCII letters. *)
Definition lower_char (a : ascii) : ascii :=
  let n := nat_of_ascii a in
  if ((65 <=? n) && (n <=? 90))%nat then ascii_of_nat (n + 32) else a.

Fixpoint lower (s : string) : string :=
  match s with
  | EmptyString => EmptyString
  | String a s' => String (lower_char a) (lower s')
  end.

(** The characters [str.split()] treats as white space (ASCII range):
    tab, line feed, vertical tab, form feed, carriage return, the four
    separators 0x1c to 0x1f, and the space. *)
Definition isspace (a : ascii) : bool :=
  let n := nat_of_ascii a in
  (((9 <=? n) && (n <=? 13)) || ((28 <=? n) && (n <=? 32)))%nat.

(** [s.lstrip()]. *)
Fixpoint lstrip (s : string) : string :=
  match s with
  | EmptyString => EmptyString
  | String a s' => if isspace a then lstrip s' else s
  end.

(** [s.split()]: the maximal runs of non-space characters. [cur] is the
    word being read, to which characters are appended. *)
Fixpoint split_ws_go (cur : option string) (s : string) : list string :=
  match s with
  | EmptyString => match cur with Some w => [w] | None => [] end
  | String a s' =>
      if isspace a then
        match cur with
        | Some w => w :: split_ws_go None s'
        | None => split_ws_go None s'
        end
      else
        split_ws_go (Some (match cur with
                           | Some w => w +:+ String a EmptyString
                           | None => String a EmptyString
                           end)) s'
  end.

Definition split_ws (s : string) : list string := split_ws_go None s.

(** The first word of [s] (which starts with a non-space character) and
    what follows it. *)
Fixpoint span_word (s : string) : string * string :=
  match s with
  | EmptyString => (EmptyString, EmptyString)
  | String a s' =>
      if isspace a then (EmptyString, s)
      else let '(w, r) := span_word s' in (String a w, r)
  end.

(** [s.split(None, 1)]: the first word, then the rest with its leading
    white space removed (and nothing if only white space is left). *)
Definition split_ws1 (s : string) : list string :=
  match lstrip s with
  | EmptyString => []
  | s1 =>
      let '(w, r) := span_word s1 in
      match lstrip r with
      | EmptyString => [w]
      | r' => [w; r']
      end
  end.

(** The line feed, written [\n] in the source. *)
Definition nl : string := String "010" EmptyString.

End Py.

(** ** HashAddresser: [hashlib.sha1(body).hexdigest()]

    SHA-1 (FIPS 180-4) on 32-bit words held in [Z], every addition
    reduced modulo 2^32. *)

Module SHA1.

Definition w32 : Z := 2 ^ 32.

Definition add32 (x y : Z) : Z := (x + y) mod w32.

Definition rotl (n x : Z) : Z :=
  Z.lor (Z.shiftl x n mod w32) (Z.shiftr x (32 - n)).

Definition not32 (x : Z) : Z := Z.lxor x (w32 - 1).

(** The 64-bit big-endian encoding of the message length in bits. *)
Definition be64 (n : Z) : list Z :=
  map (fun i => Z.land (Z.shiftr n (8 * i)) 255) [7; 6; 5; 4; 3; 2; 1; 0].

Definition pad (msg : list Z) : list Z :=
  let len := Z.of_nat (length msg) in
  msg ++ [128] ++ repeat 0 (Z.to_nat ((55 - len) mod 64)) ++ be64 (8 * len).

(** Big-endian 32-bit words of a block. *)
Fixpoint words (bs : list Z) : list Z :=
  match bs with
  | b0 :: b1 :: b2 :: b3 :: rest =>
      (Z.shiftl b0 24 + Z.shiftl b1 16 + Z.shiftl b2 8 + b3) :: words rest
  | _ => []
  end.

(** The message schedule, most recent word first: [extend n ws] adds
    [n] words to the reversed schedule [ws]. *)
Fixpoint extend (n : nat) (ws : list Z) : list Z :=
  match n with
  | O => ws
  | S n' =>
      let x := Z.lxor (Z.lxor (nth 2 ws 0) (nth 7 ws 0))
                      (Z.lxor (nth 13 ws 0) (nth 15 ws 0)) in
      extend n' (rotl 1 x :: ws)
  end.

Definition schedule (block : list Z) : list Z :=
  rev (extend 64 (rev (words block))).

Definition state : Type := Z * Z * Z * Z * Z.

Definition round (t : Z) (w : Z) (s : state) : state :=
  let '(a, b, c, d, e) := s in
  let '(f, k) :=
    if t <? 20 then (Z.lor (Z.land b c) (Z.land (not32 b) d), 0x5A827999)
    else if t <? 40 then (Z.lxor (Z.lxor b c) d, 0x6ED9EBA1)
    else if t <? 60 then
      (Z.lor (Z.lor (Z.land b c) (Z.land b d)) (Z.land c d), 0x8F1BBCDC)
    else (Z.lxor (Z.lxor b c) d, 0xCA62C1D6) in
  let temp := add32 (add32 (add32 (add32 (rotl 5 a) f) e) k) w in
  (temp, a, rotl 30 b, c, d).

Fixpoint rounds (t : Z) (ws : list Z) (s : state) : state :=
  match ws with
  | [] => s
  | w :: ws' => rounds (t + 1) ws' (round t w s)
  end.

Definition compress (s : state) (block : list Z) : state :=
  let '(h0, h1, h2, h3, h4) := s in
  let '(a, b, c, d, e) := rounds 0 (schedule block) s in
  (add32 h0 a, add32 h1 b, add32 h2 c, add32 h3 d, add32 h4 e).

Fixpoint blocks (n : nat) (bs : list Z) (s : state) : state :=
  match n with
  | O => s
  | S n' => blocks n' (skipn 64 bs) (compress s (firstn 64 bs))
  end.

Definition init : state :=
  (0x67452301, 0xEFCDAB89, 0x98BADCFE, 0x10325476, 0xC3D2E1F0).

Definition digest (msg : list Z) : state :=
  let p := pad msg in
  blocks (length p / 64) p init.

Definition hexdigits : list ascii :=
  ["0"; "1"; "2"; "3"; "4"; "5"; "6"; "7";
   "8"; "9"; "a"; "b"; "c"; "d"; "e"; "f"]%char.

Definition hexdigit (n : Z) : ascii := nth (Z.to_nat n) hexdigits "0"%char.

Definition nibble (w i : Z) : ascii := hexdigit (Z.land (Z.shiftr w (4 * i)) 15).

Definition hex8 (w : Z) (rest : string) : string :=
  String (nibble w 7) (String (nibble w 6) (String (nibble w 5)
  (String (nibble w 4) (String (nibble w 3) (String (nibble w 2)
  (String (nibble w 1) (String (nibble w 0) rest))))))).

Definition hex_of_state (s : state) : string :=
  let '(h0, h1, h2, h3, h4) := s in
  hex8 h0 (hex8 h1 (hex8 h2 (hex8 h3 (hex8 h4 EmptyString)))).

Definition byte_Z (b : Byte.byte) : Z := Z.of_N (Byte.to_N b).

(** [hashlib.sha1(); m.update(body); m.hexdigest()]. *)
Definition hexdigest (body : list Byte.byte) : string :=
  hex_of_state (digest (map byte_Z body)).

End SHA1.

(** ** The world the handlers run in *)

Abbreviation bytes := (list Byte.byte).

(** What a path of the file system holds. *)
Inductive node : Type :=
| Dir
| File (content : bytes).

(** Modelled from the spec: the user-tracking collaborator [models.model]
    (the module [models] is not part of the sources): a record per client
    address with an identity and a blocked flag, and the list of the
    (identity, hash) associations recorded so far. *)
Record user : Type := User { user_id : nat; user_blocked : bool }.

Record World : Type := mkWorld {
  (** the file system: path to node *)
  fs : gmap string node;
  (** fault model: the paths at which nothing can be created;
      [open(path, 'wb')] and [os.mkdir(path)] raise [OSError] there *)
  unwritable : gset string;
  (** fault model: the paths at which [open(path, 'wb')] creates the
      file and [write] or [close] raises [OSError], with the number of
      bytes that have reached the file by then *)
  truncating : gmap string nat;
  (** the table of [functools.lru_cache], most recently used first *)
  mime_cache : list (string * (string * option string));
  (** [models.model]: the users by client address, the recorded uploads *)
  users : gmap string user;
  images : list (nat * string);
  (** the argument vector of every subprocess the handlers have started,
      or tried to start, so far *)
  procs : list (list string)
}.

Definition set_fs (f : gmap string node → gmap string node) (w : World) :=
  mkWorld (f (fs w)) (unwritable w) (truncating w) (mime_cache w) (users w)
          (images w) (procs w).
Definition set_mime_cache
  (f : list (string * (string * option string)) →
       list (string * (string * option string))) (w : World) :=
  mkWorld (fs w) (unwritable w) (truncating w) (f (mime_cache w)) (users w)
          (images w) (procs w).
Definition set_users (f : gmap string user → gmap string user) (w : World) :=
  mkWorld (fs w) (unwritable w) (truncating w) (mime_cache w) (f (users w))
          (images w) (procs w).
Definition set_images (f : list (nat * string) → list (nat * string)) (w : World) :=
  mkWorld (fs w) (unwritable w) (truncating w) (mime_cache w) (users w)
          (f (images w)) (procs w).
Definition set_procs (f : list (list string) → list (list string)) (w : World) :=
  mkWorld (fs w) (unwritable w) (truncating w) (mime_cache w) (users w)
          (images w) (f (procs w)).

(** Exceptions. [HTTPError c] is [tornado.web.HTTPError(c)]; any other
    exception that leaves a handler becomes status 500. [IOError] is
    [OSError], of which it is an alias in Python 3; its subclasses
    ([FileNotFoundError], [PermissionError], ...) are not told apart. *)
Inductive pyexn : Type :=
| PyHTTPError (code : Z)
| IOError
| ValueError
| CalledProcessError (returncode : Z).

Definition status_of_exn (e : pyexn) : Z :=
  match e with
  | PyHTTPError c => c
  | _ => 500
  end.

Inductive result (A : Type) : Type :=
| Ok (a : A)
| Raise (e : pyexn).
Arguments Ok {A} a.
Arguments Raise {A} e.

(** State and exceptions: the effects made before an exception stay. *)
Definition M (A : Type) : Type := World → result A * World.

Definition ret {A} (a : A) : M A := fun w => (Ok a, w).
Definition raise {A} (e : pyexn) : M A := fun w => (Raise e, w).
Definition bind {A B} (m : M A) (k : A → M B) : M B :=
  fun w => match m w with
           | (Ok a, w') => k a w'
           | (Raise e, w') => (Raise e, w')
           end.
Definition gets {A} (f : World → A) : M A := fun w => (Ok (f w), w).
Definition modify (f : World → World) : M unit := fun w => (Ok tt, f w).

(** [try: m except IOError: h]. *)
Definition try_IOError {A} (m : M A) (h : M A) : M A :=
  fun w => match m w with
           | (Raise IOError, w') => h w'
           | r => r
           end.

Declare Scope py_scope.
Delimit Scope py_scope with py.
Notation "x <- m ;; k" := (bind m (fun x => k))
  (at level 100, m at next level, right associativity) : py_scope.
Notation "m ;; k" := (bind m (fun _ => k))
  (at level 100, right associativity) : py_scope.
Local Open Scope py_scope.

(** [for x in xs: acc = body(x, acc)]. *)
Fixpoint for_each {A S} (body : A → S → M S) (xs : list A) (acc : S) : M S :=
  match xs with
  | [] => ret acc
  | x :: xs' => acc' <- body x acc ;; for_each body xs' acc'
  end.

(** ** The operating system *)

(** [os.path.join(a, b)]. *)
Definition os_path_join (a b : string) : string :=
  if Py.startswith "/" b then b
  else if String.eqb a "" || Py.endswith "/" a then a +:+ b
  else a +:+ "/" +:+ b.

Definition os_path_exists (p : string) : M bool :=
  gets (fun w => bool_decide (is_Some (fs w !! p))).

(** [os.mkdir(p, 0o750)]: [OSError] at the paths the world marks
    unwritable, and then nothing is created. *)
Definition os_mkdir (p : string) : M unit :=
  fun w => if bool_decide (p ∈ unwritable w) then (Raise IOError, w)
           else (Ok tt, set_fs (fun m => <[p := Dir]> m) w).

(** [with open(p, 'wb') as f: f.write(body)]. At a path the world marks
    unwritable [open] raises [OSError] and nothing is created (the
    directory is read-only or is no directory, the disk is full, ...). At
    a path it marks truncating the file is created, [write] or [close]
    raises [OSError], and the bytes written by then stay in the file. *)
Definition open_write (p : string) (body : bytes) : M unit :=
  fun w =>
    if bool_decide (p ∈ unwritable w) then (Raise IOError, w)
    else
      match truncating w !! p with
      | Some n =>
          (Raise IOError, set_fs (fun m => <[p := File (take n body)]> m) w)
      | None => (Ok tt, set_fs (fun m => <[p := File body]> m) w)
      end.

(** ** Requests *)

(** A file part of a multipart form, [tornado.httputil.HTTPFile]. *)
Record HTTPFile : Type := mkFile {
  filename : string;
  body : bytes;
  content_type : string
}.

(** The fields of [self.request] the handlers read. [files] is the
    mapping from form field name to the list of its file parts, in the
    order [files.values()] iterates it. *)
Record Request : Type := mkRequest {
  method : string;
  remote_ip : string;
  full_url : string;
  headers : gmap string string;
  files : list (string * list HTTPFile)
}.

(** [tornado.httputil.parse_multipart_form_data] fills [files] from the
    parts of the form, in the order the client has sent them, with
    [files.setdefault(name, []).append(part)]: a part goes to the end of
    the list of its field, and a new field goes last. *)
Fixpoint add_part (name : string) (part : HTTPFile)
  (d : list (string * list HTTPFile)) : list (string * list HTTPFile) :=
  match d with
  | [] => [(name, [part])]
  | (k, l) :: d' =>
      if String.eqb name k then (k, l ++ [part]) :: d'
      else (k, l) :: add_part name part d'
  end.

Definition request_files (parts : list (string * HTTPFile))
  : list (string * list HTTPFile) :=
  foldl (fun d p => add_part (fst p) (snd p) d) [] parts.

(** [headers.get(name, '')]. *)
Definition headers_get (r : Request) (name : string) : string :=
  default EmptyString (headers r !! name).

(** [ret[k] = v] on an [OrderedDict]: a new key goes last, an old key
    keeps its place and takes the new value. *)
Fixpoint od_set (k v : string) (d : list (string * string))
  : list (string * string) :=
  match d with
  | [] => [(k, v)]
  | (k', v') :: d' =>
      if String.eqb k k' then (k, v) :: d' else (k', v') :: od_set k v d'
  end.

(** What the upload handler answers: the status and the text written. *)
Record Response : Type := mkResponse {
  status : Z;
  written : string
}.

(** ** The handlers, over the external programs and tables

    [file] and [dwebp] are external programs. An oracle is given the number
    of subprocesses run before it (so that two runs may differ), its
    argument vector and the file system. [subprocess_file] gives the exit
    status and the standard output of [file]; [subprocess_dwebp] gives
    nothing when [dwebp] cannot be started (it is not installed, or the
    system refuses the new process), and otherwise what the program leaves
    at its output path (nothing, or some bytes) and its exit status. [mimetypes_guess_extension] is the table of the standard
    library, [datadir] the data directory of the settings. *)

Section Handlers.

Variable subprocess_file : nat → list string → gmap string node → Z * string.
Variable subprocess_dwebp :
  nat → list string → gmap string node → option (option bytes * Z).
Variable mimetypes_guess_extension : string → option string.
Variable datadir : string.

(** [subprocess.check_output(argv).decode()] for [file]. *)
Definition check_output (argv : list string) : M string :=
  fun w =>
    let '(code, out) := subprocess_file (length (procs w)) argv (fs w) in
    let w' := set_procs (fun l => l ++ [argv]) w in
    if code =? 0 then (Ok out, w') else (Raise (CalledProcessError code), w').

(** *** TypeSniffer *)

(** The body of [guess_mime_using_file]. *)
Definition guess_mime_body (path : string) : M (string * option string) :=
  result <- check_output ["file"; "-i"; path] ;;
  match Py.split_ws result with
  | [_; mime; encoding] =>
      let mime := Py.rstrip_char ";" mime in
      match last (Py.split_char "=" None encoding) with
      | None => raise ValueError
      | Some encoding =>
          let finish : M (string * option string) :=
            ret (mime, if negb (String.eqb encoding "gzip") then None
                       else Some encoding) in
          (* older file doesn't know webp *)
          if String.eqb mime "application/octet-stream" then
            result <- check_output ["file"; path] ;;
            match Py.split_ws1 result with
            | [_; desc] =>
                if Py.contains "Web/P image" desc
                then ret ("image/webp", None)
                else finish
            | _ => raise ValueError
            end
          else finish
      end
  | _ => raise ValueError
  end.

(** The association list of the memoizing decorator. *)
Fixpoint cache_lookup {V} (k : string) (l : list (string * V)) : option V :=
  match l with
  | [] => None
  | (k', v) :: l' => if String.eqb k k' then Some v else cache_lookup k l'
  end.

Fixpoint cache_remove {V} (k : string) (l : list (string * V))
  : list (string * V) :=
  match l with
  | [] => []
  | (k', v) :: l' =>
      if String.eqb k k' then cache_remove k l' else (k', v) :: cache_remove k l'
  end.

Definition lru_maxsize : nat := 128.

(** [@lru_cache()] around the body: a hit answers from the table and
    makes the entry the most recent one; a miss runs the body, and a
    result (not an exception) is stored, the least recently used entry
    leaving a full table. *)
Definition guess_mime_using_file (path : string) : M (string * option string) :=
  fun w =>
    match cache_lookup path (mime_cache w) with
    | Some r =>
        (Ok r, set_mime_cache (fun l => (path, r) :: cache_remove path l) w)
    | None =>
        match guess_mime_body path w with
        | (Ok r, w') =>
            (Ok r, set_mime_cache (fun l => take lru_maxsize ((path, r) :: l)) w')
        | (Raise e, w') => (Raise e, w')
        end
    end.

(** [guess_extension]. *)
Definition guess_extension (ftype : string) : option string :=
  if String.eqb ftype "application/octet-stream" then Some ".bin"
  else if String.eqb ftype "image/webp" then Some ".webp"
  else
    let ext := mimetypes_guess_extension ftype in
    match ext with
    | Some e => if String.eqb e ".jpe" || String.eqb e ".jpeg"
                then Some ".jpg" else ext
    | None => ext
    end.

(** *** [models.model] *)

(** Modelled from the spec: [model.get_user_by_ip(ip)] answers the
    record kept for the client address, if there is one. *)
Definition get_user_by_ip (ip : string) : M (option user) :=
  gets (fun w => users w !! ip).

(** Modelled from the spec: [model.add_user(ip)] makes the record of a
    new caller, not blocked, and answers its fresh identity. *)
Definition add_user (ip : string) : M nat :=
  fun w =>
    let uid := S (map_fold (fun _ u n => Nat.max (user_id u) n) O (users w)) in
    (Ok uid, set_users (fun m => <[ip := User uid false]> m) w).

(** Modelled from the spec: [model.add_image(uid, h)] records the
    association of the identity with the hash. *)
Definition add_image (uid : nat) (h : string) : M unit :=
  modify (set_images (fun l => l ++ [(uid, h)])).

(** *** ContentStore: [IndexHandler.post] *)

(** The body of the loop over the file parts; [acc] is [ret] and the
    status set so far. *)
Definition upload_file (req : Request) (uid : nat) (file : HTTPFile)
  (acc : list (string * string) * Z) : M (list (string * string) * Z) :=
  let '(ret_, st) := acc in
  let h := SHA1.hexdigest (body file) in
  add_image uid h ;;
  let d := Py.take 2 h in
  let f := Py.drop 2 h in
  let p := os_path_join datadir d in
  e <- os_path_exists p ;;
  (if negb e then os_mkdir p else ret tt) ;;
  let fpath := os_path_join p f in
  e <- os_path_exists fpath ;;
  stored <- (if negb e
             then try_IOError (open_write fpath (body file) ;; ret true)
                              (ret false)
             else ret true) ;;
  if negb stored then
    ret (od_set (filename file) "FAIL" ret_, 500)
  else
    g <- guess_mime_using_file fpath ;;
    let ftype := fst g in
    let ext := if negb (String.eqb ftype "") then guess_extension ftype
               else None in
    let f := match ext with
             | Some e => if negb (String.eqb e "") then f +:+ e else f
             | None => f
             end in
    ret (od_set (filename file)
                (Py.rstrip_char "/" (full_url req) +:+ "/" +:+ d +:+ "/" +:+ f)
                ret_, st).

(** What is written once the loop is over. *)
Definition render (ret_ : list (string * string)) : string :=
  if (1 <? length ret_)%nat then
    foldr (fun item out => fst item +:+ ": " +:+ snd item +:+ Py.nl +:+ out)
          EmptyString ret_
  else
    match ret_ with
    | (_, img_url) :: _ => img_url +:+ Py.nl
    | [] => EmptyString
    end.

Definition IndexHandler_post (req : Request) : M Response :=
  (* Check the user has been blocked or not *)
  u <- get_user_by_ip (remote_ip req) ;;
  uid <- match u with
         | None => add_user (remote_ip req)
         | Some u =>
             if user_blocked u then raise (PyHTTPError 403)
             else ret (user_id u)
         end ;;
  match files req with
  | [] => raise (PyHTTPError 400)
  | fl =>
      acc <- for_each (fun filelist acc =>
                         for_each (upload_file req uid) (snd filelist) acc)
                      fl ([], 200) ;;
      ret (mkResponse (snd acc) (render (fst acc)))
  end.

(** *** TranscodeCache: [convert_webp] *)

(** Runs [dwebp webp -o png] and waits for it. [tornado.process.Subprocess]
    raises [OSError] when the program cannot be started; [wait_for_exit]
    raises [CalledProcessError] on a non-zero exit status. Whatever the
    program left at [png] stays there. *)
Definition convert_webp (webp png : string) : M unit :=
  fun w =>
    let cmd := ["dwebp"; webp; "-o"; png] in
    let w1 := set_procs (fun l => l ++ [cmd]) w in
    match subprocess_dwebp (length (procs w)) cmd (fs w) with
    | None => (Raise IOError, w1)
    | Some (out, code) =>
        let w2 := match out with
                  | Some b => set_fs (fun m => <[png := File b]> m) w1
                  | None => w1
                  end in
        if code =? 0 then (Ok tt, w2)
        else (Raise (CalledProcessError code), w2)
    end.

(** *** NegotiationResolver: [MyStaticFileHandler.get] *)

(** The methods of [tornado.web.StaticFileHandler] the handler calls,
    on a POSIX system and for a normalized absolute root. *)
Definition parse_url_path (url_path : string) : string := url_path.

Definition get_absolute_path (root path : string) : string :=
  os_path_join root path.

Definition validate_absolute_path (root absolute_path : string)
  : M (option string) :=
  fun w =>
    let root := if Py.endswith "/" root then root else root +:+ "/" in
    if negb (Py.startswith root (absolute_path +:+ "/")) then
      (Raise (PyHTTPError 403), w)
    else
      match fs w !! absolute_path with
      | None => (Raise (PyHTTPError 404), w)
      | Some Dir => (Raise (PyHTTPError 403), w)
      | Some (File _) => (Ok (Some absolute_path), w)
      end.

Definition get_content_type (absolute_path : string) : M string :=
  g <- guess_mime_using_file absolute_path ;;
  let '(mime_type, encoding) := g in
  match encoding with
  | Some e => if String.eqb e "gzip" then ret "application/gzip"
              else ret "application/octet-stream"
  | None => ret mime_type
  end.

(** What the handler ends with: the [Vary] header it set, if any, and
    the path it hands to [super().get(path, include_body=...)], the
    static file handler of the framework; or nothing, when
    [validate_absolute_path] has answered already. *)
Inductive static_action : Type :=
| SuperGet (path : string) (include_body : bool)
| Finished.

Record StaticResponse : Type := mkStatic {
  vary : option string;
  action : static_action
}.

Definition MyStaticFileHandler_get (req : Request) (path : string)
  (ext : option string) (include_body : bool) : M StaticResponse :=
  let self_path := parse_url_path path in
  let absolute_path := get_absolute_path datadir self_path in
  v <- validate_absolute_path datadir absolute_path ;;
  match v with
  | None => ret (mkStatic None Finished)
  | Some absolute_path =>
      content_type <- get_content_type absolute_path ;;
      if Py.endswith ".png" absolute_path
         || negb (String.eqb (method req) "GET")
         || negb (String.eqb content_type "image/webp")
      then ret (mkStatic None (SuperGet path include_body))
      else
        (* webp *)
        let vary := Some "User-Agent, Accept" in
        if (Py.contains "image/webp" (Py.lower (headers_get req "Accept"))
            || negb (Py.contains "Gecko" (headers_get req "User-Agent")))
           && negb (bool_decide (ext = Some ".png"))
        then ret (mkStatic vary (SuperGet path include_body))
        else
          let png_path := absolute_path +:+ ".png" in
          e <- os_path_exists png_path ;;
          (if negb e then convert_webp absolute_path png_path else ret tt) ;;
          ret (mkStatic vary (SuperGet (path +:+ ".png") include_body))
  end.

Definition MyStaticFileHandler_head (req : Request) (path : string)
  (ext : option string) : M StaticResponse :=
  MyStaticFileHandler_get req path ext false.

End Handlers.

(** ** CanonicalRedirector: [HashHandler.get] *)

Inductive redirect_result : Type :=
| Redirect (permanent : bool) (url : string)
| RedirectRaise (e : pyexn).

Definition HashHandler_get (p : string) : redirect_result :=
  let hx :=
    if Py.in_char "." p then
      match Py.split_char "." (Some 1%nat) p with
      | [h; ext] => Some (h, "." +:+ ext)
      | _ => None
      end
    else Some (p, EmptyString) in
  match hx with
  | None => RedirectRaise ValueError
  | Some (h, ext) =>
      let h := Py.delete_char "/" h in
      if negb (String.length h =? 40)%nat then RedirectRaise (PyHTTPError 404)
      else Redirect true
             ("/" +:+ Py.take 2 h +:+ "/" +:+ Py.drop 2 h +:+ ext)
  end.

(** ** Vocabulary of the statements *)

(** Two worlds with the same files, faults, users and recorded uploads:
    they differ at most in the memo table and the subprocesses run. *)
Definition same_store (w w' : World) : Prop :=
  fs w' = fs w ∧ unwritable w' = unwritable w ∧
  users w' = users w ∧ images w' = images w ∧
  truncating w' = truncating w.

(** What the sniffer makes of the answers of [file -i path] and of
    [file path] (exit status and standard output each); the second is
    looked at only when the first says [application/octet-stream]. *)
Definition sniff_result (first second : Z * string)
  : result (string * option string) :=
  if negb (fst first =? 0) then Raise (CalledProcessError (fst first))
  else
    match Py.split_ws (snd first) with
    | [_; mime; encoding] =>
        let mime := Py.rstrip_char ";" mime in
        match last (Py.split_char "=" None encoding) with
        | None => Raise ValueError
        | Some encoding =>
            let plain := Ok (mime, if negb (String.eqb encoding "gzip")
                                   then None else Some encoding) in
            if String.eqb mime "application/octet-stream" then
              if negb (fst second =? 0)
              then Raise (CalledProcessError (fst second))
              else
                match Py.split_ws1 (snd second) with
                | [_; desc] =>
                    if Py.contains "Web/P image" desc
                    then Ok ("image/webp", None) else plain
                | _ => Raise ValueError
                end
            else plain
        end
    | _ => Raise ValueError
    end.

(** The negotiation rule in the words of the specification: the original
    WebP is served when the [Accept] header, in lower case, contains
    [image/webp] or the [User-Agent] header does not contain [Gecko], and
    the extension of the request is not [.png]. *)
Definition serve_original_spec (req : Request) (ext : option string) : Prop :=
  ((∃ a b, Py.lower (headers_get req "Accept") = a +:+ "image/webp" +:+ b) ∨
   ¬ (∃ a b, headers_get req "User-Agent" = a +:+ "Gecko" +:+ b)) ∧
  ext ≠ Some ".png".

(** The same rule as the test the handler evaluates. *)
Definition negotiated (req : Request) (ext : option string) : bool :=
  (Py.contains "image/webp" (Py.lower (headers_get req "Accept"))
   || negb (Py.contains "Gecko" (headers_get req "User-Agent")))
  && negb (bool_decide (ext = Some ".png")).

(** The [Vary] header of a negotiated answer. *)
Definition vary_value : option string := Some "User-Agent, Accept".

(** The root of the static handler contains the absolute path, as
    [validate_absolute_path] checks it. *)
Definition in_root (root absolute_path : string) : Prop :=
  Py.startswith (if Py.endswith "/" root then root else root +:+ "/")
                (absolute_path +:+ "/") = true.

(** A command line of the inspection program. *)
Definition file_cmd (argv : list string) : Prop := head argv = Some "file".

(** The command line of the conversion of the object at [webp]. *)
Definition dwebp_cmd (webp : string) : list string :=
  ["dwebp"; webp; "-o"; webp +:+ ".png"].

(** How many times the handlers have run the conversion of [webp], or
    tried to. *)
Definition dwebp_runs (webp : string) (l : list (list string)) : nat :=
  length (filter (λ argv, argv = dwebp_cmd webp) l).

(** The layout of the store: the shard directory and the path of the
    object with hash [h]. *)
Definition shard_dir (datadir h : string) : string :=
  os_path_join datadir (Py.take 2 h).

Definition object_path (datadir h : string) : string :=
  os_path_join (shard_dir datadir h) (Py.drop 2 h).

Definition file_hash (f : HTTPFile) : string := SHA1.hexdigest (body f).

(** The creation of the shard directory of [f] fails in [w]: there is
    none and its path is one of the unwritable ones. *)
Definition mkdir_fails (datadir : string) (w : World) (f : HTTPFile) : bool :=
  bool_decide (fs w !! shard_dir datadir (file_hash f) = None)
  && bool_decide (shard_dir datadir (file_hash f) ∈ unwritable w).

Definition same_hash (f g : HTTPFile) : bool :=
  String.eqb (file_hash f) (file_hash g).

(** The write of [f] fails in a batch that has started in [w] and has
    met the files [earlier]: the object of [f] was not stored in [w], and
    either its path is unwritable, or its path is truncating and no
    earlier file had the same bytes (the first such file leaves its
    truncated object, which the later ones find in the store). *)
Definition write_fails (datadir : string) (w : World)
  (earlier : list HTTPFile) (f : HTTPFile) : bool :=
  let p := object_path datadir (file_hash f) in
  bool_decide (fs w !! p = None)
  && (bool_decide (p ∈ unwritable w)
      || (bool_decide (is_Some (truncating w !! p))
          && negb (existsb (same_hash f) earlier))).

(** For each file of a batch, in order, whether its write fails. *)
Fixpoint write_failures (datadir : string) (w : World)
  (earlier fl : list HTTPFile) : list bool :=
  match fl with
  | [] => []
  | f :: fl' =>
      write_fails datadir w earlier f
      :: write_failures datadir w (earlier ++ [f]) fl'
  end.

(** What a failed write of [f] leaves at the path of its object: nothing
    at an unwritable path, the bytes written at a truncating one. *)
Definition left_by_failed_write (datadir : string) (w : World) (f : HTTPFile)
  : option node :=
  let p := object_path datadir (file_hash f) in
  if bool_decide (p ∈ unwritable w) then None
  else (λ n, File (take n (body f))) <$> truncating w !! p.

(** The file system once the handler has dealt with the file [f], in a
    world with the file system and the faults of [w]. *)
Definition fs_after_upload (datadir : string) (w : World) (f : HTTPFile)
  : gmap string node :=
  let d := shard_dir datadir (file_hash f) in
  let p := object_path datadir (file_hash f) in
  if mkdir_fails datadir w f then fs w
  else
    let m := match fs w !! d with
             | Some _ => fs w
             | None => <[d := Dir]> (fs w)
             end in
    match m !! p with
    | Some _ => m
    | None =>
        if bool_decide (p ∈ unwritable w) then m
        else <[p := File match truncating w !! p with
                         | Some n => take n (body f)
                         | None => body f
                         end]> m
    end.

(** The inspection program gives an answer the sniffer can read for
    [path], in every world where something is stored at [path]. *)
Definition sniff_ok
  (subprocess_file : nat → list string → gmap string node → Z * string)
  (path : string) : Prop :=
  ∀ w, is_Some (fs w !! path) →
       ∃ r, fst (guess_mime_body subprocess_file path w) = Ok r.

(** The public address of the object with hash [h] and extension [ext]. *)
Definition public_url (req : Request) (h ext : string) : string :=
  Py.rstrip_char "/" (full_url req) +:+ "/" +:+ Py.take 2 h +:+ "/"
  +:+ Py.drop 2 h +:+ ext.

(** The file parts of a request, in the order the handler meets them. *)
Definition all_files (req : Request) : list HTTPFile :=
  concat (snd <$> files req).

(** The caller is not on the block list. *)
Definition not_blocked (w : World) (ip : string) : Prop :=
  ∀ u, users w !! ip = Some u → user_blocked u = false.

(** The identity under which the uploads of [ip] are recorded. *)
Definition caller_id (w : World) (ip : string) : nat :=
  match users w !! ip with
  | Some u => user_id u
  | None => S (map_fold (λ _ u n, Nat.max (user_id u) n) O (users w))
  end.

(** The extension the upload handler appends for the sniffed type
    [ftype], empty when there is none. *)
Definition resolved_extension
  (mimetypes_guess_extension : string → option string) (ftype : string)
  : string :=
  default EmptyString
    (if negb (String.eqb ftype "")
     then guess_extension mimetypes_guess_extension ftype else None).

(** The lines written for more than one result. *)
Definition result_lines (items : list (string * string)) : string :=
  foldr (λ item out, fst item +:+ ": " +:+ snd item +:+ Py.nl +:+ out)
        EmptyString items.

(** The text of an answer with the results [items], in the words of the
    specification: a line [name: result] per result when there are two or
    more, the bare result when there is one, nothing when there is none. *)
Definition response_body (items : list (string * string)) : string :=
  match items with
  | [] => EmptyString
  | [(_, r)] => r +:+ Py.nl
  | _ => result_lines items
  end.

(** The number of lines of a text. *)
Fixpoint count_lines (s : string) : nat :=
  match s with
  | EmptyString => O
  | String c s' => ((if Ascii.eqb c "010" then 1 else 0) + count_lines s')%nat
  end.

(** The outcome of one file: [FAIL] when its write has failed, and
    otherwise its public address, with some extension. *)
Definition file_outcome (req : Request) (f : HTTPFile) (failed : bool)
  (res : string) : Prop :=
  if failed then res = "FAIL"
  else ∃ ext, res = public_url req (file_hash f) ext.

(** The outcomes of the files of a batch that has started in [w]. *)
Definition outcomes (datadir : string) (req : Request) (w : World)
  (fl : list HTTPFile) (results : list string) : Prop :=
  Forall2 (λ ff res, file_outcome req (fst ff) (snd ff) res)
          (zip fl (write_failures datadir w [] fl)) results.

(** ** A concrete installation

    Programs, a table and requests on which the handlers can be run: an
    inspection program of the older kind, which calls a RIFF container
    [application/octet-stream] and describes it as a [Web/P image]; a
    conversion program that works, and one that leaves a truncated file
    and exits with status 1. *)

Module Fixture.

Definition bytes_of (s : string) : bytes := String.list_byte_of_string s.
Definition text_of (c : bytes) : string := String.string_of_list_byte c.

(** The standard output of [file -i path] ([mime_mode]) and of
    [file path], from what is stored at [path]. *)
Definition describe (mime_mode : bool) (path : string) (n : option node)
  : string :=
  path +:+ ": " +:+
  match n with
  | Some (File c) =>
      if Py.startswith "RIFF" (text_of c) then
        if mime_mode then "application/octet-stream; charset=binary"
        else "RIFF (little-endian) data, Web/P image"
      else if Py.startswith "GIF8" (text_of c) then
        if mime_mode then "image/gif; charset=binary"
        else "GIF image data, version 89a"
      else
        if mime_mode then "text/plain; charset=us-ascii" else "ASCII text"
  | Some Dir =>
      if mime_mode then "inode/directory; charset=binary" else "directory"
  | None =>
      "cannot open (No such file or directory)"
  end +:+ Py.nl.

Definition file_program (n : nat) (argv : list string) (m : gmap string node)
  : Z * string :=
  match argv with
  | [prog; opt; path] =>
      if String.eqb prog "file" && String.eqb opt "-i"
      then (0, describe true path (m !! path)) else (2, EmptyString)
  | [prog; path] =>
      if String.eqb prog "file"
      then (0, describe false path (m !! path)) else (2, EmptyString)
  | _ => (2, EmptyString)
  end.

(** A conversion that works: the output holds a PNG signature and the
    source. *)
Definition dwebp_program (n : nat) (argv : list string) (m : gmap string node)
  : option (option bytes * Z) :=
  match argv with
  | [_; webp; _; _] =>
      match m !! webp with
      | Some (File c) => Some (Some (bytes_of "PNG:" ++ c), 0)
      | _ => Some (None, 1)
      end
  | _ => Some (None, 2)
  end.

(** A conversion that dies half way: four bytes are written, the exit
    status is 1. *)
Definition dwebp_truncating (n : nat) (argv : list string)
  (m : gmap string node) : option (option bytes * Z) :=
  Some (Some (bytes_of "PNG:"), 1).

(** A conversion program that is not installed. *)
Definition dwebp_missing (n : nat) (argv : list string)
  (m : gmap string node) : option (option bytes * Z) :=
  None.

(** A conversion that cannot decode its source: nothing is written, the
    exit status is 1. *)
Definition dwebp_failing (n : nat) (argv : list string)
  (m : gmap string node) : option (option bytes * Z) :=
  Some (None, 1).

Definition extension_table (ftype : string) : option string :=
  if String.eqb ftype "image/gif" then Some ".gif"
  else if String.eqb ftype "image/jpeg" then Some ".jpe"
  else if String.eqb ftype "text/plain" then Some ".txt"
  else None.

Definition datadir : string := "/data".

Definition webp_body : bytes := bytes_of "RIFFxxxxWEBPVP8 ".
Definition gif_body : bytes := bytes_of "GIF89a".
Definition note_body : bytes := bytes_of "hello".

Definition webp_hash : string := Eval vm_compute in SHA1.hexdigest webp_body.
Definition gif_hash : string := Eval vm_compute in SHA1.hexdigest gif_body.
Definition note_hash : string := Eval vm_compute in SHA1.hexdigest note_body.

Definition webp_path : string := Eval vm_compute in object_path datadir webp_hash.
Definition gif_path : string := Eval vm_compute in object_path datadir gif_hash.
Definition note_path : string := Eval vm_compute in object_path datadir note_hash.

(** The URL path of the WebP object under the static route. *)
Definition webp_url_path : string :=
  Eval vm_compute in Py.take 2 webp_hash +:+ "/" +:+ Py.drop 2 webp_hash.

Definition empty_world : World := mkWorld ∅ ∅ ∅ [] ∅ [] [].

(** A world in which one path cannot be written. *)
Definition world_without (path : string) : World :=
  mkWorld ∅ {[path]} ∅ [] ∅ [] [].


(** A world that stores the WebP object. *)
Definition webp_world : World :=
  mkWorld {[webp_path := File webp_body]} ∅ ∅ [] ∅ [] [].

Definition upload_request (parts : list HTTPFile) : Request :=
  mkRequest "POST" "10.0.0.1" "http://img.example/i/" ∅ [("file", parts)].

Definition browser_request (user_agent accept : string) : Request :=
  mkRequest "GET" "10.0.0.2" "http://img.example/i/x"
    (<["User-Agent" := user_agent]> (<["Accept" := accept]> ∅)) [].

(** A browser that cannot show WebP, and one that says it can. *)
Definition gecko_request : Request :=
  browser_request "Mozilla/5.0 (X11; rv:60.0) Gecko/20100101" "text/html,*/*".
Definition webp_request : Request :=
  browser_request "Mozilla/5.0 (X11; rv:60.0) Gecko/20100101"
                  "text/html,Image/WebP,*/*".

(** The handlers of the installation. *)
Definition post : Request → M Response :=
  IndexHandler_post file_program extension_table datadir.
Definition get : Request → string → option string → bool → M StaticResponse :=
  MyStaticFileHandler_get file_program dwebp_program datadir.
Definition get_truncating
  : Request → string → option string → bool → M StaticResponse :=
  MyStaticFileHandler_get file_program dwebp_truncating datadir.
Definition get_failing
  : Request → string → option string → bool → M StaticResponse :=
  MyStaticFileHandler_get file_program dwebp_failing datadir.
Definition get_missing
  : Request → string → option string → bool → M StaticResponse :=
  MyStaticFileHandler_get file_program dwebp_missing datadir.

(** The uploads used below. *)
Definition note_upload : Request :=
  upload_request [mkFile "note.txt" note_body "text/plain"].
Definition same_name_upload : Request :=
  upload_request [mkFile "a.gif" gif_body "image/gif";
                  mkFile "a.gif" note_body "image/gif"].
Definition same_name_batch : Request :=
  upload_request [mkFile "a.gif" gif_body "image/gif";
                  mkFile "a.gif" note_body "image/gif";
                  mkFile "b.webp" webp_body "image/webp"].
Definition three_upload : Request :=
  upload_request [mkFile "a.gif" gif_body "image/gif";
                  mkFile "n.txt" note_body "text/plain";
                  mkFile "b.webp" webp_body "image/webp"].
Definition photo_upload : Request :=
  upload_request [mkFile "photo" gif_body "image/gif";
                  mkFile "photo" webp_body "image/webp"].

(** The shard directory of the note. *)
Definition note_shard : string :=
  Eval vm_compute in shard_dir datadir note_hash.

(** Three parts sent under the field names [a], [b], [a], and the
    request they make. *)
Definition interleaved_parts : list (string * HTTPFile) :=
  [("a", mkFile "x.gif" gif_body "image/gif");
   ("b", mkFile "y.txt" note_body "text/plain");
   ("a", mkFile "z.webp" webp_body "image/webp")].
Definition interleaved_upload : Request :=
  mkRequest "POST" "10.0.0.1" "http://img.example/i/" ∅
            (request_files interleaved_parts).

(** An inspection program that cannot be run: exit status 1, no output. *)
Definition file_missing (n : nat) (argv : list string) (m : gmap string node)
  : Z * string := (1, EmptyString).

End Fixture.

(** ** The rest of the application *)

(** *** The routes of [main]

    The four rules of [tornado.web.Application], tried in their order on
    the path of the request. A rule is its regular expression followed by
    [$], matched from the start of the path; [$] matches at the end of the
    path and before a line feed that ends it. The groups of the rule are
    the arguments of the handler. [re_word] is the class [\w]. *)

Inductive routed : Type :=
| ToIndex
| ToTool
| ToStatic (path : string) (ext : option string)
| ToHash (p : string).

(** The class [[a-fA-F0-9]]. *)
Definition is_hex (a : ascii) : bool :=
  let n := nat_of_ascii a in
  (((48 <=? n) && (n <=? 57)) || ((97 <=? n) && (n <=? 102))
   || ((65 <=? n) && (n <=? 70)))%nat.

Fixpoint all_chars (p : ascii → bool) (s : string) : bool :=
  match s with
  | EmptyString => true
  | String a s' => p a && all_chars p s'
  end.

(** The longest prefix of characters of a class, and what follows it:
    a starred class, which is greedy. *)
Fixpoint re_span (p : ascii → bool) (s : string) : string * string :=
  match s with
  | EmptyString => (EmptyString, EmptyString)
  | String a s' =>
      if p a then let '(w, r) := re_span p s' in (String a w, r)
      else (EmptyString, s)
  end.

(** [$]. *)
Definition re_end (s : string) : bool :=
  String.eqb s EmptyString || String.eqb s Py.nl.

(** [s] without the prefix [p], if it starts with it. *)
Definition strip_prefix (p s : string) : option string :=
  if Py.startswith p s then Some (Py.drop (String.length p) s) else None.

Section Routes.

Variable re_word : ascii → bool.

(** The optional group [\.\w*] and then [$], on the rest of a path:
    the group, which is absent when the rest is at its end already. *)
Definition re_opt_ext (s : string) : option (option string) :=
  match s with
  | String c s' =>
      if Ascii.eqb c "." then
        let '(w, r) := re_span re_word s' in
        if re_end r then Some (Some (String "." w)) else None
      else if re_end s then Some None else None
  | EmptyString => Some None
  end.

(** [/i/([a-fA-F0-9]{2}/[a-fA-F0-9]{38})], then the optional group
    [\.\w*]. *)
Definition match_static (url_path : string) : option (string * option string) :=
  match strip_prefix "/i/" url_path with
  | None => None
  | Some s =>
      let d := Py.take 2 s in
      match Py.drop 2 s with
      | String c s2 =>
          let f := Py.take 38 s2 in
          if Ascii.eqb c "/"
             && (String.length d =? 2)%nat && all_chars is_hex d
             && (String.length f =? 38)%nat && all_chars is_hex f
          then match re_opt_ext (Py.drop 38 s2) with
               | Some ext => Some (d +:+ "/" +:+ f, ext)
               | None => None
               end
          else None
      | EmptyString => None
      end
  end.

(** [/i/], then one group: [[a-fA-F0-9/]+] and optionally [\.\w*]. *)
Definition match_hash (url_path : string) : option string :=
  match strip_prefix "/i/" url_path with
  | None => None
  | Some s =>
      let '(h, r) := re_span (λ a, is_hex a || Ascii.eqb a "/") s in
      match h with
      | EmptyString => None
      | _ =>
          match re_opt_ext r with
          | Some (Some ext) => Some (h +:+ ext)
          | Some None => Some h
          | None => None
          end
      end
  end.

(** The handler a path is given to, and its arguments. *)
Definition route (url_path : string) : option routed :=
  match strip_prefix "/i" url_path with
  | Some r =>
      if re_end r then Some ToIndex
      else
        match strip_prefix "/i/elimage" url_path with
        | Some r' =>
            if re_end r' then Some ToTool
            else match match_static url_path with
                 | Some (path, ext) => Some (ToStatic path ext)
                 | None => option_map ToHash (match_hash url_path)
                 end
        | None =>
            match match_static url_path with
            | Some (path, ext) => Some (ToStatic path ext)
            | None => option_map ToHash (match_hash url_path)
            end
        end
  | None => None
  end.

End Routes.

(** The class [[a-zA-Z0-9_]]: [\w] on the characters of ASCII. *)
Definition ascii_word (a : ascii) : bool :=
  let n := nat_of_ascii a in
  (((48 <=? n) && (n <=? 57)) || ((97 <=? n) && (n <=? 122))
   || ((65 <=? n) && (n <=? 90)) || (n =? 95))%nat.

(** *** [ToolHandler.get] *)

Definition SCRIPT_PATH : string := "elimage".

(** [s[:-n]]. *)
Definition slice_until_neg (n : nat) (s : string) : string :=
  match n with
  | O => EmptyString
  | _ => Py.take (String.length s - n) s
  end.

(** What the handler ends with: the header it sets and the call of
    [self.render], the template engine of the framework. *)
Record ToolResponse : Type := mkTool {
  tool_content_type : string;
  tool_template : string;
  tool_url : string
}.

Definition ToolHandler_get (req : Request) : ToolResponse :=
  mkTool "text/x-python" "elimage"
         (slice_until_neg (String.length SCRIPT_PATH) (full_url req)).

(** *** More of the concrete installation *)

Module ExtraFixture.
Import Fixture.

(** A world whose only known caller is on the block list. *)
Definition blocked_world : World :=
  mkWorld ∅ ∅ ∅ [] {["10.0.0.1" := User 1 true]} [] [].

(** A POST without file parts, a HEAD request, the request for the
    script, and the upload of the WebP object. *)
Definition empty_upload : Request :=
  mkRequest "POST" "10.0.0.1" "http://img.example/i" ∅ [].
Definition head_request : Request :=
  mkRequest "HEAD" "10.0.0.2" "http://img.example/i/x" ∅ [].
Definition tool_request : Request :=
  mkRequest "GET" "10.0.0.2" "http://img.example/i/elimage" ∅ [].
Definition webp_file : HTTPFile := mkFile "b.webp" webp_body "image/webp".
Definition note_file : HTTPFile := mkFile "note.txt" note_body "text/plain".
Definition webp_upload : Request := upload_request [webp_file].

(** A name of 40 hexadecimal digits. *)
Definition beef : string := "deadbeefdeadbeefdeadbeefdeadbeefdeadbeef".

End ExtraFixture.

(** * Properties *)

#[local] Arguments String.append !_ _ / : simpl nomatch.

(** ** The string operations *)

Module PyFacts.
Import Py.

Lemma length_append (a b : string) :
  String.length (a +:+ b) = (String.length a + String.length b)%nat.
Proof. induction a as [|c a IH]; simpl; [reflexivity | now rewrite IH]. Qed.

Lemma append_nil_r (a : string) : a +:+ EmptyString = a.
Proof. induction a as [|c a IH]; simpl; [reflexivity | now rewrite IH]. Qed.

Lemma append_assoc (a b c : string) : (a +:+ b) +:+ c = a +:+ b +:+ c.
Proof. induction a as [|x a IH]; simpl; [reflexivity | now rewrite IH]. Qed.

Lemma take_drop (n : nat) (s : string) : take n s +:+ drop n s = s.
Proof.
  revert s; induction n as [|n IH]; intros [|c s]; simpl; try reflexivity.
  now rewrite IH.
Qed.

Lemma length_take (n : nat) (s : string) :
  String.length (take n s) = Nat.min n (String.length s).
Proof.
  revert s; induction n as [|n IH]; intros [|c s]; simpl; try reflexivity.
  now rewrite IH.
Qed.

Lemma length_drop (n : nat) (s : string) :
  String.length (drop n s) = (String.length s - n)%nat.
Proof.
  revert s; induction n as [|n IH]; intros [|c s]; simpl; try reflexivity.
  apply IH.
Qed.

Lemma drop_append_length (a b : string) : drop (String.length a) (a +:+ b) = b.
Proof. induction a as [|c a IH]; simpl; [now destruct b | exact IH]. Qed.

(** [in_char] and [split_char] at the first separator. *)
Lemma in_char_append (c : ascii) (a b : string) :
  in_char c (a +:+ b) = in_char c a || in_char c b.
Proof.
  induction a as [|x a IH]; simpl; [reflexivity|].
  rewrite IH. now destruct (Ascii.eqb x c).
Qed.

Lemma split_char_no_sep (c : ascii) (k : option nat) (h : string) :
  in_char c h = false → split_char c k h = [h].
Proof.
  induction h as [|x h IH]; simpl; [reflexivity|].
  intros H. apply orb_false_iff in H as [Hx Hh].
  rewrite Hx, (IH Hh). reflexivity.
Qed.

Lemma split_char_first (c : ascii) (h r : string) :
  in_char c h = false →
  split_char c (Some 1%nat) (h +:+ String c r) = [h; r].
Proof.
  induction h as [|x h IH]; simpl.
  - intros _. rewrite Ascii.eqb_refl.
    assert (E : split_char c (Some 0%nat) r = [r]).
    { clear. induction r as [|y r IH]; simpl; [reflexivity|].
      rewrite IH. now destruct (Ascii.eqb y c). }
    now rewrite E.
  - intros H. apply orb_false_iff in H as [Hx Hh].
    rewrite Hx, (IH Hh). reflexivity.
Qed.

(** Every string splits at its first [c], if it has one. *)
Lemma first_char_decomposition (c : ascii) (p : string) :
  in_char c p = true →
  ∃ h r, p = h +:+ String c r ∧ in_char c h = false.
Proof.
  induction p as [|x p IH]; simpl; [discriminate|].
  destruct (Ascii.eqb x c) eqn:E; simpl.
  - intros _. apply Ascii.eqb_eq in E as ->.
    exists EmptyString, p. split; reflexivity.
  - intros H. destruct (IH H) as (h & r & -> & Hh).
    exists (String x h), r. split; [reflexivity|].
    simpl. now rewrite E.
Qed.

Lemma delete_char_clean (c : ascii) (s : string) :
  in_char c (delete_char c s) = false.
Proof.
  induction s as [|x s IH]; simpl; [reflexivity|].
  destruct (Ascii.eqb x c) eqn:E; simpl; [exact IH | now rewrite E, IH].
Qed.

(** [startswith], [contains] and [endswith] say what their names say. *)
Lemma startswith_spec (p s : string) :
  startswith p s = true ↔ ∃ b, s = p +:+ b.
Proof.
  revert s; induction p as [|x p IH]; intros s; simpl.
  - split; [intros _; now exists s | reflexivity].
  - destruct s as [|y s].
    + split; [discriminate | intros [b Hb]; discriminate].
    + rewrite andb_true_iff, Ascii.eqb_eq, IH. split.
      * intros [-> [b ->]]. now exists b.
      * intros [b Hb]. injection Hb as -> ->. split; [reflexivity | now exists b].
Qed.

Lemma contains_spec (sub s : string) :
  contains sub s = true ↔ ∃ a b, s = a +:+ sub +:+ b.
Proof.
  induction s as [|y s IH].
  - cbn [contains]. rewrite orb_false_r, startswith_spec. split.
    + intros [b Hb]. now exists EmptyString, b.
    + intros (a & b & H). destruct a; [now exists b | discriminate].
  - cbn [contains]. rewrite orb_true_iff, startswith_spec, IH. split.
    + intros [[b Hb] | (a & b & ->)].
      * now exists EmptyString, b.
      * now exists (String y a), b.
    + intros (a & b & H). destruct a as [|x a].
      * left. now exists b.
      * right. injection H as -> ->. now exists a, b.
Qed.

(** The operations on the strings the handlers meet. *)
Example split_first_dot :
  split_char "." (Some 1%nat) "ab.tar.gz" = ["ab"; "tar.gz"].
Proof. reflexivity. Qed.

Example split_charset :
  last (split_char "=" None "charset=binary") = Some "binary".
Proof. reflexivity. Qed.

Example split_file_output :
  split_ws ("/data/ab/cd: image/png; charset=binary" +:+ nl)
  = ["/data/ab/cd:"; "image/png;"; "charset=binary"].
Proof. reflexivity. Qed.

Example split_description :
  split_ws1 ("/data/ab/cd: RIFF (little-endian) data, Web/P image" +:+ nl)
  = ["/data/ab/cd:"; "RIFF (little-endian) data, Web/P image" +:+ nl].
Proof. reflexivity. Qed.

Example rstrip_semicolon : rstrip_char ";" "image/png;" = "image/png".
Proof. reflexivity. Qed.

Example rstrip_slashes : rstrip_char "/" "http://h/i//" = "http://h/i".
Proof. reflexivity. Qed.

Example lower_accept : lower "Image/WebP,*/*;Q=0.8" = "image/webp,*/*;q=0.8".
Proof. reflexivity. Qed.

Lemma endswith_spec (suffix s : string) :
  endswith suffix s = true ↔ ∃ a, s = a +:+ suffix.
Proof.
  unfold endswith. rewrite andb_true_iff, String.eqb_eq, Nat.leb_le. split.
  - intros [H _]. exists (take (String.length s - String.length suffix) s).
    rewrite <- H at 2. symmetry. apply take_drop.
  - intros [a ->]. rewrite length_append. split; [|lia].
    replace (String.length a + String.length suffix - String.length suffix)%nat
      with (String.length a) by lia.
    apply drop_append_length.
Qed.

End PyFacts.

(** ** CanonicalRedirector *)

Section Redirector.
Import Py PyFacts.

(** The raw path [h +:+ e], with no dot in [h] and [e] empty or starting
    at a dot, is resolved from the candidate hash [h] and the extension
    [e]. *)
Lemma HashHandler_get_split (h e : string) :
  in_char "." h = false →
  (e = EmptyString ∨ ∃ r, e = "." +:+ r) →
  HashHandler_get (h +:+ e) =
    let h' := delete_char "/" h in
    if (String.length h' =? 40)%nat
    then Redirect true ("/" +:+ take 2 h' +:+ "/" +:+ drop 2 h' +:+ e)
    else RedirectRaise (PyHTTPError 404).
Proof.
  intros Hh [-> | [r ->]]; unfold HashHandler_get.
  - rewrite append_nil_r, Hh. simpl.
    now destruct (String.length (delete_char "/" h) =? 40)%nat.
  - rewrite in_char_append, Hh. simpl in_char. rewrite orb_true_r.
    change ("." +:+ r) with (String "." r).
    rewrite (split_char_first _ _ _ Hh). simpl.
    now destruct (String.length (delete_char "/" h) =? 40)%nat.
Qed.

Lemma raw_path_split (p : string) :
  ∃ h e, p = h +:+ e ∧ in_char "." h = false ∧
         (e = EmptyString ∨ ∃ r, e = "." +:+ r).
Proof.
  destruct (in_char "." p) eqn:E.
  - destruct (first_char_decomposition _ _ E) as (h & r & -> & Hh).
    exists h, (String "." r). split; [reflexivity|]. split; [exact Hh|].
    right. now exists r.
  - exists p, EmptyString. rewrite append_nil_r. auto.
Qed.


(** The examples of the specification. *)
Example redirect_deadbeef :
  HashHandler_get "deadbeefdeadbeefdeadbeefdeadbeefdeadbeef.jpg"
  = Redirect true "/de/adbeefdeadbeefdeadbeefdeadbeefdeadbeef.jpg".
Proof. reflexivity. Qed.

Example redirect_39_chars :
  HashHandler_get "deadbeefdeadbeefdeadbeefdeadbeefdeadbee.jpg"
  = RedirectRaise (PyHTTPError 404).
Proof. reflexivity. Qed.

Example redirect_41_chars :
  HashHandler_get "deadbeefdeadbeefdeadbeefdeadbeefdeadbeef0"
  = RedirectRaise (PyHTTPError 404).
Proof. reflexivity. Qed.

(** The handler never ends in another error than 404. *)
Lemma HashHandler_get_no_server_error (p : string) :
  HashHandler_get p = RedirectRaise (PyHTTPError 404) ∨
  ∃ url, HashHandler_get p = Redirect true url.
Proof.
  destruct (raw_path_split p) as (h & e & -> & Hh & He).
  rewrite (HashHandler_get_split h e Hh He). cbv zeta.
  destruct (String.length (delete_char "/" h) =? 40)%nat; eauto.
Qed.

End Redirector.

(** ** TypeSniffer *)

Section SnifferFacts.

Variable subprocess_file : nat → list string → gmap string node → Z * string.

Abbreviation run_file := (check_output subprocess_file).
Abbreviation sniff_body := (guess_mime_body subprocess_file).
Abbreviation sniff := (guess_mime_using_file subprocess_file).

Lemma same_store_refl w : same_store w w.
Proof. repeat split. Qed.

Lemma same_store_trans w1 w2 w3 :
  same_store w1 w2 → same_store w2 w3 → same_store w1 w3.
Proof.
  intros (?&?&?&?&?) (?&?&?&?&?). repeat split; congruence.
Qed.

Lemma check_output_frame argv w :
  same_store w (snd (run_file argv w)) ∧
  mime_cache (snd (run_file argv w)) = mime_cache w ∧
  procs (snd (run_file argv w)) = procs w ++ [argv].
Proof.
  unfold run_file.
  destruct (subprocess_file _ _ _) as [code out].
  destruct (code =? 0); simpl; repeat split.
Qed.

Lemma guess_mime_body_frame path w :
  same_store w (snd (sniff_body path w)) ∧
  mime_cache (snd (sniff_body path w)) = mime_cache w ∧
  ∃ more, procs (snd (sniff_body path w)) = procs w ++ more ∧
          Forall file_cmd more.
Proof.
  unfold guess_mime_body, bind.
  pose proof (check_output_frame ["file"; "-i"; path] w) as (Hs & Hc & Hp).
  assert (H1 : ∃ more, procs w ++ [["file"; "-i"; path]] = procs w ++ more ∧
                       Forall file_cmd more).
  { eexists. split; [reflexivity|]. now repeat constructor. }
  assert (H2 : ∃ more, (procs w ++ [["file"; "-i"; path]]) ++ [["file"; path]]
                       = procs w ++ more ∧ Forall file_cmd more).
  { exists [["file"; "-i"; path]; ["file"; path]].
    split; [now rewrite <- app_assoc|]. now repeat constructor. }
  destruct (run_file ["file"; "-i"; path] w) as [[out|e] w1]; simpl in *;
    rewrite <- Hp in H1, H2; [|auto].
  assert (Hnone : ∀ e : pyexn,
    same_store w (snd (raise (A:=string * option string) e w1)) ∧
    mime_cache (snd (raise (A:=string * option string) e w1)) = mime_cache w ∧
    ∃ more, procs (snd (raise (A:=string * option string) e w1))
            = procs w ++ more ∧ Forall file_cmd more) by (intros; simpl; auto).
  assert (Hret : ∀ r : string * option string,
    same_store w (snd (ret r w1)) ∧ mime_cache (snd (ret r w1)) = mime_cache w ∧
    ∃ more, procs (snd (ret r w1)) = procs w ++ more ∧ Forall file_cmd more)
    by (intros; simpl; auto).
  destruct (Py.split_ws out) as [|t0 [|t1 [|t2 [|? ?]]]]; try apply Hnone.
  destruct (last _) as [enc|]; [|apply Hnone].
  destruct (String.eqb _ "application/octet-stream"); [|apply Hret].
  pose proof (check_output_frame ["file"; path] w1) as (Hs2 & Hc2 & Hp2).
  rewrite <- Hp2 in H2.
  assert (Hw2 : same_store w (snd (run_file ["file"; path] w1)) ∧
                mime_cache (snd (run_file ["file"; path] w1)) = mime_cache w).
  { split; [eapply same_store_trans; eauto | congruence]. }
  destruct (run_file ["file"; path] w1) as [[out2|e] w2]; simpl in *;
    [|split; [apply Hw2|]; split; [apply Hw2 | exact H2]].
  destruct (Py.split_ws1 out2) as [|t [|desc [|? ?]]]; simpl;
    try (split; [apply Hw2|]; split; [apply Hw2 | exact H2]).
  destruct (Py.contains _ desc); simpl;
    (split; [apply Hw2|]; split; [apply Hw2 | exact H2]).
Qed.

(** The body of the sniffer answers as [sniff_result] says. *)
Lemma guess_mime_body_result path w :
  fst (sniff_body path w)
  = sniff_result
      (subprocess_file (length (procs w)) ["file"; "-i"; path] (fs w))
      (subprocess_file (S (length (procs w))) ["file"; path] (fs w)).
Proof.
  unfold guess_mime_body, sniff_result, bind.
  unfold check_output at 1.
  destruct (subprocess_file (length (procs w)) _ _) as [code out].
  cbn [fst snd]. destruct (code =? 0); [|reflexivity]. cbn [negb].
  destruct (Py.split_ws out) as [|t0 [|t1 [|t2 [|? ?]]]]; try reflexivity.
  destruct (last _) as [enc|]; [|reflexivity].
  destruct (String.eqb _ "application/octet-stream"); [|reflexivity].
  unfold check_output. cbn [procs fs set_procs].
  rewrite length_app. cbn [length].
  replace (length (procs w) + 1)%nat with (S (length (procs w))) by lia.
  destruct (subprocess_file (S (length (procs w))) _ _) as [code2 out2].
  cbn [fst snd]. destruct (code2 =? 0); [|reflexivity]. cbn [negb].
  destruct (Py.split_ws1 out2) as [|t [|desc [|? ?]]]; try reflexivity.
  now destruct (Py.contains _ desc).
Qed.

Lemma guess_mime_using_file_frame path w :
  same_store w (snd (sniff path w)) ∧
  ∃ more, procs (snd (sniff path w)) = procs w ++ more ∧
          Forall file_cmd more.
Proof.
  unfold guess_mime_using_file.
  destruct (cache_lookup path (mime_cache w)) as [r|]; simpl.
  - split; [repeat split|]. exists []. now rewrite app_nil_r.
  - pose proof (guess_mime_body_frame path w) as (Hs & _ & Hp).
    destruct (sniff_body path w) as [[r|e] w']; simpl in *; auto.
Qed.

(** C8. On a miss of the memo table, let [file -i path] report the type
    [mime] and the encoding [enc]. If [mime] is [application/octet-stream]
    the sniffer runs [file path] as well, and answers [image/webp] with no
    encoding when the description contains [Web/P image]; in every other
    case it answers [mime], and an encoding other than [gzip] is
    discarded. *)
Theorem guess_mime_using_file_policy
  (w : World) (path out t0 t1 t2 enc : string) :
  cache_lookup path (mime_cache w) = None →
  subprocess_file (length (procs w)) ["file"; "-i"; path] (fs w) = (0, out) →
  Py.split_ws out = [t0; t1; t2] →
  last (Py.split_char "=" None t2) = Some enc →
  let mime := Py.rstrip_char ";" t1 in
  let kept := if String.eqb enc "gzip" then Some "gzip" else None in
  let r := sniff path w in
  (mime ≠ "application/octet-stream" →
     fst r = Ok (mime, kept) ∧
     procs (snd r) = procs w ++ [["file"; "-i"; path]]) ∧
  (mime = "application/octet-stream" →
     procs (snd r) = procs w ++ [["file"; "-i"; path]; ["file"; path]] ∧
     ∀ out2 t desc,
       subprocess_file (S (length (procs w))) ["file"; path] (fs w)
         = (0, out2) →
       Py.split_ws1 out2 = [t; desc] →
       ((∃ a b, desc = a +:+ "Web/P image" +:+ b) →
          fst r = Ok ("image/webp", None)) ∧
       (¬ (∃ a b, desc = a +:+ "Web/P image" +:+ b) →
          fst r = Ok (mime, kept))) ∧
  (∀ m e, fst r = Ok (m, e) → enc ≠ "gzip" → e = None).
Proof.
  intros Hmiss Hrun Hsplit Hlast mime kept r.
  assert (Hkept : (if negb (String.eqb enc "gzip") then None else Some enc)
                  = kept).
  { subst kept. destruct (String.eqb_spec enc "gzip") as [->|]; reflexivity. }
  assert (Hr : r =
    match
      (if String.eqb mime "application/octet-stream" then
         bind (run_file ["file"; path])
           (fun result =>
              match Py.split_ws1 result with
              | [_; desc] =>
                  if Py.contains "Web/P image" desc
                  then ret ("image/webp", None)
                  else ret (mime, kept)
              | _ => raise ValueError
              end)
       else ret (mime, kept))
      (set_procs (fun l => l ++ [["file"; "-i"; path]]) w)
    with
    | (Ok x, w') =>
        (Ok x, set_mime_cache (fun l => take lru_maxsize ((path, x) :: l)) w')
    | (Raise e, w') => (Raise e, w')
    end).
  { subst r. unfold guess_mime_using_file. rewrite Hmiss.
    unfold guess_mime_body, bind at 1.
    unfold check_output at 1. rewrite Hrun. simpl.
    rewrite Hsplit, Hlast. fold mime. rewrite Hkept. reflexivity. }
  clearbody r. subst r.
  destruct (String.eqb_spec mime "application/octet-stream") as [Ho|Ho].
  - unfold bind, check_output. cbn [procs fs set_procs].
    rewrite length_app. cbn [length].
    replace (length (procs w) + 1)%nat with (S (length (procs w))) by lia.
    destruct (subprocess_file (S (length (procs w))) ["file"; path] (fs w))
      as [code2 out2] eqn:Hrun2.
    split; [intros; contradiction|]. split.
    + intros _. split.
      * destruct (code2 =? 0); simpl; [|now rewrite <- app_assoc].
        destruct (Py.split_ws1 out2) as [|t [|desc [|? ?]]]; simpl;
          try (now rewrite <- app_assoc).
        destruct (Py.contains _ desc); simpl; now rewrite <- app_assoc.
      * intros out2' t desc [= -> <-] Hsplit2.
        rewrite <- PyFacts.contains_spec. simpl. rewrite Hsplit2.
        destruct (Py.contains "Web/P image" desc); simpl; split; intros H;
          congruence.
    + intros m e Hm Hne. subst kept.
      destruct (String.eqb_spec enc "gzip") as [|_]; [contradiction|].
      destruct (code2 =? 0); simpl in Hm; [|discriminate].
      destruct (Py.split_ws1 out2) as [|t [|desc [|? ?]]]; simpl in Hm;
        try discriminate.
      destruct (Py.contains _ desc); simpl in Hm; congruence.
  - simpl. split; [intros _; split; reflexivity|].
    split; [intros; contradiction|].
    intros m e [= <- <-] Hne. subst kept.
    destruct (String.eqb_spec enc "gzip") as [|_]; [contradiction|reflexivity].
Qed.

End SnifferFacts.

(** ** NegotiationResolver and TranscodeCache *)

Section StaticFacts.

Variable subprocess_file : nat → list string → gmap string node → Z * string.
Variable subprocess_dwebp :
  nat → list string → gmap string node → option (option bytes * Z).
Variable datadir : string.

Abbreviation guess_mime := (guess_mime_using_file subprocess_file).
Abbreviation content_type_of := (get_content_type subprocess_file).
Abbreviation static_get :=
  (MyStaticFileHandler_get subprocess_file subprocess_dwebp datadir).

Lemma negotiated_spec req ext :
  negotiated req ext = true ↔ serve_original_spec req ext.
Proof.
  unfold negotiated, serve_original_spec.
  rewrite andb_true_iff, orb_true_iff, negb_true_iff, negb_true_iff.
  rewrite bool_decide_eq_false, <- !PyFacts.contains_spec.
  rewrite not_true_iff_false. reflexivity.
Qed.

Lemma validate_stored w abs c :
  in_root datadir abs → fs w !! abs = Some (File c) →
  validate_absolute_path datadir abs w = (Ok (Some abs), w).
Proof.
  unfold in_root, validate_absolute_path. intros -> ->. reflexivity.
Qed.

(** A sniffed path is in the memo table afterwards, and a path in the
    table is answered from it, without a subprocess. *)
Lemma cache_lookup_head {V} (k : string) (v : V) l :
  cache_lookup k ((k, v) :: l) = Some v.
Proof. simpl. now rewrite String.eqb_refl. Qed.

Lemma guess_mime_stores path w r w1 :
  guess_mime path w = (Ok r, w1) →
  cache_lookup path (mime_cache w1) = Some r.
Proof.
  unfold guess_mime_using_file.
  destruct (cache_lookup path (mime_cache w)) as [r0|].
  - intros [= <- <-]. apply cache_lookup_head.
  - destruct (guess_mime_body _ path w) as [[r0|e] w']; [|discriminate].
    intros [= <- <-]. apply cache_lookup_head.
Qed.

Lemma guess_mime_hit path w r :
  cache_lookup path (mime_cache w) = Some r →
  guess_mime path w =
    (Ok r, set_mime_cache (λ l, (path, r) :: cache_remove path l) w).
Proof. unfold guess_mime_using_file. now intros ->. Qed.

Lemma content_type_frame abs w :
  same_store w (snd (content_type_of abs w)) ∧
  ∃ more, procs (snd (content_type_of abs w)) = procs w ++ more ∧
          Forall file_cmd more.
Proof.
  unfold get_content_type, bind.
  pose proof (guess_mime_using_file_frame subprocess_file abs w) as H.
  destruct (guess_mime abs w) as [[[m [e|]]|e] w']; simpl in *; try exact H.
  destruct (String.eqb e "gzip"); exact H.
Qed.

(** Once the content type of a path was computed, it is computed again
    from the memo table, in any world with that table. *)
Lemma content_type_again abs w ct w1 w2 :
  content_type_of abs w = (Ok ct, w1) →
  mime_cache w2 = mime_cache w1 →
  ∃ w3, content_type_of abs w2 = (Ok ct, w3) ∧
        fs w3 = fs w2 ∧ procs w3 = procs w2.
Proof.
  unfold get_content_type, bind. intros H Hc.
  destruct (guess_mime abs w) as [[r|e] w'] eqn:Hg; [|discriminate].
  assert (Hl : cache_lookup abs (mime_cache w2) = Some r).
  { rewrite Hc. destruct r as [m [e|]].
    - destruct (String.eqb e "gzip"); injection H as <- <-;
        eapply guess_mime_stores; eauto.
    - injection H as <- <-. eapply guess_mime_stores; eauto. }
  rewrite (guess_mime_hit _ _ _ Hl).
  destruct r as [m [e|]].
  - destruct (String.eqb e "gzip"); injection H as <- <-;
      (eexists; split; [reflexivity|]; split; reflexivity).
  - injection H as <- <-. eexists. split; [reflexivity|]. split; reflexivity.
Qed.

(** What the handler does for a stored WebP object on a GET request. *)
Lemma static_get_webp req path ext ib w w1 c :
  let abs := get_absolute_path datadir path in
  let png := abs +:+ ".png" in
  in_root datadir abs → fs w !! abs = Some (File c) →
  Py.endswith ".png" abs = false → method req = "GET" →
  content_type_of abs w = (Ok "image/webp", w1) →
  static_get req path ext ib w =
    if negotiated req ext then
      (Ok (mkStatic vary_value (SuperGet path ib)), w1)
    else
      match fs w1 !! png with
      | Some _ =>
          (Ok (mkStatic vary_value (SuperGet (path +:+ ".png") ib)), w1)
      | None =>
          let w2 := set_procs (λ l, l ++ [dwebp_cmd abs]) w1 in
          match subprocess_dwebp (length (procs w1)) (dwebp_cmd abs) (fs w1)
          with
          | None => (Raise IOError, w2)
          | Some (out, code) =>
              let w3 := match out with
                        | Some b => set_fs (λ m, <[png := File b]> m) w2
                        | None => w2
                        end in
              if code =? 0
              then (Ok (mkStatic vary_value (SuperGet (path +:+ ".png") ib)),
                    w3)
              else (Raise (CalledProcessError code), w3)
          end
      end.
Proof.
  intros abs png Hroot Hfile Hpng Hget Hct.
  unfold MyStaticFileHandler_get, parse_url_path. fold abs.
  unfold bind at 1. rewrite (validate_stored _ _ _ Hroot Hfile).
  unfold bind at 1. rewrite Hct, Hpng, Hget, !String.eqb_refl.
  cbn [orb negb]. fold (negotiated req ext).
  destruct (negotiated req ext); [reflexivity|].
  unfold bind, os_path_exists, gets, convert_webp, ret. fold png.
  destruct (fs w1 !! png) as [n|] eqn:Hn.
  - rewrite bool_decide_eq_true_2 by eauto. reflexivity.
  - rewrite bool_decide_eq_false_2 by (intros [? ?]; congruence).
    cbn [negb]. fold (dwebp_cmd abs).
    destruct (subprocess_dwebp _ _ _) as [[out code]|]; [|reflexivity].
    destruct (code =? 0); reflexivity.
Qed.

Lemma append_png_neq (s : string) : s ≠ s +:+ ".png".
Proof.
  intros H. apply (f_equal String.length) in H.
  rewrite PyFacts.length_append in H. simpl in H. lia.
Qed.

Lemma get_absolute_path_png path :
  get_absolute_path datadir (path +:+ ".png")
  = get_absolute_path datadir path +:+ ".png".
Proof.
  unfold get_absolute_path, os_path_join.
  assert (E : Py.startswith "/" (path +:+ ".png") = Py.startswith "/" path).
  { destruct path; reflexivity. }
  rewrite E. destruct (Py.startswith "/" path); [reflexivity|].
  destruct (_ || _); now rewrite ?PyFacts.append_assoc.
Qed.

(** Counting the conversions started. *)
Lemma dwebp_runs_app a l1 l2 :
  dwebp_runs a (l1 ++ l2) = (dwebp_runs a l1 + dwebp_runs a l2)%nat.
Proof. unfold dwebp_runs. now rewrite filter_app, length_app. Qed.

Lemma dwebp_runs_files a more : Forall file_cmd more → dwebp_runs a more = 0%nat.
Proof.
  unfold dwebp_runs. induction 1 as [|argv more Hf _ IH]; [reflexivity|].
  rewrite filter_cons. destruct (decide (argv = dwebp_cmd a)) as [->|_].
  - discriminate Hf.
  - exact IH.
Qed.


(** C1, as the code has it. A GET request for a stored object whose
    path does not end in [.png] and whose content type is [image/webp] is
    passed on to the static file handler with the original path exactly
    when the [Accept] header contains [image/webp] (in any case of
    letters) or the [User-Agent] header does not contain [Gecko], and the
    extension of the request is not [.png]; an extension [.png] never
    gets the original. In every other case: when something exists at the
    path with [.png] appended, the request is passed on with that path
    and nothing is converted; when nothing exists there the conversion
    is run, and the request is passed on with that path only if the
    program exits with status 0. When the program cannot be started the
    handler raises [OSError], when it exits with another status
    [CalledProcessError], both status 500; the derived path holds what
    the program has left there. *)
Theorem negotiation_serves
  (req : Request) (path : string) (ext : option string) (ib : bool)
  (w w1 : World) (c : bytes) :
  let abs := get_absolute_path datadir path in
  let png := abs +:+ ".png" in
  let original := Ok (mkStatic vary_value (SuperGet path ib)) in
  let transcoded := Ok (mkStatic vary_value (SuperGet (path +:+ ".png") ib)) in
  method req = "GET" →
  in_root datadir abs → fs w !! abs = Some (File c) →
  ¬ (∃ a, abs = a +:+ ".png") →
  content_type_of abs w = (Ok "image/webp", w1) →
  let r := static_get req path ext ib w in
  (fst r = original ↔ serve_original_spec req ext) ∧
  (serve_original_spec req ext →
     snd r = w1 ∧ fs (snd r) !! abs = Some (File c)) ∧
  (¬ serve_original_spec req ext →
     get_absolute_path datadir (path +:+ ".png") = png ∧
     (∀ n, fs w !! png = Some n →
        fst r = transcoded ∧ fs (snd r) = fs w ∧
        dwebp_runs abs (procs (snd r)) = dwebp_runs abs (procs w)) ∧
     (fs w !! png = None →
        match subprocess_dwebp (length (procs w1)) (dwebp_cmd abs) (fs w) with
        | None =>
            fst r = Raise IOError ∧ status_of_exn IOError = 500 ∧
            fs (snd r) !! png = None
        | Some (out, code) =>
            fs (snd r) !! png = File <$> out ∧
            (code = 0 → fst r = transcoded) ∧
            (code ≠ 0 →
               fst r = Raise (CalledProcessError code) ∧
               status_of_exn (CalledProcessError code) = 500)
        end)) ∧
  (ext = Some ".png" → fst r ≠ original).
Proof.
  intros abs png original transcoded Hget Hroot Hfile Hnopng Hct r.
  assert (Hends : Py.endswith ".png" abs = false).
  { apply not_true_iff_false. now rewrite PyFacts.endswith_spec. }
  pose proof (content_type_frame abs w)
    as [(Hfs & _) (more & Hmore & Hfiles)].
  rewrite Hct in Hfs, Hmore. simpl in Hfs, Hmore.
  assert (Hruns1 : dwebp_runs abs (procs w1) = dwebp_runs abs (procs w)).
  { rewrite Hmore, dwebp_runs_app, (dwebp_runs_files _ _ Hfiles). lia. }
  assert (Hne : transcoded ≠ original).
  { intros [= H]. now apply (append_png_neq path). }
  pose proof (negotiated_spec req ext) as Hspec.
  assert (Hr : r = static_get req path ext ib w) by reflexivity.
  rewrite (static_get_webp req path ext ib w w1 c Hroot Hfile Hends Hget Hct)
    in Hr.
  fold abs png in Hr. rewrite Hfs in Hr. clearbody r.
  assert (Hpngext : ext = Some ".png" → negotiated req ext = false).
  { intros ->. unfold negotiated. rewrite bool_decide_eq_true_2 by done.
    apply andb_false_r. }
  destruct (negotiated req ext).
  - subst r. simpl. split; [tauto|]. split.
    + intros _. split; [reflexivity|]. now rewrite Hfs.
    + split; [intros Hn; exfalso; apply Hn; tauto|].
      intros He. now specialize (Hpngext He).
  - assert (Hno : ¬ serve_original_spec req ext).
    { intros H. apply Hspec in H. discriminate. }
    assert (Hnot : fst r ≠ original).
    { rewrite Hr. destruct (fs w !! png); [exact Hne|].
      destruct (subprocess_dwebp _ _ _) as [[out code]|]; [|discriminate].
      destruct (code =? 0); [exact Hne | discriminate]. }
    split; [split; [intros Ho; contradiction | tauto]|].
    split; [tauto|]. split; [|intros _; exact Hnot].
    intros _. split; [apply get_absolute_path_png|]. split.
    + intros n Hn. rewrite Hn in Hr. subst r. simpl.
      split; [reflexivity|]. split; assumption.
    + intros Hn. rewrite Hn in Hr.
      destruct (subprocess_dwebp _ _ _) as [[out code]|].
      * assert (Hpng : fs (snd r) !! png = File <$> out).
        { rewrite Hr. destruct out, (code =? 0); simpl;
            rewrite ?lookup_insert_eq, ?Hfs; auto. }
        split; [exact Hpng|]. split.
        -- intros ->. now rewrite Hr.
        -- intros Hc. apply Z.eqb_neq in Hc. rewrite Hc in Hr.
           now rewrite Hr.
      * rewrite Hr. simpl. rewrite Hfs. auto.
Qed.

(** The world a request for the [.png] of a stored WebP object leaves:
    the object is still there, the memo table is that after sniffing. *)
Lemma static_get_png_world req path ext ib w w1 c :
  let abs := get_absolute_path datadir path in
  let png := abs +:+ ".png" in
  in_root datadir abs → fs w !! abs = Some (File c) →
  Py.endswith ".png" abs = false → method req = "GET" →
  content_type_of abs w = (Ok "image/webp", w1) →
  let r := static_get req path ext ib w in
  fs (snd r) !! abs = Some (File c) ∧ mime_cache (snd r) = mime_cache w1.
Proof.
  intros abs png Hroot Hfile Hends Hget Hct r.
  pose proof (content_type_frame abs w) as [(Hfs & _) _].
  rewrite Hct in Hfs. simpl in Hfs.
  subst r.
  rewrite (static_get_webp req path ext ib w w1 c Hroot Hfile Hends Hget Hct).
  fold abs png. rewrite <- Hfs in Hfile.
  destruct (negotiated req ext); [now split|].
  destruct (fs w1 !! png); [now split|].
  destruct (subprocess_dwebp _ _ _) as [[[b|] code]|]; [| |now split];
    destruct (code =? 0); simpl; split; try reflexivity; try exact Hfile;
    rewrite lookup_insert_ne; auto; intros H; symmetry in H;
    now apply append_png_neq in H.
Qed.


(** C4, as the code has it. When the conversion a request has started
    ends with a status other than 0, the request fails with status 500,
    and the derived path holds what the program left there: nothing if it
    wrote nothing, and otherwise its output, which stays and which a
    later request for the PNG is served without a new conversion. *)
Theorem transcode_failure
  (req : Request) (path : string) (ext : option string) (ib : bool)
  (w w1 : World) (c : bytes) (out : option bytes) (code : Z) :
  let abs := get_absolute_path datadir path in
  let png := abs +:+ ".png" in
  method req = "GET" →
  in_root datadir abs → fs w !! abs = Some (File c) →
  ¬ (∃ a, abs = a +:+ ".png") →
  content_type_of abs w = (Ok "image/webp", w1) →
  ¬ serve_original_spec req ext →
  fs w !! png = None →
  subprocess_dwebp (length (procs w1)) (dwebp_cmd abs) (fs w)
    = Some (out, code) →
  code ≠ 0 →
  let r := static_get req path ext ib w in
  fst r = Raise (CalledProcessError code) ∧
  status_of_exn (CalledProcessError code) = 500 ∧
  fs (snd r) !! png = File <$> out ∧
  (∀ q, q ≠ png → fs (snd r) !! q = fs w !! q) ∧
  (∀ req2 ext2 ib2,
     method req2 = "GET" → ¬ serve_original_spec req2 ext2 →
     is_Some out →
     let r2 := static_get req2 path ext2 ib2 (snd r) in
     fst r2 = Ok (mkStatic vary_value (SuperGet (path +:+ ".png") ib2)) ∧
     procs (snd r2) = procs (snd r) ∧ fs (snd r2) = fs (snd r)).
Proof.
  intros abs png Hget Hroot Hfile Hnopng Hct Hno Hn Hrun Hcode r.
  assert (Hends : Py.endswith ".png" abs = false).
  { apply not_true_iff_false. now rewrite PyFacts.endswith_spec. }
  pose proof (content_type_frame abs w) as [(Hfs & _) _].
  rewrite Hct in Hfs. simpl in Hfs.
  assert (Hneg : negotiated req ext = false).
  { apply not_true_iff_false. now rewrite negotiated_spec. }
  pose proof (static_get_png_world req path ext ib w w1 c
                Hroot Hfile Hends Hget Hct) as [Hfile1 Hcache1].
  fold abs r in Hfile1, Hcache1.
  assert (Hr : r = static_get req path ext ib w) by reflexivity.
  rewrite (static_get_webp req path ext ib w w1 c
             Hroot Hfile Hends Hget Hct), Hneg in Hr.
  fold abs png in Hr. rewrite Hfs, Hn, Hrun in Hr.
  apply Z.eqb_neq in Hcode. rewrite Hcode in Hr. clearbody r.
  assert (Hpng : fs (snd r) !! png = File <$> out).
  { rewrite Hr. destruct out; simpl.
    - apply lookup_insert_eq.
    - now rewrite Hfs. }
  split; [now rewrite Hr|]. split; [reflexivity|]. split; [exact Hpng|]. split.
  - intros q Hq. rewrite Hr. destruct out; simpl; rewrite ?Hfs; [|reflexivity].
    now rewrite lookup_insert_ne.
  - intros req2 ext2 ib2 Hget2 Hno2 [b ->] r2.
    assert (Hn2 : negotiated req2 ext2 = false).
    { apply not_true_iff_false. now rewrite negotiated_spec. }
    destruct (content_type_again _ _ _ _ (snd r) Hct Hcache1)
      as (w3 & Hct3 & Hfs3 & Hp3).
    subst r2.
    rewrite (static_get_webp req2 path ext2 ib2 (snd r) w3 c
               Hroot Hfile1 Hends Hget2 Hct3), Hn2.
    fold abs png. rewrite Hfs3, Hpng. simpl. auto.
Qed.

End StaticFacts.

(** ** HashAddresser *)

Section HashFacts.

(** The test vectors of FIPS 180. *)
Example sha1_abc :
  SHA1.hexdigest (String.list_byte_of_string "abc")
  = "a9993e364706816aba3e25717850c26c9cd0d89d".
Proof. vm_compute. reflexivity. Qed.

Example sha1_empty :
  SHA1.hexdigest [] = "da39a3ee5e6b4b0d3255bfef95601890afd80709".
Proof. vm_compute. reflexivity. Qed.

Example sha1_two_blocks :
  SHA1.hexdigest
    (String.list_byte_of_string
       "abcdbcdecdefdefgefghfghighijhijkijkljklmklmnlmnomnopnopq")
  = "84983e441c3bd26ebaae4aa1f95129e5e54670f1".
Proof. vm_compute. reflexivity. Qed.

Lemma hexdigit_not_slash (n : Z) : SHA1.hexdigit n ≠ "/"%char.
Proof.
  unfold SHA1.hexdigit.
  destruct (nth_in_or_default (Z.to_nat n) SHA1.hexdigits "0"%char)
    as [Hin | ->]; [|discriminate].
  generalize dependent (nth (Z.to_nat n) SHA1.hexdigits "0"%char).
  intros c Hin. simpl in Hin.
  repeat (destruct Hin as [<- | Hin]; [discriminate|]). contradiction.
Qed.

(** The digest is 40 characters, none of the first three a slash. *)
Lemma hexdigest_shape (b : bytes) :
  ∃ c0 c1 c2 rest,
    SHA1.hexdigest b = String c0 (String c1 (String c2 rest)) ∧
    String.length rest = 37%nat ∧ c0 ≠ "/"%char ∧ c2 ≠ "/"%char.
Proof.
  unfold SHA1.hexdigest.
  destruct (SHA1.digest _) as [[[[h0 h1] h2] h3] h4].
  unfold SHA1.hex_of_state, SHA1.hex8.
  do 4 eexists. split; [reflexivity|]. split; [reflexivity|].
  split; apply hexdigit_not_slash.
Qed.

Lemma hexdigest_length (b : bytes) :
  String.length (SHA1.hexdigest b) = 40%nat.
Proof.
  destruct (hexdigest_shape b) as (c0 & c1 & c2 & rest & -> & Hl & _).
  simpl. now rewrite Hl.
Qed.

End HashFacts.
(** ** The layout of the store *)

Section LayoutFacts.

Variable datadir : string.

Lemma startswith_slash_cons (c : ascii) (s : string) :
  c ≠ "/"%char → Py.startswith "/" (String c s) = false.
Proof.
  intros H. cbn [Py.startswith].
  destruct (Ascii.eqb_spec "/"%char c); [congruence | reflexivity].
Qed.

Lemma os_path_join_rel (a b : string) :
  Py.startswith "/" b = false →
  os_path_join a b =
    a +:+ (if String.eqb a "" || Py.endswith "/" a then "" else "/") +:+ b.
Proof.
  unfold os_path_join. intros ->. now destruct (_ || _).
Qed.

Lemma hexdigit_is_hex (n : Z) : is_hex (SHA1.hexdigit n) = true.
Proof.
  unfold SHA1.hexdigit.
  destruct (nth_in_or_default (Z.to_nat n) SHA1.hexdigits "0"%char)
    as [Hin | ->]; [|reflexivity].
  generalize dependent (nth (Z.to_nat n) SHA1.hexdigits "0"%char).
  intros c Hin. simpl in Hin.
  repeat (destruct Hin as [<- | Hin]; [reflexivity|]). contradiction.
Qed.

(** The digest is made of 40 hexadecimal digits. *)
Lemma hexdigest_hex (b : bytes) :
  all_chars is_hex (SHA1.hexdigest b) = true.
Proof.
  unfold SHA1.hexdigest.
  destruct (SHA1.digest _) as [[[[h0 h1] h2] h3] h4].
  unfold SHA1.hex_of_state, SHA1.hex8, SHA1.nibble. cbn [all_chars].
  now rewrite !hexdigit_is_hex.
Qed.

Lemma all_chars_take p n s : all_chars p s = true → all_chars p (Py.take n s) = true.
Proof.
  revert s; induction n as [|n IH]; intros [|c s]; simpl; try reflexivity.
  rewrite !andb_true_iff. intros [? ?]. auto.
Qed.

Lemma all_chars_drop p n s : all_chars p s = true → all_chars p (Py.drop n s) = true.
Proof.
  revert s; induction n as [|n IH]; intros [|c s]; simpl; auto.
  rewrite !andb_true_iff. intros [? ?]. auto.
Qed.

Lemma all_chars_in_char p c s :
  all_chars p s = true → p c = false → Py.in_char c s = false.
Proof.
  intros Hs Hc. induction s as [|a s IH]; simpl in *; [reflexivity|].
  apply andb_true_iff in Hs as [Ha Hs]. rewrite (IH Hs).
  destruct (Ascii.eqb_spec a c) as [->|_]; [congruence | reflexivity].
Qed.

Lemma delete_char_absent c s : Py.in_char c s = false → Py.delete_char c s = s.
Proof.
  induction s as [|a s IH]; simpl; [reflexivity|].
  intros H. apply orb_false_iff in H as [Ha Hs]. now rewrite Ha, IH.
Qed.

Lemma drop_append_more (x y : string) (n : nat) :
  Py.drop (String.length x + n) (x +:+ y) = Py.drop n y.
Proof. induction x as [|c x IH]; simpl; [reflexivity | exact IH]. Qed.

Lemma take_append_length (x y : string) :
  Py.take (String.length x) (x +:+ y) = x.
Proof. induction x as [|c x IH]; simpl; [now destruct y | now rewrite IH]. Qed.

(** A path that ends with a character other than a slash. *)
Lemma endswith_slash_last (x : string) (c : ascii) :
  c ≠ "/"%char → Py.endswith "/" (x +:+ String c EmptyString) = false.
Proof.
  intros Hc. unfold Py.endswith. rewrite PyFacts.length_append. cbn [String.length].
  replace (String.length x + 1 - 1)%nat with (String.length x + 0)%nat by lia.
  rewrite drop_append_more. cbn [Py.drop].
  destruct (String.eqb_spec (String c EmptyString) "/") as [[= ->]|_];
    [contradiction | reflexivity].
Qed.

Lemma static_path_of_digest (b : bytes) :
  let h := SHA1.hexdigest b in
  get_absolute_path datadir (Py.take 2 h +:+ "/" +:+ Py.drop 2 h)
  = object_path datadir h.
Proof.
  cbv zeta.
  pose proof (hexdigest_hex b) as Hhex.
  destruct (hexdigest_shape b) as (c0 & c1 & c2 & rest & E & Hl & H0 & H2).
  rewrite E in *. cbn [Py.take Py.drop].
  assert (H1 : c1 ≠ "/"%char).
  { cbn [all_chars] in Hhex. apply andb_true_iff in Hhex as [_ Hhex].
    apply andb_true_iff in Hhex as [Hc1 _]. intros ->. discriminate. }
  unfold get_absolute_path, object_path, shard_dir. cbn [Py.take Py.drop].
  rewrite (os_path_join_rel datadir (String c0 (String c1 EmptyString)))
    by now apply startswith_slash_cons.
  rewrite (os_path_join_rel datadir)
    by (cbn [String.append]; now apply startswith_slash_cons).
  set (sep := if String.eqb datadir "" || Py.endswith "/" datadir
              then EmptyString else "/").
  rewrite os_path_join_rel by now apply startswith_slash_cons.
  assert (Hne : String.eqb (datadir +:+ sep +:+ String c0 (String c1 EmptyString))
                  "" = false).
  { apply String.eqb_neq. intros H. apply (f_equal String.length) in H.
    rewrite !PyFacts.length_append in H. simpl in H. lia. }
  assert (Hend : Py.endswith "/"
                   (datadir +:+ sep +:+ String c0 (String c1 EmptyString))
                 = false).
  { replace (datadir +:+ sep +:+ String c0 (String c1 EmptyString))
      with ((datadir +:+ sep +:+ String c0 EmptyString)
            +:+ String c1 EmptyString)
      by (rewrite !PyFacts.append_assoc; reflexivity).
    now apply endswith_slash_last. }
  rewrite Hne, Hend. cbn [orb].
  rewrite !PyFacts.append_assoc. reflexivity.
Qed.

(** X11. The upload handler stores an object where the static handler
    looks for it: the object path of the digest [h] of any bytes is the
    absolute path of the URL path [h[:2]/h[2:]], whatever the data
    directory; and the object path of a file part is that of its hash. *)
Theorem object_path_is_static_path (f : HTTPFile) :
  let h := file_hash f in
  String.length (Py.take 2 h +:+ "/" +:+ Py.drop 2 h) = 41%nat ∧
  get_absolute_path datadir (Py.take 2 h +:+ "/" +:+ Py.drop 2 h)
  = object_path datadir h.
Proof.
  cbv zeta. split; [|apply static_path_of_digest].
  rewrite !PyFacts.length_append, PyFacts.length_take, PyFacts.length_drop.
  unfold file_hash. rewrite hexdigest_length. reflexivity.
Qed.

Lemma append_inv_head (a b c : string) : a +:+ b = a +:+ c → b = c.
Proof.
  induction a as [|x a IH]; cbn [String.append]; [auto|].
  intros [= H]. auto.
Qed.

(** The path of an object, spelled out. *)
Lemma object_path_explicit (b : bytes) :
  let h := SHA1.hexdigest b in
  object_path datadir h
  = datadir
    +:+ (if String.eqb datadir "" || Py.endswith "/" datadir then "" else "/")
    +:+ Py.take 2 h +:+ "/" +:+ Py.drop 2 h.
Proof.
  cbv zeta. rewrite <- static_path_of_digest. unfold get_absolute_path.
  apply os_path_join_rel.
  destruct (hexdigest_shape b) as (c0 & c1 & c2 & rest & -> & _ & H0 & _).
  cbn [Py.take String.append]. now apply startswith_slash_cons.
Qed.

(** Two digests with one object path are one digest. *)
Lemma object_path_inj (b b' : bytes) :
  object_path datadir (SHA1.hexdigest b)
  = object_path datadir (SHA1.hexdigest b') →
  SHA1.hexdigest b = SHA1.hexdigest b'.
Proof.
  rewrite !object_path_explicit. intros H. do 2 apply append_inv_head in H.
  set (h := SHA1.hexdigest b) in *. set (h' := SHA1.hexdigest b') in *.
  assert (L : String.length (Py.take 2 h) = 2%nat)
    by (rewrite PyFacts.length_take; unfold h; rewrite hexdigest_length;
        reflexivity).
  assert (L' : String.length (Py.take 2 h') = 2%nat)
    by (rewrite PyFacts.length_take; unfold h'; rewrite hexdigest_length;
        reflexivity).
  assert (Ht : Py.take 2 h = Py.take 2 h').
  { pose proof (take_append_length (Py.take 2 h) ("/" +:+ Py.drop 2 h)) as E.
    pose proof (take_append_length (Py.take 2 h') ("/" +:+ Py.drop 2 h')) as E'.
    rewrite L in E. rewrite L' in E'. rewrite <- E, <- E', H. reflexivity. }
  assert (Hd : Py.drop 2 h = Py.drop 2 h').
  { pose proof (drop_append_more (Py.take 2 h) ("/" +:+ Py.drop 2 h) 1) as E.
    pose proof (drop_append_more (Py.take 2 h') ("/" +:+ Py.drop 2 h') 1)
      as E'.
    rewrite L in E. rewrite L' in E'.
    change (Py.drop 1 ("/" +:+ Py.drop 2 h)) with (Py.drop 2 h) in E.
    change (Py.drop 1 ("/" +:+ Py.drop 2 h')) with (Py.drop 2 h') in E'.
    rewrite <- E, <- E'. now rewrite H. }
  rewrite <- (PyFacts.take_drop 2 h), <- (PyFacts.take_drop 2 h').
  now rewrite Ht, Hd.
Qed.

(** A relative path joined to a data directory lies in that directory. *)
Lemma in_root_join (path : string) :
  datadir ≠ EmptyString → Py.startswith "/" path = false →
  in_root datadir (get_absolute_path datadir path).
Proof.
  intros Hd Hp. unfold in_root, get_absolute_path.
  rewrite (os_path_join_rel _ _ Hp).
  apply String.eqb_neq in Hd. rewrite Hd. cbn [orb].
  apply PyFacts.startswith_spec.
  destruct (Py.endswith "/" datadir).
  - exists (path +:+ "/"). cbn [String.append].
    now rewrite !PyFacts.append_assoc.
  - exists (path +:+ "/"). now rewrite !PyFacts.append_assoc.
Qed.

End LayoutFacts.

(** ** ContentStore *)

Section UploadFacts.

Variable subprocess_file : nat → list string → gmap string node → Z * string.
Variable mimetypes_guess_extension : string → option string.
Variable datadir : string.

Abbreviation upload :=
  (upload_file subprocess_file mimetypes_guess_extension datadir).
Abbreviation post :=
  (IndexHandler_post subprocess_file mimetypes_guess_extension datadir).
Abbreviation ext_of := (resolved_extension mimetypes_guess_extension).
Abbreviation shard_of f := (shard_dir datadir (file_hash f)).
Abbreviation object_of f := (object_path datadir (file_hash f)).

(** *** The layout *)

Lemma shard_dir_length (b : bytes) :
  String.length (shard_dir datadir (SHA1.hexdigest b)) =
  (String.length datadir
   + String.length (if String.eqb datadir "" || Py.endswith "/" datadir
                    then "" else "/") + 2)%nat.
Proof.
  destruct (hexdigest_shape b) as (c0 & c1 & c2 & rest & -> & Hl & H0 & H2).
  unfold shard_dir. cbn [Py.take].
  rewrite os_path_join_rel by now apply startswith_slash_cons.
  rewrite !PyFacts.length_append. simpl. lia.
Qed.

Lemma object_path_length (b : bytes) :
  (String.length (shard_dir datadir (SHA1.hexdigest b)) + 38
   ≤ String.length (object_path datadir (SHA1.hexdigest b)))%nat.
Proof.
  unfold object_path.
  destruct (hexdigest_shape b) as (c0 & c1 & c2 & rest & E & Hl & H0 & H2).
  assert (Hd : Py.drop 2 (SHA1.hexdigest b) = String c2 rest) by now rewrite E.
  rewrite Hd, os_path_join_rel by now apply startswith_slash_cons.
  rewrite !PyFacts.length_append. simpl. lia.
Qed.

(** No object lies where a shard directory does. *)
Lemma object_path_not_shard_dir (b b' : bytes) :
  object_path datadir (SHA1.hexdigest b) ≠ shard_dir datadir (SHA1.hexdigest b').
Proof.
  intros H. apply (f_equal String.length) in H.
  pose proof (object_path_length b) as Hle.
  rewrite (shard_dir_length b) in Hle. rewrite (shard_dir_length b') in H. lia.
Qed.

Lemma object_not_shard (f g : HTTPFile) : object_of f ≠ shard_of g.
Proof. apply object_path_not_shard_dir. Qed.

Lemma object_of_inj (f g : HTTPFile) :
  object_of f = object_of g → same_hash f g = true.
Proof.
  intros H. apply object_path_inj in H. unfold same_hash, file_hash.
  rewrite H. apply String.eqb_refl.
Qed.

Lemma same_hash_object (f g : HTTPFile) :
  same_hash f g = true → object_of f = object_of g.
Proof. unfold same_hash. intros H. apply String.eqb_eq in H. now rewrite H. Qed.

(** *** The file system after one file *)

Lemma fs_after_upload_keeps w f q n :
  fs w !! q = Some n → fs_after_upload datadir w f !! q = Some n.
Proof.
  intros Hq. unfold fs_after_upload.
  destruct (mkdir_fails datadir w f); [exact Hq|].
  set (m := match fs w !! shard_of f with
            | Some _ => fs w
            | None => <[shard_of f := Dir]> (fs w)
            end).
  assert (Hm : m !! q = Some n).
  { subst m. destruct (fs w !! shard_of f) eqn:Hd; [exact Hq|].
    rewrite lookup_insert_ne; [exact Hq|]. intros <-. congruence. }
  destruct (m !! object_of f) eqn:Hp; [exact Hm|].
  destruct (bool_decide _); [exact Hm|].
  rewrite lookup_insert_ne; [exact Hm|]. intros <-. congruence.
Qed.

Lemma fs_after_upload_new w f q :
  fs w !! q = None → is_Some (fs_after_upload datadir w f !! q) →
  (q ∉ unwritable w) ∧ (q = shard_of f ∨ q = object_of f).
Proof.
  unfold fs_after_upload, mkdir_fails. intros Hq [n Hn].
  assert (Hstore : ∀ m : gmap string node,
    (m !! q = None ∨ (q = shard_of f ∧ q ∉ unwritable w)) →
    match m !! object_of f with
    | Some _ => m
    | None =>
        if bool_decide (object_of f ∈ unwritable w) then m
        else <[object_of f :=
               File match truncating w !! object_of f with
                    | Some n => take n (body f)
                    | None => body f
                    end]> m
    end !! q = Some n →
    (q ∉ unwritable w) ∧ (q = shard_of f ∨ q = object_of f)).
  { intros m Hm. destruct (m !! object_of f) eqn:Hp.
    - intros E. destruct Hm as [Hm | [-> Hu]]; [congruence | auto].
    - destruct (decide (object_of f ∈ unwritable w)) as [Hu|Hu].
      + rewrite bool_decide_eq_true_2 by exact Hu. intros E.
        destruct Hm as [Hm | [-> Hu']]; [congruence | auto].
      + rewrite bool_decide_eq_false_2 by exact Hu.
        destruct (decide (q = object_of f)) as [->|Hne]; [auto|].
        rewrite lookup_insert_ne by auto. intros E.
        destruct Hm as [Hm | [-> Hu']]; [congruence | auto]. }
  destruct (fs w !! shard_of f) eqn:Hd.
  - rewrite bool_decide_eq_false_2 in Hn by discriminate. cbn [andb] in Hn.
    apply (Hstore (fs w)); auto.
  - rewrite bool_decide_eq_true_2 in Hn by reflexivity. cbn [andb] in Hn.
    destruct (decide (shard_of f ∈ unwritable w)) as [Hu|Hu].
    + rewrite bool_decide_eq_true_2 in Hn by exact Hu. congruence.
    + rewrite bool_decide_eq_false_2 in Hn by exact Hu.
      apply (Hstore (<[shard_of f := Dir]> (fs w))); [|exact Hn].
      destruct (decide (q = shard_of f)) as [->|Hne]; [auto|].
      left. now rewrite lookup_insert_ne by auto.
Qed.

(** A path at which nothing can be created holds what it held. *)
Lemma fs_after_upload_frozen w f q :
  q ∈ unwritable w → fs_after_upload datadir w f !! q = fs w !! q.
Proof.
  intros Hu. destruct (fs w !! q) as [n|] eqn:Hq.
  - now apply fs_after_upload_keeps.
  - destruct (fs_after_upload datadir w f !! q) as [n|] eqn:Hn; [|reflexivity].
    destruct (fs_after_upload_new w f q Hq) as [Hnu _]; [eauto | contradiction].
Qed.

Lemma fs_after_upload_object w f :
  mkdir_fails datadir w f = false →
  fs_after_upload datadir w f !! object_of f
  = match fs w !! object_of f with
    | Some n => Some n
    | None =>
        if bool_decide (object_of f ∈ unwritable w) then None
        else Some (File match truncating w !! object_of f with
                        | Some n => take n (body f)
                        | None => body f
                        end)
    end.
Proof.
  intros Hm. unfold fs_after_upload. rewrite Hm.
  set (m := match fs w !! shard_of f with
            | Some _ => fs w
            | None => <[shard_of f := Dir]> (fs w)
            end).
  assert (Hmq : m !! object_of f = fs w !! object_of f).
  { subst m. destruct (fs w !! shard_of f); [reflexivity|].
    apply lookup_insert_ne. intros E. symmetry in E.
    now apply object_not_shard in E. }
  rewrite Hmq. destruct (fs w !! object_of f) eqn:Hp; [now rewrite Hmq|].
  destruct (bool_decide _); [now rewrite Hmq|]. apply lookup_insert_eq.
Qed.



(** Whether a directory or a write fails, as the batch goes on. *)
Lemma mkdir_fails_step w w1 f g :
  fs w1 = fs_after_upload datadir w f → unwritable w1 = unwritable w →
  mkdir_fails datadir w1 g = mkdir_fails datadir w g.
Proof.
  unfold mkdir_fails. intros -> ->.
  destruct (decide (shard_of g ∈ unwritable w)) as [Hu|Hu].
  - now rewrite fs_after_upload_frozen.
  - rewrite (bool_decide_eq_false_2 _ Hu). now rewrite !andb_false_r.
Qed.

Lemma write_fails_step w w1 f earlier g :
  mkdir_fails datadir w f = false →
  fs w1 = fs_after_upload datadir w f →
  unwritable w1 = unwritable w → truncating w1 = truncating w →
  write_fails datadir w1 earlier g = write_fails datadir w (f :: earlier) g.
Proof.
  intros Hm Hfs Hu Ht. unfold write_fails. cbv zeta. rewrite Hfs, Hu, Ht.
  cbn [existsb].
  destruct (decide (object_of g ∈ unwritable w)) as [Hin|Hin].
  - rewrite fs_after_upload_frozen by exact Hin.
    rewrite (bool_decide_eq_true_2 _ Hin). reflexivity.
  - rewrite (bool_decide_eq_false_2 _ Hin). cbn [orb].
    destruct (fs w !! object_of g) as [n|] eqn:Hg.
    + rewrite (fs_after_upload_keeps w f _ n Hg).
      now rewrite !bool_decide_eq_false_2 by discriminate.
    + rewrite (bool_decide_eq_true_2 (None = None)) by reflexivity.
      cbn [andb]. destruct (same_hash g f) eqn:Hs.
      * apply same_hash_object in Hs. rewrite Hs in *.
        rewrite (fs_after_upload_object w f Hm), Hg.
        rewrite (bool_decide_eq_false_2 _ Hin).
        rewrite bool_decide_eq_false_2 by discriminate.
        cbn [andb orb negb]. now rewrite andb_false_r.
      * cbn [orb].
        destruct (fs_after_upload datadir w f !! object_of g) as [n|] eqn:Hn;
          [|now rewrite bool_decide_eq_true_2 by reflexivity].
        exfalso. destruct (fs_after_upload_new w f _ Hg) as [_ [E|E]];
          [eauto | | ].
        -- now apply object_not_shard in E.
        -- apply object_of_inj in E. congruence.
Qed.

Lemma write_failures_step w w1 f earlier fl :
  mkdir_fails datadir w f = false →
  fs w1 = fs_after_upload datadir w f →
  unwritable w1 = unwritable w → truncating w1 = truncating w →
  write_failures datadir w1 earlier fl
  = write_failures datadir w (f :: earlier) fl.
Proof.
  intros Hm Hfs Hu Ht. revert earlier.
  induction fl as [|g fl IH]; intros earlier; [reflexivity|].
  cbn [write_failures]. rewrite (write_fails_step w w1 f) by assumption.
  now rewrite IH.
Qed.

Lemma write_fails_same_store w w' earlier g :
  fs w' = fs w → unwritable w' = unwritable w →
  truncating w' = truncating w →
  write_fails datadir w' earlier g = write_fails datadir w earlier g.
Proof. unfold write_fails. now intros -> -> ->. Qed.

Lemma write_failures_same_store w w' earlier fl :
  fs w' = fs w → unwritable w' = unwritable w →
  truncating w' = truncating w →
  write_failures datadir w' earlier fl = write_failures datadir w earlier fl.
Proof.
  intros Hfs Hu Ht. revert earlier.
  induction fl as [|g fl IH]; intros earlier; [reflexivity|].
  cbn [write_failures]. now rewrite IH, (write_fails_same_store w w').
Qed.

Lemma write_failures_length w earlier fl :
  length (write_failures datadir w earlier fl) = length fl.
Proof.
  revert earlier. induction fl as [|g fl IH]; intros earlier; [reflexivity|].
  cbn [write_failures length]. now rewrite IH.
Qed.

(** *** One file *)

Lemma guess_mime_total path w :
  sniff_ok subprocess_file path → is_Some (fs w !! path) →
  ∃ r w', guess_mime_using_file subprocess_file path w = (Ok r, w') ∧
          same_store w w' ∧
          cache_lookup path (mime_cache w') = Some r ∧
          (∀ r0, cache_lookup path (mime_cache w) = Some r0 → r = r0).
Proof.
  intros Hok Hthere.
  pose proof (guess_mime_using_file_frame subprocess_file path w) as [Hs _].
  pose proof (guess_mime_stores subprocess_file path w) as Hst.
  unfold guess_mime_using_file in *.
  destruct (cache_lookup path (mime_cache w)) as [r0|] eqn:Hl.
  - exists r0; eexists. split; [reflexivity|]. split; [exact Hs|].
    split; [now apply Hst | congruence].
  - destruct (Hok w Hthere) as [r Hr].
    destruct (guess_mime_body subprocess_file path w) as [[r'|e] w'];
      simpl in Hr; [|discriminate].
    injection Hr as ->. exists r; eexists. split; [reflexivity|].
    split; [exact Hs|]. split; [now apply Hst | discriminate].
Qed.

(** The address the handler composes is the public address. *)
Lemma upload_url req h (g : string * option string) :
  Py.rstrip_char "/" (full_url req) +:+ "/" +:+ Py.take 2 h +:+ "/" +:+
    match (if negb (String.eqb (fst g) "")
           then guess_extension mimetypes_guess_extension (fst g)
           else None) with
    | Some e => if negb (String.eqb e "") then Py.drop 2 h +:+ e
                else Py.drop 2 h
    | None => Py.drop 2 h
    end
  = public_url req h (ext_of (fst g)).
Proof.
  unfold public_url, resolved_extension.
  destruct (if negb _ then _ else _) as [e|]; simpl.
  - destruct (String.eqb_spec e "") as [->|_]; simpl;
      now rewrite ?PyFacts.append_nil_r.
  - now rewrite PyFacts.append_nil_r.
Qed.

(** What follows the write: the content inspection and the address. *)
Abbreviation sniff_then req f ret_ st w :=
  (match guess_mime_using_file subprocess_file (object_of f) w with
   | (Ok g, w2) =>
       (Ok (od_set (filename f)
              (public_url req (file_hash f) (ext_of (fst g))) ret_, st), w2)
   | (Raise e, w2) => (Raise e, w2)
   end).

(** What [upload_file] does once the shard directory is there. *)
Lemma upload_store_eq req (f : HTTPFile) ret_ (st : Z) wa :
  let h := file_hash f in
  let fpath := object_path datadir h in
  (e0 <- os_path_exists fpath ;;
   stored <- (if negb e0
              then try_IOError (open_write fpath (body f) ;; ret true)
                               (ret false)
              else ret true) ;;
   if negb stored then
     ret (od_set (filename f) "FAIL" ret_, 500)
   else
     g <- guess_mime_using_file subprocess_file fpath ;;
     ret (od_set (filename f)
            (Py.rstrip_char "/" (full_url req) +:+ "/" +:+ Py.take 2 h
             +:+ "/" +:+
             match (if negb (String.eqb (fst g) "")
                    then guess_extension mimetypes_guess_extension (fst g)
                    else None) with
             | Some e => if negb (String.eqb e "") then Py.drop 2 h +:+ e
                         else Py.drop 2 h
             | None => Py.drop 2 h
             end) ret_, st)) wa
  = match fs wa !! fpath with
    | Some _ => sniff_then req f ret_ st wa
    | None =>
        if bool_decide (fpath ∈ unwritable wa)
        then (Ok (od_set (filename f) "FAIL" ret_, 500), wa)
        else
          match truncating wa !! fpath with
          | Some n =>
              (Ok (od_set (filename f) "FAIL" ret_, 500),
               set_fs (λ m, <[fpath := File (take n (body f))]> m) wa)
          | None =>
              sniff_then req f ret_ st
                (set_fs (λ m, <[fpath := File (body f)]> m) wa)
          end
    end.
Proof.
  intros h fpath.
  assert (Hsniff : ∀ w0 : World,
    (g <- guess_mime_using_file subprocess_file fpath ;;
     ret (od_set (filename f)
            (Py.rstrip_char "/" (full_url req) +:+ "/" +:+ Py.take 2 h
             +:+ "/" +:+
             match (if negb (String.eqb (fst g) "")
                    then guess_extension mimetypes_guess_extension (fst g)
                    else None) with
             | Some e => if negb (String.eqb e "") then Py.drop 2 h +:+ e
                         else Py.drop 2 h
             | None => Py.drop 2 h
             end) ret_, st)) w0
    = sniff_then req f ret_ st w0).
  { intros w0. unfold bind. fold h fpath.
    destruct (guess_mime_using_file subprocess_file fpath w0) as [[g|e] w2];
      [|reflexivity].
    unfold ret. now rewrite upload_url. }
  unfold bind at 1. unfold os_path_exists at 1. unfold gets at 1.
  destruct (fs wa !! fpath) as [n|] eqn:Hn.
  - rewrite bool_decide_eq_true_2 by eauto. cbn [negb].
    unfold bind at 1. unfold ret at 1. cbn [negb]. apply Hsniff.
  - rewrite bool_decide_eq_false_2 by (intros [? ?]; discriminate).
    cbn [negb].
    unfold bind at 1. unfold try_IOError, bind at 1. unfold open_write.
    destruct (bool_decide (fpath ∈ unwritable wa)); [reflexivity|].
    destruct (truncating wa !! fpath) as [k|]; [reflexivity|].
    unfold ret at 1. cbn [negb]. apply Hsniff.
Qed.

(** [upload_file], case by case. *)
Lemma upload_file_eq req uid f ret_ st w :
  upload req uid f (ret_, st) w =
  let w0 := set_images (λ l, l ++ [(uid, file_hash f)]) w in
  if mkdir_fails datadir w f then (Raise IOError, w0)
  else
    let w1 := set_fs (λ _, fs_after_upload datadir w f) w0 in
    if write_fails datadir w [] f
    then (Ok (od_set (filename f) "FAIL" ret_, 500), w1)
    else sniff_then req f ret_ st w1.
Proof.
  cbv zeta.
  assert (Hne : object_of f ≠ shard_of f) by apply object_not_shard.
  unfold upload_file. fold (file_hash f).
  fold (shard_dir datadir (file_hash f)).
  fold (object_path datadir (file_hash f)).
  pose proof (upload_store_eq req f ret_ st) as Hstore.
  cbv zeta in Hstore.
  unfold bind at 1. unfold add_image, modify at 1.
  unfold bind at 1. unfold os_path_exists at 1. unfold gets at 1.
  cbn [fs set_images]. unfold bind at 1.
  unfold mkdir_fails, write_fails, fs_after_upload, mkdir_fails.
  cbv zeta. cbn [existsb negb]. rewrite andb_true_r.
  destruct (fs w !! shard_of f) as [nd|] eqn:Hd.
  - rewrite bool_decide_eq_true_2 by eauto.
    rewrite (bool_decide_eq_false_2 (Some nd = None)) by discriminate.
    cbn [negb andb]. unfold ret at 1. rewrite Hstore. cbn [fs set_images].
    destruct (fs w !! object_of f) as [np|] eqn:Hp.
    + rewrite bool_decide_eq_false_2 by discriminate. reflexivity.
    + rewrite (bool_decide_eq_true_2 (None = None)) by reflexivity.
      cbn [andb unwritable truncating set_images].
      destruct (bool_decide (object_of f ∈ unwritable w)); [reflexivity|].
      cbn [orb].
      destruct (truncating w !! object_of f) as [k|] eqn:Ht.
      * rewrite bool_decide_eq_true_2 by eauto. reflexivity.
      * rewrite bool_decide_eq_false_2 by (intros [? ?]; discriminate).
        reflexivity.
  - rewrite (bool_decide_eq_false_2 (is_Some None))
      by (intros [? ?]; discriminate).
    rewrite (bool_decide_eq_true_2 (None = None)) by reflexivity.
    cbn [negb andb]. unfold os_mkdir. cbn [unwritable set_images].
    destruct (bool_decide (shard_of f ∈ unwritable w)); [reflexivity|].
    rewrite Hstore. cbn [fs set_fs set_images].
    rewrite lookup_insert_ne by auto.
    destruct (fs w !! object_of f) as [np|] eqn:Hp.
    + rewrite bool_decide_eq_false_2 by discriminate. reflexivity.
    + rewrite (bool_decide_eq_true_2 (None = None)) by reflexivity.
      cbn [andb unwritable truncating set_images set_fs].
      destruct (bool_decide (object_of f ∈ unwritable w)); [reflexivity|].
      cbn [orb].
      destruct (truncating w !! object_of f) as [k|] eqn:Ht.
      * rewrite bool_decide_eq_true_2 by eauto. reflexivity.
      * rewrite bool_decide_eq_false_2 by (intros [? ?]; discriminate).
        reflexivity.
Qed.

(** The world after one file, whatever has become of it. *)
Lemma upload_file_world req uid f acc w :
  let r := upload req uid f acc w in
  fs (snd r) = fs_after_upload datadir w f ∧
  unwritable (snd r) = unwritable w ∧ truncating (snd r) = truncating w ∧
  users (snd r) = users w ∧
  images (snd r) = images w ++ [(uid, file_hash f)].
Proof.
  destruct acc as [ret_ st]. cbv zeta. rewrite upload_file_eq. cbv zeta.
  destruct (mkdir_fails datadir w f) eqn:Hm.
  - cbn [snd]. unfold fs_after_upload. rewrite Hm. now repeat split.
  - destruct (write_fails datadir w [] f); [now repeat split|].
    set (w1 := set_fs _ _).
    pose proof (guess_mime_using_file_frame subprocess_file (object_of f) w1)
      as [(Hfs & Hu & Hus & Him & Ht) _].
    destruct (guess_mime_using_file subprocess_file (object_of f) w1)
      as [[g|e] w2]; cbn [snd] in *;
      (split; [exact Hfs|]; split; [exact Hu|]; split; [exact Ht|];
       split; [exact Hus | exact Him]).
Qed.

(** The answer for one file, when its directory can be made and its
    content can be inspected. *)
Lemma upload_file_spec req uid f ret_ st w :
  mkdir_fails datadir w f = false →
  sniff_ok subprocess_file (object_of f) →
  ∃ res w',
    upload req uid f (ret_, st) w
      = (Ok (od_set (filename f) res ret_,
             if write_fails datadir w [] f then 500 else st), w') ∧
    file_outcome req f (write_fails datadir w [] f) res ∧
    (if write_fails datadir w [] f
     then fs w' !! object_of f = left_by_failed_write datadir w f ∧
          mime_cache w' = mime_cache w
     else is_Some (fs w' !! object_of f) ∧
          (fs w !! object_of f = None →
           fs w' !! object_of f = Some (File (body f))) ∧
          ∃ r, res = public_url req (file_hash f) (ext_of (fst r)) ∧
               cache_lookup (object_of f) (mime_cache w') = Some r ∧
               (∀ r0, cache_lookup (object_of f) (mime_cache w) = Some r0 →
                      r = r0)).
Proof.
  intros Hm Hok.
  pose proof (upload_file_world req uid f (ret_, st) w) as Hw.
  cbv zeta in Hw. rewrite upload_file_eq in Hw |- *. cbv zeta in Hw |- *.
  rewrite Hm in Hw |- *.
  pose proof (fs_after_upload_object w f Hm) as Hobj.
  destruct (write_fails datadir w [] f) eqn:Hwf.
  - exists "FAIL". eexists. split; [reflexivity|]. split; [reflexivity|].
    cbn [fs set_fs mime_cache set_images]. split; [|reflexivity].
    rewrite Hobj. unfold write_fails in Hwf. cbv zeta in Hwf.
    unfold left_by_failed_write. cbv zeta.
    apply andb_true_iff in Hwf as [Hn Hf].
    apply bool_decide_eq_true in Hn. rewrite Hn.
    destruct (bool_decide (object_of f ∈ unwritable w)); [reflexivity|].
    cbn [orb existsb negb] in Hf. rewrite andb_true_r in Hf.
    apply bool_decide_eq_true in Hf as [k Hk]. now rewrite Hk.
  - set (w1 := set_fs _ _) in *.
    assert (Hthere : is_Some (fs w1 !! object_of f) ∧
                     (fs w !! object_of f = None →
                      fs w1 !! object_of f = Some (File (body f)))).
    { subst w1. cbn [fs set_fs]. rewrite Hobj.
      unfold write_fails in Hwf. cbv zeta in Hwf.
      destruct (fs w !! object_of f) as [n|] eqn:Hn; [split; [eauto|done]|].
      rewrite (bool_decide_eq_true_2 (None = None)) in Hwf by reflexivity.
      cbn [andb existsb negb] in Hwf. rewrite andb_true_r in Hwf.
      apply orb_false_iff in Hwf as [Hu Ht]. rewrite Hu.
      apply bool_decide_eq_false in Ht.
      destruct (truncating w !! object_of f) as [k|];
        [exfalso; apply Ht; eauto|]. split; [eauto | reflexivity]. }
    destruct Hthere as [Hthere Hnew].
    destruct (guess_mime_total (object_of f) w1 Hok Hthere)
      as (r & w' & Hg & (Hfs & _) & Hc & Hsame).
    rewrite Hg. exists (public_url req (file_hash f) (ext_of (fst r))), w'.
    split; [reflexivity|]. split; [unfold file_outcome; eauto|].
    rewrite Hfs. split; [exact Hthere|]. split; [exact Hnew|].
    exists r. split; [reflexivity|]. split; [exact Hc | exact Hsame].
Qed.

(** *** The loops and the dictionary of results *)

Lemma for_each_app {A S} (body : A → S → M S) l1 l2 acc w :
  for_each body (l1 ++ l2) acc w
  = bind (for_each body l1 acc) (for_each body l2) w.
Proof.
  revert acc w. induction l1 as [|x l1 IH]; intros acc w; [reflexivity|].
  cbn [app for_each]. unfold bind.
  destruct (body x acc w) as [[acc'|e] w']; [|reflexivity].
  rewrite IH. reflexivity.
Qed.

Lemma for_each_nested {A B S} (body : A → S → M S) (get : B → list A)
  (ls : list B) acc w :
  for_each (λ l acc, for_each body (get l) acc) ls acc w
  = for_each body (concat (get <$> ls)) acc w.
Proof.
  revert acc w. induction ls as [|l ls IH]; intros acc w; [reflexivity|].
  cbn [for_each fmap list_fmap concat]. rewrite for_each_app.
  unfold bind. destruct (for_each body (get l) acc w) as [[acc'|e] w'];
    [apply IH | reflexivity].
Qed.

Lemma od_set_fresh k v d : k ∉ (fst <$> d) → od_set k v d = d ++ [(k, v)].
Proof.
  induction d as [|[k' v'] d IH]; intros Hk; [reflexivity|].
  cbn [od_set]. rewrite fmap_cons in Hk. apply not_elem_of_cons in Hk as [Hne Hk].
  destruct (String.eqb_spec k k') as [->|_]; [contradiction|].
  now rewrite IH.
Qed.

(** With pairwise distinct keys the dictionary is the list of the
    assignments, in their order. *)
Lemma od_fold_nodup d names results :
  length results = length names →
  NoDup ((fst <$> d) ++ names) →
  foldl (λ d kv, od_set (fst kv) (snd kv) d) d (zip names results)
  = d ++ zip names results.
Proof.
  revert d results. induction names as [|k names IH]; intros d results Hl Hnd.
  - simpl. now rewrite app_nil_r.
  - destruct results as [|v results]; [discriminate|].
    injection Hl as Hl. cbn [zip zip_with foldl fst snd].
    apply NoDup_app in Hnd as (Hd & Hdis & Hn).
    rewrite od_set_fresh.
    + rewrite IH; [now rewrite <- app_assoc | exact Hl |].
      rewrite fmap_app. cbn. rewrite <- app_assoc. cbn.
      apply NoDup_app. split; [exact Hd|]. split; [exact Hdis | exact Hn].
    + intros Hin. apply (Hdis k Hin). now left.
Qed.

Lemma render_cases (items : list (string * string)) :
  render items = response_body items.
Proof.
  destruct items as [|[k r] [|kv items]]; reflexivity.
Qed.

Lemma zip_length_ge2 {A B} (l : list A) (k : list B) :
  length k = length l → (2 ≤ length l)%nat →
  ∃ x y rest, zip l k = x :: y :: rest.
Proof.
  destruct l as [|a [|a' l]]; simpl; try lia.
  destruct k as [|b [|b' k]]; simpl; try discriminate. eauto.
Qed.

(** *** The parts of a form and the files of a request *)

Lemma add_part_files k v d :
  concat (snd <$> add_part k v d) ≡ₚ concat (snd <$> d) ++ [v].
Proof.
  induction d as [|[k' l] d IH]; [reflexivity|].
  cbn [add_part]. destruct (String.eqb k k').
  - cbn [fmap list_fmap concat snd]. rewrite <- !app_assoc.
    apply Permutation_app_head. apply Permutation_app_comm.
  - cbn [fmap list_fmap concat snd]. rewrite <- app_assoc.
    apply Permutation_app_head. exact IH.
Qed.

Lemma request_files_fold d parts :
  concat (snd <$> foldl (λ d p, add_part (fst p) (snd p) d) d parts)
  ≡ₚ concat (snd <$> d) ++ (snd <$> parts).
Proof.
  revert d. induction parts as [|[k v] parts IH]; intros d.
  - cbn. now rewrite app_nil_r.
  - cbn [foldl fst snd fmap list_fmap]. rewrite IH, add_part_files.
    now rewrite <- app_assoc.
Qed.

(** Every part is a file of the request, once. *)
Lemma request_files_all parts :
  concat (snd <$> request_files parts) ≡ₚ snd <$> parts.
Proof. unfold request_files. now rewrite request_files_fold. Qed.

(** Parts sent under one field name keep their order. *)
Lemma request_files_one_field k parts :
  Forall (λ p, fst p = k) parts →
  concat (snd <$> request_files parts) = snd <$> parts.
Proof.
  intros Hk.
  assert (Hfold : ∀ ps l,
    Forall (λ p : string * HTTPFile, fst p = k) ps →
    foldl (λ d p, add_part (fst p) (snd p) d) [(k, l)] ps
    = [(k, l ++ (snd <$> ps))]).
  { clear. intros ps l H. revert l.
    induction H as [|[k' v] ps Hp _ IH]; intros l.
    - cbn. now rewrite app_nil_r.
    - cbn in Hp. subst k'. cbn [foldl fst snd add_part].
      rewrite String.eqb_refl, IH. cbn [fmap list_fmap].
      now rewrite <- app_assoc. }
  unfold request_files. destruct parts as [|[k' v] parts]; [reflexivity|].
  apply Forall_cons in Hk as [Hp Hk]. cbn in Hp. subst k'.
  cbn [foldl fst snd add_part].
  rewrite Hfold by exact Hk. cbn. now rewrite app_nil_r.
Qed.

(** *** A batch *)

(** The world after a batch, whatever has become of it: nothing that was
    stored is touched, nothing appears at an unwritable path, and the
    files met are recorded, in order. *)
Lemma for_each_world req uid fl acc w :
  let r := for_each (upload req uid) fl acc w in
  unwritable (snd r) = unwritable w ∧ truncating (snd r) = truncating w ∧
  users (snd r) = users w ∧
  (∀ q n, fs w !! q = Some n → fs (snd r) !! q = Some n) ∧
  (∀ q, q ∈ unwritable w → fs (snd r) !! q = fs w !! q) ∧
  ∃ n, (n ≤ length fl)%nat ∧
       images (snd r)
       = images w ++ ((λ f, (uid, file_hash f)) <$> take n fl) ∧
       (∀ a, fst r = Ok a → n = length fl) ∧
       (∀ e, fst r = Raise e → (0 < n)%nat).
Proof.
  revert acc w. induction fl as [|f fl IH]; intros acc w; cbv zeta.
  - cbn [for_each]. unfold ret. cbn [fst snd].
    split; [reflexivity|]. split; [reflexivity|]. split; [reflexivity|].
    split; [auto|]. split; [auto|]. exists 0%nat. cbn.
    rewrite app_nil_r. split; [lia|]. split; [reflexivity|].
    split; [reflexivity | discriminate].
  - cbn [for_each]. unfold bind.
    pose proof (upload_file_world req uid f acc w) as Hw. cbv zeta in Hw.
    destruct (upload req uid f acc w) as [[acc1|e] w1] eqn:Hrun;
      cbn [fst snd] in Hw |- *; destruct Hw as (Hfs & Hu & Ht & Hus & Him).
    + specialize (IH acc1 w1). cbv zeta in IH.
      destruct IH as (Hu' & Ht' & Hus' & Hkeep & Hfrozen & n & Hn & Him'
                      & Hok & Hraise).
      split; [congruence|]. split; [congruence|]. split; [congruence|].
      split; [|split].
      * intros q nq Hq. apply Hkeep. rewrite Hfs.
        now apply fs_after_upload_keeps.
      * intros q Hq. rewrite Hfrozen by (now rewrite Hu).
        rewrite Hfs. now apply fs_after_upload_frozen.
      * exists (S n). cbn [length take fmap list_fmap].
        split; [lia|]. split.
        -- rewrite Him', Him, <- app_assoc. reflexivity.
        -- split; [intros a Ha; f_equal; eauto | intros; lia].
    + split; [exact Hu|]. split; [exact Ht|]. split; [exact Hus|].
      split; [|split].
      * intros q nq Hq. rewrite Hfs. now apply fs_after_upload_keeps.
      * intros q Hq. rewrite Hfs. now apply fs_after_upload_frozen.
      * exists 1%nat. cbn [length take fmap list_fmap].
        split; [lia|]. split; [now rewrite take_0|].
        split; [discriminate | intros; lia].
Qed.

(** A batch in which no directory and no inspection fails. *)
Lemma upload_all_spec req uid (fl : list HTTPFile) ret_ st w :
  Forall (λ f, mkdir_fails datadir w f = false) fl →
  Forall (λ f, sniff_ok subprocess_file (object_of f)) fl →
  ∃ results w',
    for_each (upload req uid) fl (ret_, st) w
      = (Ok (foldl (λ d kv, od_set (fst kv) (snd kv) d) ret_
                   (zip (filename <$> fl) results),
             if existsb id (write_failures datadir w [] fl)
             then 500 else st), w') ∧
    Forall2 (λ ff res, file_outcome req (fst ff) (snd ff) res)
            (zip fl (write_failures datadir w [] fl)) results ∧
    (∀ i f, fl !! i = Some f →
            write_failures datadir w [] fl !! i = Some false →
            is_Some (fs w' !! object_of f)) ∧
    (∀ i f, fl !! i = Some f →
            write_failures datadir w [] fl !! i = Some true →
            fs w' !! object_of f = left_by_failed_write datadir w f).
Proof.
  revert ret_ st w. induction fl as [|f fl IH]; intros ret_ st w Hmk Hok.
  - exists [], w. cbn. split; [reflexivity|]. split; [constructor|].
    split; intros i f Hi; now rewrite lookup_nil in Hi.
  - apply Forall_cons in Hmk as [Hmf Hmk]. apply Forall_cons in Hok as [Hf Hok].
    pose proof (upload_file_world req uid f (ret_, st) w) as Hw.
    cbv zeta in Hw.
    destruct (upload_file_spec req uid f ret_ st w Hmf Hf)
      as (res & w1 & Hrun & Hres & Hcase).
    rewrite Hrun in Hw. cbn [snd] in Hw.
    destruct Hw as (Hfs & Hu & Ht & _ & _).
    assert (Hmk1 : Forall (λ g, mkdir_fails datadir w1 g = false) fl).
    { eapply Forall_impl; [exact Hmk|]. intros g Hg. cbv beta.
      now rewrite (mkdir_fails_step w w1 f g Hfs Hu). }
    destruct (IH (od_set (filename f) res ret_)
                 (if write_fails datadir w [] f then 500 else st) w1 Hmk1 Hok)
      as (results & w' & Hrun' & Hres' & Hstored & Hfailed).
    rewrite (write_failures_step w w1 f [] fl Hmf Hfs Hu Ht) in *.
    pose proof (for_each_world req uid fl
                  (od_set (filename f) res ret_,
                   if write_fails datadir w [] f then 500 else st) w1) as Hfw.
    cbv zeta in Hfw. rewrite Hrun' in Hfw. cbn [snd] in Hfw.
    destruct Hfw as (_ & _ & _ & Hkeep & Hfrozen & _).
    assert (Hleft : ∀ g, left_by_failed_write datadir w1 g
                         = left_by_failed_write datadir w g).
    { intros g. unfold left_by_failed_write. now rewrite Hu, Ht. }
    exists (res :: results), w'.
    cbn [for_each]. unfold bind at 1. rewrite Hrun, Hrun'.
    cbn [write_failures app existsb id fmap list_fmap zip zip_with foldl
         fst snd].
    split; [|split; [|split]].
    + f_equal. f_equal.
      destruct (write_fails datadir w [] f); cbn [orb]; [|reflexivity].
      now destruct (existsb _ _).
    + constructor; [exact Hres | exact Hres'].
    + intros [|i] g Hi Hwf; cbn in Hi, Hwf.
      * injection Hi as <-. injection Hwf as Hwf. rewrite Hwf in Hcase.
        destruct Hcase as ([n Hn] & _). rewrite (Hkeep _ n Hn). eauto.
      * eapply Hstored; eauto.
    + intros [|i] g Hi Hwf; cbn in Hi, Hwf.
      * injection Hi as <-. injection Hwf as Hwf. rewrite Hwf in Hcase.
        destruct Hcase as (Hleft1 & _).
        destruct (fs w1 !! object_of f) as [n|] eqn:Hn.
        -- rewrite (Hkeep _ n Hn). exact Hleft1.
        -- rewrite <- Hleft1.
           destruct (decide (object_of f ∈ unwritable w)) as [Hin|Hin].
           ++ rewrite Hfrozen by (now rewrite Hu). exact Hn.
           ++ exfalso. symmetry in Hleft1.
              unfold left_by_failed_write in Hleft1. cbv zeta in Hleft1.
              rewrite (bool_decide_eq_false_2 _ Hin) in Hleft1.
              unfold write_fails in Hwf. cbv zeta in Hwf.
              rewrite (bool_decide_eq_false_2 _ Hin) in Hwf.
              apply andb_true_iff in Hwf as [_ Hwf].
              cbn [orb] in Hwf. apply andb_true_iff in Hwf as [Hwf _].
              apply bool_decide_eq_true in Hwf as [k Hk].
              rewrite Hk in Hleft1. discriminate.
      * rewrite <- Hleft. eapply Hfailed; eauto.
Qed.

(** *** The handler *)

(** The caller is looked up, and registered when new. *)
Lemma post_login req w :
  not_blocked w (remote_ip req) →
  ∃ wu,
    (match users w !! remote_ip req with
     | Some u => if user_blocked u then raise (PyHTTPError 403)
                 else ret (user_id u)
     | None => add_user (remote_ip req)
     end) w = (Ok (caller_id w (remote_ip req)), wu) ∧
    fs wu = fs w ∧ unwritable wu = unwritable w ∧
    truncating wu = truncating w ∧ images wu = images w ∧
    mime_cache wu = mime_cache w ∧ procs wu = procs w ∧
    users wu = match users w !! remote_ip req with
               | Some _ => users w
               | None => <[remote_ip req :=
                             User (caller_id w (remote_ip req)) false]>
                           (users w)
               end.
Proof.
  intros Hnb. unfold caller_id. unfold not_blocked in Hnb.
  destruct (users w !! remote_ip req) as [u|] eqn:Hu.
  - rewrite (Hnb u eq_refl). exists w. now repeat split.
  - eexists. unfold add_user. split; [reflexivity|]. now repeat split.
Qed.

(** The handler is the loop over the file parts, after the login. *)
Lemma post_eq req w :
  not_blocked w (remote_ip req) → files req ≠ [] →
  ∃ wu,
    fs wu = fs w ∧ unwritable wu = unwritable w ∧
    truncating wu = truncating w ∧ images wu = images w ∧
    mime_cache wu = mime_cache w ∧ procs wu = procs w ∧
    users wu = match users w !! remote_ip req with
               | Some _ => users w
               | None => <[remote_ip req :=
                             User (caller_id w (remote_ip req)) false]>
                           (users w)
               end ∧
    post req w
    = match for_each (upload req (caller_id w (remote_ip req)))
                     (all_files req) ([], 200) wu with
      | (Ok acc, w') => (Ok (mkResponse (snd acc) (render (fst acc))), w')
      | (Raise e, w') => (Raise e, w')
      end.
Proof.
  intros Hnb Hfiles.
  destruct (post_login req w Hnb)
    as (wu & Hlogin & Hfs & Hun & Htr & Him & Hc & Hp & Hus).
  exists wu. repeat (split; [assumption|]).
  unfold IndexHandler_post.
  unfold bind at 1. unfold get_user_by_ip, gets at 1.
  unfold bind at 1. rewrite Hlogin.
  destruct (files req) as [|fl0 fls] eqn:Hf; [contradiction|].
  rewrite <- Hf. unfold bind at 1.
  rewrite (for_each_nested _ snd). fold (all_files req).
  destruct (for_each _ _ _ wu) as [[acc|e] w']; reflexivity.
Qed.

Lemma post_spec req w :
  let fl := all_files req in
  let failed := write_failures datadir w [] fl in
  not_blocked w (remote_ip req) →
  files req ≠ [] →
  Forall (λ f, mkdir_fails datadir w f = false) fl →
  Forall (λ f, sniff_ok subprocess_file (object_of f)) fl →
  ∃ results w',
    post req w
      = (Ok (mkResponse (if existsb id failed then 500 else 200)
               (render (foldl (λ d kv, od_set (fst kv) (snd kv) d) []
                              (zip (filename <$> fl) results)))),
         w') ∧
    outcomes datadir req w fl results ∧
    (∀ i f, fl !! i = Some f → failed !! i = Some false →
            is_Some (fs w' !! object_of f)) ∧
    (∀ i f, fl !! i = Some f → failed !! i = Some true →
            fs w' !! object_of f = left_by_failed_write datadir w f).
Proof.
  intros fl failed Hnb Hfiles Hmk Hok.
  destruct (post_eq req w Hnb Hfiles)
    as (wu & Hfs & Hun & Htr & _ & _ & _ & _ & Hpost).
  assert (Hmk' : Forall (λ f, mkdir_fails datadir wu f = false) fl).
  { eapply Forall_impl; [exact Hmk|]. intros g Hg. cbv beta.
    unfold mkdir_fails in *. now rewrite Hfs, Hun. }
  destruct (upload_all_spec req (caller_id w (remote_ip req)) fl [] 200 wu
              Hmk' Hok)
    as (results & w' & Hrun & Hres & Hstored & Hfailed).
  rewrite (write_failures_same_store w wu [] fl Hfs Hun Htr) in *.
  fold fl in Hpost. rewrite Hrun in Hpost. cbn [fst snd] in Hpost.
  exists results, w'. split; [exact Hpost|]. split; [exact Hres|].
  split; [exact Hstored|].
  intros i f Hi Hwf. rewrite (Hfailed i f Hi Hwf).
  unfold left_by_failed_write. now rewrite Hun, Htr.
Qed.

(** A request with one file part. *)
Lemma post_single_eq req fld f w :
  files req = [(fld, [f])] →
  not_blocked w (remote_ip req) →
  ∃ wu,
    fs wu = fs w ∧ unwritable wu = unwritable w ∧
    truncating wu = truncating w ∧ images wu = images w ∧
    mime_cache wu = mime_cache w ∧
    users wu = match users w !! remote_ip req with
               | Some _ => users w
               | None => <[remote_ip req :=
                             User (caller_id w (remote_ip req)) false]>
                           (users w)
               end ∧
    post req w
    = match upload req (caller_id w (remote_ip req)) f ([], 200) wu with
      | (Ok acc, w') => (Ok (mkResponse (snd acc) (render (fst acc))), w')
      | (Raise e, w') => (Raise e, w')
      end.
Proof.
  intros Hfiles Hnb.
  destruct (post_eq req w Hnb)
    as (wu & Hfs & Hun & Htr & Him & Hc & _ & Hus & Hpost);
    [rewrite Hfiles; discriminate|].
  exists wu. repeat (split; [assumption|]).
  rewrite Hpost. unfold all_files. rewrite Hfiles.
  cbn [fmap list_fmap snd concat app for_each]. unfold bind.
  destruct (upload _ _ _ _ wu) as [[acc|e] w']; reflexivity.
Qed.

(** The file system after a request with one file part. *)
Lemma post_single_fs req fld f w :
  files req = [(fld, [f])] →
  not_blocked w (remote_ip req) →
  fs (snd (post req w)) = fs_after_upload datadir w f.
Proof.
  intros Hfiles Hnb.
  destruct (post_single_eq req fld f w Hfiles Hnb)
    as (wu & Hfs & Hun & Htr & _ & _ & _ & Hpost).
  pose proof (upload_file_world req (caller_id w (remote_ip req)) f
                ([], 200) wu) as Hw.
  cbv zeta in Hw. destruct Hw as (Hfs' & _).
  rewrite Hpost.
  assert (E : fs_after_upload datadir wu f = fs_after_upload datadir w f).
  { unfold fs_after_upload, mkdir_fails. now rewrite Hfs, Hun, Htr. }
  destruct (upload _ _ _ _ wu) as [[acc|e] w']; cbn [snd] in *; congruence.
Qed.

Lemma post_single_spec req fld f w :
  let h := file_hash f in
  let fpath := object_path datadir h in
  let ip := remote_ip req in
  files req = [(fld, [f])] →
  not_blocked w ip →
  mkdir_fails datadir w f = false →
  sniff_ok subprocess_file fpath →
  ∃ res w',
    post req w
      = (Ok (mkResponse (if write_fails datadir w [] f then 500 else 200)
                        (res +:+ Py.nl)), w') ∧
    (if write_fails datadir w [] f
     then res = "FAIL" ∧ fs w' !! fpath = left_by_failed_write datadir w f
     else is_Some (fs w' !! fpath) ∧
          (fs w !! fpath = None → fs w' !! fpath = Some (File (body f))) ∧
          ∃ r, res = public_url req h (ext_of (fst r)) ∧
               cache_lookup fpath (mime_cache w') = Some r ∧
               (∀ r0, cache_lookup fpath (mime_cache w) = Some r0 → r = r0)) ∧
    fs w' = fs_after_upload datadir w f ∧
    unwritable w' = unwritable w ∧ truncating w' = truncating w ∧
    users w' = match users w !! ip with
               | Some _ => users w
               | None => <[ip := User (caller_id w ip) false]> (users w)
               end ∧
    images w' = images w ++ [(caller_id w ip, h)].
Proof.
  cbv zeta. intros Hfiles Hnb Hmk Hok.
  pose proof (post_single_fs req fld f w Hfiles Hnb) as Hfsw.
  destruct (post_single_eq req fld f w Hfiles Hnb)
    as (wu & Hfs & Hun & Htr & Him & Hc & Hus & Hpost).
  assert (Hmk' : mkdir_fails datadir wu f = false).
  { unfold mkdir_fails in *. now rewrite Hfs, Hun. }
  pose proof (upload_file_world req (caller_id w (remote_ip req)) f
                ([], 200) wu) as Hw.
  cbv zeta in Hw.
  destruct (upload_file_spec req (caller_id w (remote_ip req)) f [] 200 wu
              Hmk' Hok)
    as (res & w' & Hrun & Hres & Hcase).
  rewrite Hrun in Hpost, Hw. cbn [fst snd] in Hpost, Hw.
  destruct Hw as (_ & Hu' & Ht' & Hus' & Him').
  rewrite Hpost in Hfsw. cbn [snd] in Hfsw.
  rewrite (write_fails_same_store w wu [] f Hfs Hun Htr) in *.
  cbn [od_set] in Hpost. rewrite render_cases in Hpost.
  cbn [response_body] in Hpost.
  exists res, w'. split; [exact Hpost|].
  split; [|split; [exact Hfsw|]; split; [congruence|]; split; [congruence|];
           split; [rewrite Hus'; exact Hus | now rewrite Him', Him]].
  destruct (write_fails datadir w [] f).
  - destruct Hcase as (Hleft & _). split; [exact Hres|].
    rewrite Hleft. unfold left_by_failed_write. now rewrite Hun, Htr.
  - destruct Hcase as (Hthere & Hnew & r & Hr & Hcl & Hsame).
    split; [exact Hthere|]. split; [now rewrite <- Hfs|].
    exists r. split; [exact Hr|]. split; [exact Hcl|]. now rewrite <- Hc.
Qed.


(** C6, as the code has it. In a batch of two or more files in which no
    shard directory fails to be made and the content of every file can be
    inspected, a write that fails does not stop the batch: the handler
    answers with a result for every file, in order, [FAIL] exactly for
    the files whose write has failed and the public address for every
    other file, whose object is then in the store; the status is 500 if
    some write has failed and 200 otherwise. A failed write leaves
    nothing at an unwritable path and the bytes written at a truncating
    one. The results are kept by file name: when the file names are
    pairwise distinct the answer has one line [name: result] per file. *)
Theorem upload_partial_failure (req : Request) (w : World) :
  let fl := all_files req in
  let failed := write_failures datadir w [] fl in
  not_blocked w (remote_ip req) →
  (2 ≤ length fl)%nat →
  Forall (λ f, mkdir_fails datadir w f = false) fl →
  Forall (λ f, sniff_ok subprocess_file (object_path datadir (file_hash f)))
         fl →
  ∃ results w',
    post req w
      = (Ok (mkResponse (if existsb id failed then 500 else 200)
               (render (foldl (λ d kv, od_set (fst kv) (snd kv) d) []
                              (zip (filename <$> fl) results)))), w') ∧
    outcomes datadir req w fl results ∧
    (NoDup (filename <$> fl) →
       render (foldl (λ d kv, od_set (fst kv) (snd kv) d) []
                     (zip (filename <$> fl) results))
       = result_lines (zip (filename <$> fl) results)) ∧
    (∀ i f, fl !! i = Some f → failed !! i = Some false →
            is_Some (fs w' !! object_path datadir (file_hash f))) ∧
    (∀ i f, fl !! i = Some f → failed !! i = Some true →
            fs w' !! object_path datadir (file_hash f)
            = left_by_failed_write datadir w f).
Proof.
  intros fl failed Hnb Hlen Hmk Hok.
  assert (Hfiles : files req ≠ []).
  { intros E. unfold fl, all_files in Hlen. rewrite E in Hlen.
    simpl in Hlen. lia. }
  destruct (post_spec req w Hnb Hfiles Hmk Hok)
    as (results & w' & Hrun & Hres & Hstored & Hfailed).
  fold fl failed in Hrun, Hres, Hstored, Hfailed.
  exists results, w'. split; [exact Hrun|]. split; [exact Hres|].
  split; [|split; [exact Hstored | exact Hfailed]].
  intros Hnd.
  assert (Hl : length results = length fl).
  { unfold outcomes in Hres. apply Forall2_length in Hres.
    rewrite length_zip_with, write_failures_length in Hres. lia. }
  rewrite od_fold_nodup;
    [|now rewrite length_fmap | now rewrite app_nil_l].
  rewrite app_nil_l, render_cases.
  destruct (zip_length_ge2 (filename <$> fl) results) as (x & y & rest & Hz);
    [now rewrite length_fmap | now rewrite length_fmap |].
  rewrite Hz. now destruct x.
Qed.

(** C7, as the code has it. When the file names of a request are
    pairwise distinct, no shard directory fails to be made and the
    content of every file can be inspected, the answer has one result
    per file part, in the order in which the handler meets the parts,
    field by field: a line [name: result] each when there are two or
    more, the bare result when there is one, and nothing when there is
    none; a result is the public address of the file, or [FAIL]. The
    files of the request are the parts of the form, each once; they are
    in the order of the form when all parts bear one field name. *)
Theorem upload_response_lines (req : Request) (w : World) :
  let fl := all_files req in
  not_blocked w (remote_ip req) →
  files req ≠ [] →
  Forall (λ f, mkdir_fails datadir w f = false) fl →
  Forall (λ f, sniff_ok subprocess_file (object_path datadir (file_hash f)))
         fl →
  NoDup (filename <$> fl) →
  ∃ results st' w',
    post req w
      = (Ok (mkResponse st'
               (response_body (zip (filename <$> fl) results))), w') ∧
    length results = length fl ∧
    outcomes datadir req w fl results ∧
    (∀ parts, files req = request_files parts →
       fl ≡ₚ snd <$> parts ∧
       (∀ k, Forall (λ p, fst p = k) parts → fl = snd <$> parts)).
Proof.
  intros fl Hnb Hfiles Hmk Hok Hnd.
  destruct (post_spec req w Hnb Hfiles Hmk Hok)
    as (results & w' & Hrun & Hres & _).
  fold fl in Hrun, Hres.
  assert (Hl : length results = length fl).
  { unfold outcomes in Hres. apply Forall2_length in Hres.
    rewrite length_zip_with, write_failures_length in Hres. lia. }
  rewrite od_fold_nodup in Hrun;
    [|now rewrite length_fmap | now rewrite app_nil_l].
  rewrite app_nil_l, render_cases in Hrun.
  eexists results, _, w'. split; [exact Hrun|]. split; [exact Hl|].
  split; [exact Hres|].
  intros parts Hparts. unfold fl, all_files. rewrite Hparts. split.
  - apply request_files_all.
  - intros k Hk. now apply (request_files_one_field k).
Qed.


End UploadFacts.
(** ** The handlers on the concrete installation *)

Module FixtureFacts.
Import Fixture.

(** Deciding a property of every file of a concrete batch. *)
Ltac by_computation :=
  refine (bool_decide_eq_true_1 _ _); vm_compute; reflexivity.

(** The inspection program of the installation can be read wherever
    something is stored, as long as the path has no white space. *)
Lemma sniff_ok_at (path : string) :
  (∀ n, ∃ r, sniff_result (0, describe true path (Some n))
                          (0, describe false path (Some n)) = Ok r) →
  sniff_ok file_program path.
Proof.
  intros H w [n Hn]. rewrite guess_mime_body_result.
  unfold file_program. cbn [String.eqb Ascii.eqb Bool.eqb andb].
  rewrite Hn. apply H.
Qed.

Ltac sniff_cases :=
  apply sniff_ok_at; intros [|c]; unfold describe;
  [| destruct (Py.startswith "RIFF" (text_of c));
     [| destruct (Py.startswith "GIF8" (text_of c))]];
  eexists; vm_compute; reflexivity.

Lemma sniff_ok_webp : sniff_ok file_program webp_path.
Proof. sniff_cases. Qed.

Lemma sniff_ok_gif : sniff_ok file_program gif_path.
Proof. sniff_cases. Qed.

Lemma sniff_ok_note : sniff_ok file_program note_path.
Proof. sniff_cases. Qed.
Lemma nobody_blocked (w : World) (ip : string) :
  users w = ∅ → not_blocked w ip.
Proof. intros E u. rewrite E, lookup_empty. discriminate. Qed.

Ltac at_path p :=
  match goal with
  | |- sniff_ok _ ?q => replace q with p by (vm_compute; reflexivity)
  end.

(** *** The sniffer *)

(** The stored RIFF container is called [application/octet-stream] by
    [file -i]; the second run finds the WebP signature. *)
Lemma guess_mime_using_file_policy_witness :
  fst (guess_mime_using_file file_program webp_path webp_world)
    = Ok ("image/webp", None) ∧
  procs (snd (guess_mime_using_file file_program webp_path webp_world))
    = [["file"; "-i"; webp_path]; ["file"; webp_path]].
Proof.
  edestruct (guess_mime_using_file_policy file_program webp_world webp_path)
    as (_ & H & _);
    [vm_compute; reflexivity | vm_compute; reflexivity
    | vm_compute; reflexivity | vm_compute; reflexivity |].
  destruct (H ltac:(vm_compute; reflexivity)) as [Hp Hd].
  split; [|exact Hp].
  eapply Hd; [vm_compute; reflexivity | vm_compute; reflexivity |].
  apply PyFacts.contains_spec. vm_compute. reflexivity.
Defined.

(** *** Negotiation *)

Lemma webp_not_png : ¬ (∃ a, get_absolute_path datadir webp_url_path = a +:+ ".png").
Proof.
  intros H. apply PyFacts.endswith_spec in H. vm_compute in H. discriminate.
Qed.

Lemma gecko_needs_png : ¬ serve_original_spec gecko_request None.
Proof.
  intros H. apply negotiated_spec in H. vm_compute in H. discriminate.
Qed.

(** A browser that accepts WebP gets the original, and the same browser
    asking for [.png] does not. *)
Lemma negotiation_serves_witness :
  fst (get webp_request webp_url_path None true webp_world)
    = Ok (mkStatic vary_value (SuperGet webp_url_path true)) ∧
  fst (get webp_request webp_url_path (Some ".png") true webp_world)
    ≠ Ok (mkStatic vary_value (SuperGet webp_url_path true)).
Proof.
  split.
  - apply (negotiation_serves file_program dwebp_program datadir
             webp_request webp_url_path None true webp_world
             (snd (get_content_type file_program webp_path webp_world))
             webp_body);
      [reflexivity | vm_compute; reflexivity | vm_compute; reflexivity
      | exact webp_not_png | vm_compute; reflexivity |].
    apply negotiated_spec. vm_compute. reflexivity.
  - apply (negotiation_serves file_program dwebp_program datadir
             webp_request webp_url_path (Some ".png") true webp_world
             (snd (get_content_type file_program webp_path webp_world))
             webp_body);
      [reflexivity | vm_compute; reflexivity | vm_compute; reflexivity
      | exact webp_not_png | vm_compute; reflexivity | reflexivity].
Defined.

(** C1, refuted as stated. A browser that needs the PNG asks for a
    stored WebP object that the conversion program cannot decode: the
    request is one of the other cases, and yet no PNG is served; the
    handler raises, and nothing is left at the derived path. The same
    happens, with another exception, when the program is not installed. *)
Lemma failed_conversion_serves_no_png :
  method gecko_request = "GET" ∧
  fs webp_world !! get_absolute_path datadir webp_url_path
    = Some (File webp_body) ∧
  fst (get_content_type file_program webp_path webp_world)
    = Ok "image/webp" ∧
  ¬ serve_original_spec gecko_request None ∧
  fst (get_failing gecko_request webp_url_path None true webp_world)
    = Raise (CalledProcessError 1) ∧
  fs (snd (get_failing gecko_request webp_url_path None true webp_world))
    !! (webp_path +:+ ".png") = None ∧
  fst (get_missing gecko_request webp_url_path None true webp_world)
    = Raise IOError.
Proof.
  split; [reflexivity|]. split; [vm_compute; reflexivity|].
  split; [vm_compute; reflexivity|]. split; [exact gecko_needs_png|].
  vm_compute. repeat split.
Qed.

(** *** The transcode cache *)



(** C4, refuted as stated. The conversion writes four bytes and exits
    with status 1: the request fails, the truncated file stays at the
    derived path, and the next request is served that file without a new
    conversion. *)
Lemma transcode_failure_keeps_partial_file :
  fst (get_truncating gecko_request webp_url_path None true webp_world)
    = Raise (CalledProcessError 1) ∧
  fs (snd (get_truncating gecko_request webp_url_path None true webp_world))
    !! (webp_path +:+ ".png") = Some (File (bytes_of "PNG:")) ∧
  fst (get_truncating gecko_request webp_url_path None true
         (snd (get_truncating gecko_request webp_url_path None true
                 webp_world)))
    = Ok (mkStatic vary_value (SuperGet (webp_url_path +:+ ".png") true)) ∧
  dwebp_runs webp_path
    (procs (snd (get_truncating gecko_request webp_url_path None true
                   (snd (get_truncating gecko_request webp_url_path None true
                           webp_world))))) = 1%nat.
Proof. vm_compute. repeat split. Qed.

(** A conversion that writes nothing and fails leaves nothing. *)
Lemma transcode_failure_witness :
  fst (get_failing gecko_request webp_url_path None true webp_world)
    = Raise (CalledProcessError 1) ∧
  fs (snd (get_failing gecko_request webp_url_path None true webp_world))
    !! (webp_path +:+ ".png") = None.
Proof.
  pose proof (transcode_failure file_program dwebp_failing datadir
                gecko_request webp_url_path None true webp_world
                (snd (get_content_type file_program webp_path webp_world))
                webp_body None 1 eq_refl) as H.
  destruct H as (Hr & _ & Hpng & _);
    [vm_compute; reflexivity | vm_compute; reflexivity | exact webp_not_png
    | vm_compute; reflexivity | exact gecko_needs_png | vm_compute; reflexivity
    | reflexivity | discriminate |].
  split; [exact Hr | exact Hpng].
Defined.

(** *** Uploads *)

Lemma sniff_ok_three :
  Forall (λ f, sniff_ok file_program (object_path datadir (file_hash f)))
         (all_files three_upload).
Proof.
  repeat constructor; cbv beta.
  - at_path gif_path. exact sniff_ok_gif.
  - at_path note_path. exact sniff_ok_note.
  - at_path webp_path. exact sniff_ok_webp.
Qed.

Lemma mkdir_ok_three :
  Forall (λ f, mkdir_fails datadir (world_without note_path) f = false)
         (all_files three_upload).
Proof. by_computation. Qed.

Lemma names_three : NoDup (filename <$> all_files three_upload).
Proof. by_computation. Qed.





(** The shard directory of the second file cannot be made: the request
    is aborted there with [OSError]. The first file is stored, the first
    two are recorded, and the third is never met. *)
Example mkdir_failure_aborts :
  fst (post three_upload (world_without note_shard)) = Raise IOError ∧
  images (snd (post three_upload (world_without note_shard)))
    = [(1%nat, gif_hash); (1%nat, note_hash)] ∧
  fs (snd (post three_upload (world_without note_shard))) !! gif_path
    = Some (File gif_body) ∧
  fs (snd (post three_upload (world_without note_shard))) !! webp_path = None.
Proof. vm_compute. repeat split. Qed.

(** The inspection program fails: the request is aborted at the first
    file, which is stored and recorded; the other two are never met. *)
Example sniffer_failure_aborts :
  fst (IndexHandler_post file_missing extension_table datadir three_upload
         empty_world) = Raise (CalledProcessError 1) ∧
  images (snd (IndexHandler_post file_missing extension_table datadir
                 three_upload empty_world))
    = [(1%nat, gif_hash)] ∧
  fs (snd (IndexHandler_post file_missing extension_table datadir
             three_upload empty_world)) !! gif_path
    = Some (File gif_body) ∧
  fs (snd (IndexHandler_post file_missing extension_table datadir
             three_upload empty_world)) !! note_path = None.
Proof. vm_compute. repeat split. Qed.

(** C7, refuted as stated. Two files are sent under one file name: the
    answer has one line, the address of the second. *)
Lemma same_name_one_line :
  length (all_files same_name_upload) = 2%nat ∧
  fst (post same_name_upload empty_world)
    = Ok (mkResponse 200
            (public_url same_name_upload note_hash ".txt" +:+ Py.nl)) ∧
  count_lines
    (public_url same_name_upload note_hash ".txt" +:+ Py.nl) = 1%nat.
Proof. vm_compute. repeat split. Qed.

Lemma upload_response_lines_witness :
  ∃ results st' w',
    post three_upload (world_without note_path)
      = (Ok (mkResponse st'
               (response_body
                  (zip (filename <$> all_files three_upload) results))), w') ∧
    length results = length (all_files three_upload) ∧
    outcomes datadir three_upload (world_without note_path)
             (all_files three_upload) results.
Proof.
  destruct (upload_response_lines file_program extension_table datadir
              three_upload (world_without note_path))
    as (results & st' & w' & Hrun & Hl & Hres & _);
    [now apply nobody_blocked | discriminate | exact mkdir_ok_three
    | exact sniff_ok_three | exact names_three |].
  exists results, st', w'. split; [exact Hrun|]. split; [exact Hl | exact Hres].
Defined.

(** Parts sent under the field names [a], [b], [a] are met field by
    field: the first, the third, the second. *)
Example interleaved_fields_regroup :
  filename <$> (snd <$> interleaved_parts) = ["x.gif"; "y.txt"; "z.webp"] ∧
  filename <$> all_files interleaved_upload = ["x.gif"; "z.webp"; "y.txt"] ∧
  fst (post interleaved_upload empty_world)
  = Ok (mkResponse 200
          ("x.gif: " +:+ public_url interleaved_upload gif_hash ".gif"
           +:+ Py.nl +:+
           "z.webp: " +:+ public_url interleaved_upload webp_hash ".webp"
           +:+ Py.nl +:+
           "y.txt: " +:+ public_url interleaved_upload note_hash ".txt"
           +:+ Py.nl)).
Proof. vm_compute. repeat split. Qed.

(** C6, refuted as stated. Three files, the second of which cannot be
    written and bears the name of the first: the answer has two lines,
    and the address of the first file, which was stored, is not among
    them. *)
Lemma same_name_hides_result :
  length (all_files same_name_batch) = 3%nat ∧
  fst (post same_name_batch (world_without note_path))
    = Ok (mkResponse 500
            ("a.gif: FAIL" +:+ Py.nl +:+
             "b.webp: " +:+ public_url same_name_batch webp_hash ".webp"
             +:+ Py.nl)) ∧
  is_Some (fs (snd (post same_name_batch (world_without note_path)))
             !! gif_path).
Proof. vm_compute. repeat split. eauto. Qed.

(** The example of the specification: three files, the second fails. *)
Lemma upload_partial_failure_witness :
  ∃ results w',
    post three_upload (world_without note_path)
      = (Ok (mkResponse
               (if existsb id (write_failures datadir
                                 (world_without note_path) []
                                 (all_files three_upload))
                then 500 else 200)
               (result_lines
                  (zip (filename <$> all_files three_upload) results))), w') ∧
    outcomes datadir three_upload (world_without note_path)
             (all_files three_upload) results ∧
    write_failures datadir (world_without note_path) []
                   (all_files three_upload) = [false; true; false].
Proof.
  destruct (upload_partial_failure file_program extension_table datadir
              three_upload (world_without note_path))
    as (results & w' & Hrun & Hres & Hlines & _);
    [now apply nobody_blocked | vm_compute; lia | exact mkdir_ok_three
    | exact sniff_ok_three |].
  rewrite (Hlines names_three) in Hrun.
  exists results, w'. split; [exact Hrun|]. split; [exact Hres|].
  vm_compute. reflexivity.
Defined.

Example three_upload_answer :
  fst (post three_upload (world_without note_path))
  = Ok (mkResponse 500
          ("a.gif: " +:+ public_url three_upload gif_hash ".gif" +:+ Py.nl +:+
           "n.txt: FAIL" +:+ Py.nl +:+
           "b.webp: " +:+ public_url three_upload webp_hash ".webp"
           +:+ Py.nl)).
Proof. vm_compute. reflexivity. Qed.

(** C10. There is a request with two file parts of one file name whose
    answer has fewer lines than files: the result of the second file
    took the place of the first, and both files were hashed and stored. *)
Theorem same_filename_overwrites :
  ∃ (req : Request) (w : World) (f1 f2 : HTTPFile),
    all_files req = [f1; f2] ∧ filename f1 = filename f2 ∧
    body f1 ≠ body f2 ∧
    ∃ ext,
      fst (post req w)
        = Ok (mkResponse 200 (public_url req (file_hash f2) ext +:+ Py.nl)) ∧
      (count_lines (public_url req (file_hash f2) ext +:+ Py.nl)
       < length (all_files req))%nat ∧
      fs (snd (post req w)) !! object_path datadir (file_hash f1)
        = Some (File (body f1)) ∧
      fs (snd (post req w)) !! object_path datadir (file_hash f2)
        = Some (File (body f2)).
Proof.
  exists photo_upload, empty_world,
    (mkFile "photo" gif_body "image/gif"),
    (mkFile "photo" webp_body "image/webp").
  split; [reflexivity|]. split; [reflexivity|]. split; [discriminate|].
  exists ".webp". vm_compute. repeat split; lia.
Qed.

End FixtureFacts.


(** ** More on the type sniffer *)

Section MemoFacts.

Variable subprocess_file : nat → list string → gmap string node → Z * string.

Abbreviation memo_sniff := (guess_mime_using_file subprocess_file).

Lemma cache_remove_length {V} (k : string) (l : list (string * V)) :
  (length (cache_remove k l) ≤ length l)%nat.
Proof.
  induction l as [|[k' v] l IH]; simpl; [lia|].
  destruct (String.eqb k k'); simpl; lia.
Qed.

Lemma cache_remove_found {V} (k : string) (l : list (string * V)) v :
  cache_lookup k l = Some v → (length (cache_remove k l) < length l)%nat.
Proof.
  induction l as [|[k' v'] l IH]; simpl; [discriminate|].
  destruct (String.eqb k k'); simpl.
  - intros _. pose proof (cache_remove_length k l). lia.
  - intros H. specialize (IH H). lia.
Qed.

Lemma cache_remove_keys {V} (k : string) (l : list (string * V)) :
  (k ∉ (fst <$> cache_remove k l)) ∧
  (∀ k', k' ∈ (fst <$> cache_remove k l) → k' ∈ (fst <$> l)) ∧
  (NoDup (fst <$> l) → NoDup (fst <$> cache_remove k l)).
Proof.
  induction l as [|[k' v] l (IH1 & IH2 & IH3)]; cbn [cache_remove].
  - split; [apply not_elem_of_nil|]. split; [auto | auto].
  - rewrite fmap_cons. cbn [fst].
    destruct (String.eqb_spec k k') as [->|Hne].
    + split; [exact IH1|]. split.
      * intros k'' H. right. now apply IH2.
      * intros Hnd. apply NoDup_cons in Hnd as [_ Hnd]. now apply IH3.
    + rewrite fmap_cons. cbn [fst]. split; [|split].
      * intros H. apply elem_of_cons in H as [H|H]; [congruence | contradiction].
      * intros k'' H. apply elem_of_cons in H as [->|H]; [now left|].
        right. now apply IH2.
      * intros Hnd. apply NoDup_cons in Hnd as [Hk Hnd]. apply NoDup_cons.
        split; [|now apply IH3]. intros H. apply Hk. now apply IH2.
Qed.

Lemma cache_lookup_none_keys {V} (k : string) (l : list (string * V)) :
  cache_lookup k l = None → k ∉ (fst <$> l).
Proof.
  induction l as [|[k' v] l IH]; cbn [cache_lookup];
    [intros _; apply not_elem_of_nil|].
  destruct (String.eqb_spec k k') as [->|Hne]; [discriminate|].
  intros H. rewrite fmap_cons. cbn [fst]. intros Hin.
  apply elem_of_cons in Hin as [?|Hin]; [congruence|]. now apply IH.
Qed.

(** X1. Once a path has been sniffed with success, sniffing it again, in
    any world that has the memo table the first call left, gives the same
    answer without running a program and without touching the store. *)
Theorem guess_mime_memoized (path : string) (w w1 w2 : World)
  (r : string * option string) :
  memo_sniff path w = (Ok r, w1) →
  mime_cache w2 = mime_cache w1 →
  fst (memo_sniff path w2) = Ok r ∧
  procs (snd (memo_sniff path w2)) = procs w2 ∧
  same_store w2 (snd (memo_sniff path w2)).
Proof.
  intros H Hc.
  assert (Hl : cache_lookup path (mime_cache w2) = Some r).
  { rewrite Hc. eapply guess_mime_stores; eauto. }
  rewrite (guess_mime_hit _ _ _ _ Hl). simpl. repeat split.
Qed.

(** X2. On a miss of the memo table: a non-zero exit status of
    [file -i] raises [CalledProcessError] with that status; an output that
    does not split into exactly three fields raises [ValueError]; and
    whenever the sniffer raises, the memo table is left as it was, so that
    the failure is not remembered. *)
Theorem guess_mime_failures (path : string) (w : World) (code : Z)
  (out : string) :
  cache_lookup path (mime_cache w) = None →
  subprocess_file (length (procs w)) ["file"; "-i"; path] (fs w)
    = (code, out) →
  (code ≠ 0 → fst (memo_sniff path w) = Raise (CalledProcessError code)) ∧
  (code = 0 → length (Py.split_ws out) ≠ 3%nat →
     fst (memo_sniff path w) = Raise ValueError) ∧
  (∀ e, fst (memo_sniff path w) = Raise e →
     mime_cache (snd (memo_sniff path w)) = mime_cache w ∧
     cache_lookup path (mime_cache (snd (memo_sniff path w))) = None).
Proof.
  intros Hmiss Hrun.
  pose proof (guess_mime_body_result subprocess_file path w) as Hres.
  pose proof (guess_mime_body_frame subprocess_file path w) as (_ & Hc & _).
  unfold guess_mime_using_file. rewrite Hmiss.
  rewrite Hrun in Hres. unfold sniff_result in Hres. cbn [fst snd] in Hres.
  destruct (guess_mime_body subprocess_file path w) as [[r|e] w'];
    cbn [fst snd] in *.
  - split; [|split].
    + intros Hcode. apply Z.eqb_neq in Hcode. rewrite Hcode in Hres.
      discriminate.
    + intros -> Hlen. simpl in Hres.
      destruct (Py.split_ws out) as [|t0 [|t1 [|t2 [|? ?]]]];
        try discriminate. now contradiction Hlen.
    + intros e [=].
  - split; [|split].
    + intros Hcode. apply Z.eqb_neq in Hcode. rewrite Hcode in Hres.
      simpl in Hres. congruence.
    + intros -> Hlen. simpl in Hres.
      destruct (Py.split_ws out) as [|t0 [|t1 [|t2 [|? ?]]]];
        try congruence. now contradiction Hlen.
    + intros e' _. split; [exact Hc | now rewrite Hc].
Qed.

(** X3. The memo table never outgrows its 128 entries, and its paths
    stay pairwise distinct. *)
Theorem mime_cache_bounded (path : string) (w : World) :
  (length (mime_cache w) ≤ lru_maxsize)%nat →
  NoDup (fst <$> mime_cache w) →
  (length (mime_cache (snd (memo_sniff path w))) ≤ lru_maxsize)%nat ∧
  NoDup (fst <$> mime_cache (snd (memo_sniff path w))).
Proof.
  intros Hlen Hnd.
  pose proof (guess_mime_body_frame subprocess_file path w) as (_ & Hc & _).
  unfold guess_mime_using_file.
  destruct (cache_lookup path (mime_cache w)) as [r|] eqn:Hl; cbn [snd].
  - cbn [mime_cache set_mime_cache length]. split.
    + pose proof (cache_remove_found _ _ _ Hl). lia.
    + rewrite fmap_cons. cbn [fst].
      destruct (cache_remove_keys path (mime_cache w)) as (Hk & _ & Hn).
      apply NoDup_cons. split; [exact Hk | now apply Hn].
  - destruct (guess_mime_body subprocess_file path w) as [[r|e] w'];
      cbn [fst snd] in *.
    + cbn [mime_cache set_mime_cache]. rewrite Hc. split.
      * rewrite length_take. lia.
      * rewrite fmap_take. eapply sublist_NoDup; [|apply sublist_take].
        rewrite fmap_cons. cbn [fst]. apply NoDup_cons.
        split; [now apply cache_lookup_none_keys | exact Hnd].
    + rewrite Hc. now split.
Qed.

(** X4. Sniffing changes neither the file system, nor the faults, the
    users or the recorded uploads; the only programs it starts are [file]
    commands, at most two of them. *)
Theorem guess_mime_touches_nothing (path : string) (w : World) :
  same_store w (snd (memo_sniff path w)) ∧
  ∃ more, procs (snd (memo_sniff path w)) = procs w ++ more ∧
          Forall file_cmd more ∧ (length more ≤ 2)%nat.
Proof.
  pose proof (guess_mime_using_file_frame subprocess_file path w) as [Hs _].
  split; [exact Hs|].
  unfold guess_mime_using_file.
  destruct (cache_lookup path (mime_cache w)) as [r|]; cbn [snd].
  - exists []. cbn. rewrite app_nil_r. repeat split; [constructor | lia].
  - assert (H : ∃ more,
      procs (snd (guess_mime_body subprocess_file path w)) = procs w ++ more ∧
      Forall file_cmd more ∧ (length more ≤ 2)%nat).
    { unfold guess_mime_body, bind.
      pose proof (check_output_frame subprocess_file ["file"; "-i"; path] w)
        as (_ & _ & Hp).
      destruct (check_output subprocess_file ["file"; "-i"; path] w)
        as [[out|e] w1]; cbn [snd] in *.
      2:{ exists [["file"; "-i"; path]]. split; [exact Hp|].
          split; [now repeat constructor | simpl; lia]. }
      assert (H1 : ∀ x : result (string * option string),
        ∃ more, procs (snd (x, w1)) = procs w ++ more ∧
                Forall file_cmd more ∧ (length more ≤ 2)%nat).
      { intros x. exists [["file"; "-i"; path]]. split; [exact Hp|].
        split; [now repeat constructor | simpl; lia]. }
      destruct (Py.split_ws out) as [|t0 [|t1 [|t2 [|? ?]]]]; try apply H1.
      destruct (last _) as [enc|]; [|apply H1].
      destruct (String.eqb _ "application/octet-stream"); [|apply H1].
      pose proof (check_output_frame subprocess_file ["file"; path] w1)
        as (_ & _ & Hp2).
      assert (H2 : ∃ more,
          procs (snd (check_output subprocess_file ["file"; path] w1))
            = procs w ++ more ∧
          Forall file_cmd more ∧ (length more ≤ 2)%nat).
      { exists [["file"; "-i"; path]; ["file"; path]].
        rewrite Hp2, Hp, <- app_assoc.
        split; [reflexivity|]. split; [now repeat constructor | simpl; lia]. }
      destruct (check_output subprocess_file ["file"; path] w1)
        as [[out2|e] w2]; cbn [snd] in H2; [|exact H2].
      destruct (Py.split_ws1 out2) as [|t [|desc [|? ?]]]; try exact H2.
      destruct (Py.contains "Web/P image" desc); exact H2. }
    destruct (guess_mime_body subprocess_file path w) as [[r|e] w'];
      cbn [snd] in *; exact H.
Qed.

End MemoFacts.

(** ** [guess_extension] *)

(** X5. Whatever the table of the standard library says, the extension
    of [application/octet-stream] is [.bin], that of [image/webp] is
    [.webp], and [.jpe] and [.jpeg] are never answered: where the table
    has one of them the answer is [.jpg]. *)
Theorem guess_extension_normalized
  (table : string → option string) (ftype : string) :
  guess_extension table "application/octet-stream" = Some ".bin" ∧
  guess_extension table "image/webp" = Some ".webp" ∧
  guess_extension table ftype ≠ Some ".jpe" ∧
  guess_extension table ftype ≠ Some ".jpeg" ∧
  (ftype ≠ "application/octet-stream" → ftype ≠ "image/webp" →
   (table ftype = Some ".jpe" ∨ table ftype = Some ".jpeg") →
   guess_extension table ftype = Some ".jpg").
Proof.
  split; [reflexivity|]. split; [reflexivity|].
  unfold guess_extension.
  destruct (String.eqb_spec ftype "application/octet-stream") as [->|H1].
  { split; [discriminate|]. split; [discriminate | congruence]. }
  destruct (String.eqb_spec ftype "image/webp") as [->|H2].
  { split; [discriminate|]. split; [discriminate | congruence]. }
  destruct (table ftype) as [e|] eqn:He.
  - destruct (String.eqb_spec e ".jpe") as [->|Hj].
    + cbn [orb]. split; [discriminate|]. split; [discriminate | reflexivity].
    + cbn [orb]. destruct (String.eqb_spec e ".jpeg") as [->|Hj'].
      * split; [discriminate|]. split; [discriminate | reflexivity].
      * split; [congruence|]. split; [congruence|].
        intros _ _ [[=]|[=]]; congruence.
  - split; [discriminate|]. split; [discriminate|].
    intros _ _ [[=]|[=]].
Qed.

(** ** More on the upload handler *)

Section MoreUploadFacts.

Variable subprocess_file : nat → list string → gmap string node → Z * string.
Variable mimetypes_guess_extension : string → option string.
Variable datadir : string.

Abbreviation upload_one :=
  (upload_file subprocess_file mimetypes_guess_extension datadir).
Abbreviation upload_post :=
  (IndexHandler_post subprocess_file mimetypes_guess_extension datadir).

(** X6. A caller on the block list is answered 403, and the world is
    left exactly as it was: nothing is hashed, stored, sniffed or
    recorded, whatever the request carries. *)
Theorem blocked_caller_rejected (req : Request) (w : World) (u : user) :
  users w !! remote_ip req = Some u →
  user_blocked u = true →
  upload_post req w = (Raise (PyHTTPError 403), w).
Proof.
  intros Hu Hb. unfold IndexHandler_post, bind, get_user_by_ip, gets.
  rewrite Hu, Hb. reflexivity.
Qed.

(** X7. A request without file parts from a caller that is not blocked
    is answered 400 and stores nothing; a caller that was unknown has been
    given an identity all the same, before the request was looked at. *)
Theorem no_files_rejected (req : Request) (w : World) :
  files req = [] →
  not_blocked w (remote_ip req) →
  fst (upload_post req w) = Raise (PyHTTPError 400) ∧
  fs (snd (upload_post req w)) = fs w ∧
  images (snd (upload_post req w)) = images w ∧
  procs (snd (upload_post req w)) = procs w ∧
  users (snd (upload_post req w))
    = match users w !! remote_ip req with
      | Some _ => users w
      | None => <[remote_ip req :=
                    User (caller_id w (remote_ip req)) false]> (users w)
      end.
Proof.
  intros Hf Hnb. unfold IndexHandler_post, bind, get_user_by_ip, gets.
  rewrite Hf. unfold caller_id.
  destruct (users w !! remote_ip req) as [u|] eqn:Hu.
  - rewrite (Hnb u Hu). simpl. repeat split.
  - simpl. repeat split.
Qed.

(** X9. What an upload stores is what was sent: after the upload of one
    file whose shard directory is there or can be made, and whose object
    path was free, writable and not truncating, the object path holds a
    file with exactly the uploaded bytes, whatever the content inspection
    does; when the content can be inspected the answer is 200 with the
    public address. Where something was stored at the object path
    already, it is left there as it was. *)
Theorem upload_stores_body (req : Request) (fld : string) (f : HTTPFile)
  (w : World) :
  let fpath := object_path datadir (file_hash f) in
  files req = [(fld, [f])] →
  not_blocked w (remote_ip req) →
  (mkdir_fails datadir w f = false →
   fs w !! fpath = None → fpath ∉ unwritable w →
   truncating w !! fpath = None →
     fs (snd (upload_post req w)) !! fpath = Some (File (body f)) ∧
     (sniff_ok subprocess_file fpath →
      ∃ ext, fst (upload_post req w)
             = Ok (mkResponse 200
                     (public_url req (file_hash f) ext +:+ Py.nl)))) ∧
  (∀ n, fs w !! fpath = Some n →
     fs (snd (upload_post req w)) !! fpath = Some n).
Proof.
  cbv zeta. intros Hf Hnb.
  pose proof (post_single_fs subprocess_file mimetypes_guess_extension datadir
                req fld f w Hf Hnb) as Hfs.
  split.
  - intros Hmk Hnone Hw Ht. split.
    + rewrite Hfs, (fs_after_upload_object datadir w f Hmk).
      rewrite Hnone, Ht.
      now rewrite (bool_decide_eq_false_2 _ Hw).
    + intros Hok.
      destruct (post_single_spec subprocess_file mimetypes_guess_extension
                  datadir req fld f w Hf Hnb Hmk Hok)
        as (res & w' & Hrun & Hcase & _).
      assert (Hwf : write_fails datadir w [] f = false).
      { unfold write_fails. cbv zeta.
        rewrite (bool_decide_eq_false_2 _ Hw), Ht.
        rewrite (bool_decide_eq_false_2 (is_Some None))
          by (intros [? ?]; discriminate).
        apply andb_false_r. }
      rewrite Hwf in Hrun, Hcase. destruct Hcase as (_ & _ & r & -> & _).
      rewrite Hrun. eauto.
  - intros n Hn. rewrite Hfs. now apply fs_after_upload_keeps.
Qed.

(** The store only grows: whatever a path holds stays there. *)
Lemma upload_file_keeps req uid f acc w q n :
  fs w !! q = Some n → fs (snd (upload_one req uid f acc w)) !! q = Some n.
Proof.
  intros Hq.
  pose proof (upload_file_world subprocess_file mimetypes_guess_extension
                datadir req uid f acc w) as Hw.
  cbv zeta in Hw. destruct Hw as (Hfs & _).
  rewrite Hfs. now apply fs_after_upload_keeps.
Qed.

Lemma for_each_keeps {A S} (body : A → S → M S) (q : string) (n : node) :
  (∀ x acc w, fs w !! q = Some n → fs (snd (body x acc w)) !! q = Some n) →
  ∀ xs acc w, fs w !! q = Some n →
              fs (snd (for_each body xs acc w)) !! q = Some n.
Proof.
  intros Hbody xs. induction xs as [|x xs IH]; intros acc w Hq; [exact Hq|].
  cbn [for_each]. unfold bind. specialize (Hbody x acc w Hq).
  destruct (body x acc w) as [[acc'|e] w']; cbn [snd] in *; auto.
Qed.

(** X8. The store is written once: whatever a path of the file system
    holds before an upload request, it holds after it, for every request
    and whatever the outcome (rejected, failed half way or answered). No
    stored object is overwritten or removed. *)
Theorem upload_never_overwrites (req : Request) (w : World) (q : string)
  (n : node) :
  fs w !! q = Some n → fs (snd (upload_post req w)) !! q = Some n.
Proof.
  intros Hq. unfold IndexHandler_post.
  assert (Hcont : ∀ uid wu, fs wu !! q = Some n →
    fs (snd (match files req with
             | [] => raise (PyHTTPError 400)
             | fl =>
                 bind (for_each
                         (λ filelist acc,
                            for_each (upload_one req uid) (snd filelist) acc)
                         fl ([], 200))
                      (λ acc, ret (mkResponse (snd acc) (render (fst acc))))
             end wu)) !! q = Some n).
  { intros uid wu Hu. destruct (files req) as [|fl0 fls]; [exact Hu|].
    unfold bind.
    assert (Hloop : fs (snd (for_each
              (λ filelist acc,
                 for_each (upload_one req uid) (snd filelist) acc)
              (fl0 :: fls) ([], 200) wu)) !! q = Some n).
    { apply for_each_keeps; [|exact Hu].
      intros l acc wx Hx. apply for_each_keeps; [|exact Hx].
      intros f acc' wy Hy. now apply upload_file_keeps. }
    destruct (for_each _ (fl0 :: fls) ([], 200) wu) as [[acc|e] w'];
      cbn [snd] in *; exact Hloop. }
  unfold bind at 1. unfold get_user_by_ip, gets at 1.
  unfold bind at 1.
  destruct (users w !! remote_ip req) as [u|].
  - destruct (user_blocked u); [exact Hq|]. unfold ret at 1.
    now apply Hcont.
  - unfold add_user. now apply Hcont.
Qed.


(** *** The dictionary of the results, whatever the file names *)

Lemma od_set_keys k v d k' :
  k' ∈ (fst <$> od_set k v d) ↔ k' = k ∨ k' ∈ (fst <$> d).
Proof.
  induction d as [|[k0 v0] d IH]; cbn [od_set].
  - rewrite fmap_cons, fmap_nil. cbn [fst]. rewrite elem_of_cons. tauto.
  - destruct (String.eqb_spec k k0) as [->|Hne];
      rewrite !fmap_cons; cbn [fst]; rewrite !elem_of_cons.
    + tauto.
    + rewrite IH. tauto.
Qed.

Lemma od_set_nodup k v d :
  NoDup (fst <$> d) → NoDup (fst <$> od_set k v d).
Proof.
  induction d as [|[k0 v0] d IH]; cbn [od_set]; intros Hnd.
  - rewrite fmap_cons, fmap_nil. apply NoDup_singleton.
  - rewrite fmap_cons in Hnd. cbn [fst] in Hnd.
    apply NoDup_cons in Hnd as [Hk Hnd].
    destruct (String.eqb_spec k k0) as [->|Hne]; rewrite fmap_cons; cbn [fst].
    + apply NoDup_cons. now split.
    + apply NoDup_cons. split; [|now apply IH].
      rewrite od_set_keys. intros [?|?]; [congruence | contradiction].
Qed.

Lemma od_set_items k v d k' v' :
  NoDup (fst <$> d) →
  (k', v') ∈ od_set k v d ↔
  (k' = k ∧ v' = v) ∨ (k' ≠ k ∧ (k', v') ∈ d).
Proof.
  induction d as [|[k0 v0] d IH]; cbn [od_set]; intros Hnd.
  - rewrite elem_of_cons. split.
    + intros [[= -> ->]|H]; [now left | now apply elem_of_nil in H].
    + intros [[-> ->]|[_ H]]; [now left | now apply elem_of_nil in H].
  - rewrite fmap_cons in Hnd. cbn [fst] in Hnd.
    apply NoDup_cons in Hnd as [Hk Hnd].
    destruct (String.eqb_spec k k0) as [->|Hne]; rewrite !elem_of_cons.
    + split.
      * intros [[= -> ->]|H]; [now left|].
        destruct (String.eqb_spec k' k0) as [->|Hne'].
        -- exfalso. apply Hk. apply (list_elem_of_fmap_2 fst) in H. exact H.
        -- right. split; [exact Hne' | now right].
      * intros [[-> ->]|[Hne' [[= -> ->]|H]]];
          [now left | contradiction | now right].
    + rewrite (IH Hnd). split.
      * intros [[= -> ->]|[[-> ->]|[Hne' H]]].
        -- right. split; [congruence | now left].
        -- now left.
        -- right. split; [exact Hne' | now right].
      * intros [[-> ->]|[Hne' [[= -> ->]|H]]].
        -- right. now left.
        -- now left.
        -- right. right. now split.
Qed.

(** The dictionary built from a list of assignments: its keys are
    pairwise distinct, they are the assigned keys, and every key has the
    value of its last assignment. *)
Lemma od_fold_last (kvs : list (string * string)) :
  let d := foldl (λ d kv, od_set (fst kv) (snd kv) d) [] kvs in
  NoDup (fst <$> d) ∧
  (∀ k, k ∈ (fst <$> d) ↔ k ∈ (fst <$> kvs)) ∧
  (∀ k v, (k, v) ∈ d →
     ∃ i, kvs !! i = Some (k, v) ∧
          ∀ j kv, (i < j)%nat → kvs !! j = Some kv → fst kv ≠ k).
Proof.
  induction kvs as [|[k0 v0] kvs (IHn & IHk & IHl)] using rev_ind; cbv zeta.
  - cbn. split; [constructor|]. split; [tauto|].
    intros k v H. now apply elem_of_nil in H.
  - rewrite foldl_app. cbn [foldl fst snd].
    set (d := foldl (λ d kv, od_set (fst kv) (snd kv) d) [] kvs) in *.
    split; [now apply od_set_nodup|]. split.
    + intros k. rewrite od_set_keys, IHk, fmap_app, elem_of_app.
      rewrite fmap_cons, fmap_nil, list_elem_of_singleton. cbn [fst]. tauto.
    + intros k v H. apply (od_set_items _ _ _ _ _ IHn) in H
        as [[-> ->]|[Hne H]].
      * exists (length kvs). split.
        -- rewrite lookup_app_r, Nat.sub_diag by lia. reflexivity.
        -- intros j kv Hj Hkv. apply lookup_lt_Some in Hkv.
           rewrite length_app in Hkv. simpl in Hkv. lia.
      * destruct (IHl k v H) as (i & Hi & Hlast).
        exists i. split.
        -- apply lookup_app_l_Some. exact Hi.
        -- intros j kv Hj Hkv.
           destruct (decide (j < length kvs)%nat) as [Hlt|Hge].
           ++ rewrite lookup_app_l in Hkv by exact Hlt. eauto.
           ++ rewrite lookup_app_r in Hkv by lia.
              destruct (j - length kvs)%nat; [|now destruct n].
              injection Hkv as <-. cbn [fst]. congruence.
Qed.

(** X10. For every request of a caller that is not blocked, with file
    parts, in which no shard directory fails to be made and the content
    of every file can be inspected, the answer is rendered from results
    with pairwise distinct names: exactly the file names of the request,
    each with the result of the last file part sent under that name. *)
Theorem upload_results_by_name (req : Request) (w : World) :
  let fl := all_files req in
  not_blocked w (remote_ip req) →
  files req ≠ [] →
  Forall (λ f, mkdir_fails datadir w f = false) fl →
  Forall (λ f, sniff_ok subprocess_file (object_path datadir (file_hash f)))
         fl →
  ∃ results d st' w',
    upload_post req w = (Ok (mkResponse st' (render d)), w') ∧
    outcomes datadir req w fl results ∧
    NoDup (fst <$> d) ∧
    (∀ k, k ∈ (fst <$> d) ↔ k ∈ (filename <$> fl)) ∧
    (∀ k v, (k, v) ∈ d →
       ∃ i f, fl !! i = Some f ∧ filename f = k ∧ results !! i = Some v ∧
              ∀ j f', (i < j)%nat → fl !! j = Some f' → filename f' ≠ k).
Proof.
  intros fl Hnb Hfiles Hmk Hok.
  destruct (post_spec subprocess_file mimetypes_guess_extension datadir
              req w Hnb Hfiles Hmk Hok)
    as (results & w' & Hrun & Hres & _).
  fold fl in Hrun, Hres.
  assert (Hlen : length fl = length results).
  { unfold outcomes in Hres. apply Forall2_length in Hres.
    rewrite length_zip_with, write_failures_length in Hres. lia. }
  destruct (od_fold_last (zip (filename <$> fl) results)) as (Hn & Hk & Hl).
  eexists results, _, _, w'. split; [exact Hrun|]. split; [exact Hres|].
  split; [exact Hn|]. split.
  - intros k. rewrite Hk, fst_zip; [reflexivity|].
    rewrite length_fmap. lia.
  - intros k v Hin. destruct (Hl k v Hin) as (i & Hi & Hlast).
    apply lookup_zip_with_Some in Hi as (k' & v' & [= <- <-] & Hname & Hv).
    apply list_lookup_fmap_Some in Hname as (f & -> & Hf).
    exists i, f. split; [exact Hf|]. split; [reflexivity|].
    split; [exact Hv|].
    intros j f' Hj Hf'.
    assert (Hj' : (j < length results)%nat).
    { apply lookup_lt_Some in Hf'. lia. }
    apply lookup_lt_is_Some in Hj' as [vj Hvj].
    apply (Hlast j (filename f', vj) Hj).
    apply lookup_zip_with_Some. exists (filename f'), vj.
    split; [reflexivity|]. split; [|exact Hvj].
    rewrite list_lookup_fmap, Hf'. reflexivity.
Qed.

End MoreUploadFacts.


(** ** More on the static handler *)

Section MoreStaticFacts.

Variable subprocess_file : nat → list string → gmap string node → Z * string.
Variable subprocess_dwebp :
  nat → list string → gmap string node → option (option bytes * Z).
Variable datadir : string.

Abbreviation type_of := (get_content_type subprocess_file).
Abbreviation serve :=
  (MyStaticFileHandler_get subprocess_file subprocess_dwebp datadir).
Abbreviation serve_head :=
  (MyStaticFileHandler_head subprocess_file subprocess_dwebp datadir).

(** X13. Outside the negotiated case nothing is negotiated: for a stored
    object, when the request is not a GET (a HEAD, say), or the content
    type is not [image/webp], or the absolute path ends in [.png], the
    handler hands the path it was given to the static handler, sets no
    [Vary] header and starts no conversion, whatever the headers and the
    extension of the request. *)
Theorem static_pass_through
  (req : Request) (path : string) (ext : option string) (ib : bool)
  (w w1 : World) (c : bytes) (ct : string) :
  let abs := get_absolute_path datadir path in
  in_root datadir abs → fs w !! abs = Some (File c) →
  type_of abs w = (Ok ct, w1) →
  (method req ≠ "GET" ∨ ct ≠ "image/webp" ∨ ∃ a, abs = a +:+ ".png") →
  serve req path ext ib w = (Ok (mkStatic None (SuperGet path ib)), w1) ∧
  serve_head req path ext w = serve req path ext false w ∧
  fs w1 = fs w ∧ dwebp_runs abs (procs w1) = dwebp_runs abs (procs w).
Proof.
  intros abs Hroot Hfile Hct Hcase.
  pose proof (content_type_frame subprocess_file abs w)
    as [(Hfs & _) (more & Hmore & Hfiles)].
  rewrite Hct in Hfs, Hmore. cbn [snd] in Hfs, Hmore.
  split; [|split; [reflexivity|split; [exact Hfs|]]].
  - unfold MyStaticFileHandler_get, parse_url_path. fold abs.
    unfold bind at 1. rewrite (validate_stored _ _ _ _ Hroot Hfile).
    unfold bind at 1. rewrite Hct.
    assert (Hb : Py.endswith ".png" abs
                 || negb (String.eqb (method req) "GET")
                 || negb (String.eqb ct "image/webp") = true).
    { destruct Hcase as [Hm | [Hc | Hp]].
      - apply String.eqb_neq in Hm. rewrite Hm. cbn.
        now rewrite orb_true_r.
      - apply String.eqb_neq in Hc. rewrite Hc. cbn.
        now rewrite !orb_true_r.
      - apply PyFacts.endswith_spec in Hp. now rewrite Hp. }
    rewrite Hb. reflexivity.
  - rewrite Hmore, dwebp_runs_app, (dwebp_runs_files _ _ Hfiles). lia.
Qed.

(** X14. A path at which nothing is stored is answered 404, and a
    directory 403, before anything is sniffed or converted: the world is
    left as it was. *)
Theorem static_not_found
  (req : Request) (path : string) (ext : option string) (ib : bool)
  (w : World) :
  let abs := get_absolute_path datadir path in
  in_root datadir abs →
  (fs w !! abs = None →
     serve req path ext ib w = (Raise (PyHTTPError 404), w)) ∧
  (fs w !! abs = Some Dir →
     serve req path ext ib w = (Raise (PyHTTPError 403), w)).
Proof.
  intros abs Hroot. unfold in_root in Hroot.
  split; intros H; unfold MyStaticFileHandler_get, parse_url_path; fold abs;
    unfold bind at 1; unfold validate_absolute_path;
    rewrite Hroot, H; reflexivity.
Qed.

(** X15. The static handler writes at one place only, the [.png]
    sibling of the object asked for, and only if nothing is there: every
    other path holds after the request what it held before, and so does
    the sibling if it existed. The users, the recorded uploads and the
    faults are not touched. *)
Theorem static_get_writes_only_png
  (req : Request) (path : string) (ext : option string) (ib : bool)
  (w : World) :
  let abs := get_absolute_path datadir path in
  let w' := snd (serve req path ext ib w) in
  (∀ q, q ≠ abs +:+ ".png" → fs w' !! q = fs w !! q) ∧
  (∀ q n, fs w !! q = Some n → fs w' !! q = Some n) ∧
  users w' = users w ∧ images w' = images w ∧ unwritable w' = unwritable w.
Proof.
  intros abs w'.
  assert (H : (fs w' = fs w ∨
               (fs w !! (abs +:+ ".png") = None ∧
                ∃ b, fs w' = <[abs +:+ ".png" := File b]> (fs w))) ∧
              users w' = users w ∧ images w' = images w ∧
              unwritable w' = unwritable w).
  { subst w'. generalize (eq_refl (serve req path ext ib w)).
    generalize (serve req path ext ib w) at 1 3 4 5 6 7.
    intros x. unfold MyStaticFileHandler_get, parse_url_path. fold abs.
    unfold bind at 1. unfold validate_absolute_path.
    destruct (negb (Py.startswith _ _));
      [intros ->; now repeat split; try left|].
    destruct (fs w !! abs) as [[|c]|];
      try (intros ->; now repeat split; try left).
    unfold bind at 1.
    pose proof (content_type_frame subprocess_file abs w)
      as [(Hfs & Hun & Hus & Him & _) _].
    destruct (type_of abs w) as [[ct|e] w1]; cbn [snd] in *.
    2:{ intros ->. cbn [snd]. split; [now left | now repeat split]. }
    destruct (_ || _ || _);
      [intros ->; split; [now left | now repeat split]|].
    destruct (_ && _); [intros ->; split; [now left | now repeat split]|].
    unfold bind, os_path_exists, gets, convert_webp, ret.
    rewrite Hfs.
    destruct (fs w !! (abs +:+ ".png")) as [n|] eqn:Hn.
    - rewrite bool_decide_eq_true_2 by eauto. cbn [negb snd].
      intros ->. split; [now left | now repeat split].
    - rewrite bool_decide_eq_false_2 by (intros [? ?]; discriminate).
      cbn [negb].
      destruct (subprocess_dwebp _ _ _) as [[[b|] code]|];
        try destruct (code =? 0); intros ->;
        cbn [snd fs set_fs set_procs users images unwritable];
        (split; [|now repeat split]);
        try (now left); right; (split; [reflexivity|]); exists b;
        now rewrite Hfs. }
  destruct H as (Hfs & Hus & Him & Hun).
  split; [|split; [|now repeat split]].
  - intros q Hq. destruct Hfs as [-> | (_ & b & ->)]; [reflexivity|].
    now rewrite lookup_insert_ne.
  - intros q n Hq. destruct Hfs as [-> | (Hnone & b & ->)]; [exact Hq|].
    rewrite lookup_insert_ne; [exact Hq | congruence].
Qed.

End MoreStaticFacts.

(** ** Upload, then retrieval *)

Section RoundTrip.

Variable subprocess_file : nat → list string → gmap string node → Z * string.
Variable subprocess_dwebp :
  nat → list string → gmap string node → option (option bytes * Z).
Variable mimetypes_guess_extension : string → option string.
Variable datadir : string.

Abbreviation rt_post :=
  (IndexHandler_post subprocess_file mimetypes_guess_extension datadir).
Abbreviation rt_get :=
  (MyStaticFileHandler_get subprocess_file subprocess_dwebp datadir).

(** X12. An uploaded object is found. After the upload of one file
    whose shard directory is there or can be made, whose object path was
    free, writable and not truncating, and whose content can be
    inspected, into a data directory with a name, the URL path
    [h[:2]/h[2:]] of its hash leads the static handler to a file with the
    uploaded bytes. The handler does not answer 404 or 403: it hands that
    path, or its [.png] sibling, to the static file handler, unless the
    conversion it runs fails; then it raises [CalledProcessError] when
    the program has exited with a status other than 0, and [OSError] when
    the program could not be started. *)
Theorem uploaded_object_is_found
  (req greq : Request) (fld : string) (f : HTTPFile) (w : World)
  (ext : option string) (ib : bool) :
  let h := file_hash f in
  let path := Py.take 2 h +:+ "/" +:+ Py.drop 2 h in
  let abs := get_absolute_path datadir path in
  let w1 := snd (rt_post req w) in
  let r := rt_get greq path ext ib w1 in
  let dwebp :=
    subprocess_dwebp (length (procs w1)) (dwebp_cmd abs) (fs w1) in
  datadir ≠ EmptyString →
  files req = [(fld, [f])] →
  not_blocked w (remote_ip req) →
  mkdir_fails datadir w f = false →
  fs w !! object_path datadir h = None →
  object_path datadir h ∉ unwritable w →
  truncating w !! object_path datadir h = None →
  sniff_ok subprocess_file (object_path datadir h) →
  fs w1 !! abs = Some (File (body f)) ∧
  ((∃ v, fst r = Ok (mkStatic v (SuperGet path ib))) ∨
   (∃ v, fst r = Ok (mkStatic v (SuperGet (path +:+ ".png") ib))) ∨
   (∃ out code, dwebp = Some (out, code) ∧ code ≠ 0 ∧
                fst r = Raise (CalledProcessError code)) ∨
   (dwebp = None ∧ fst r = Raise IOError)).
Proof.
  cbv zeta. intros Hd Hf Hnb Hmk Hnone Hw Htr Hok.
  set (h := file_hash f) in *.
  set (path := Py.take 2 h +:+ "/" +:+ Py.drop 2 h).
  assert (Habs : get_absolute_path datadir path = object_path datadir h)
    by apply static_path_of_digest.
  assert (Hroot : in_root datadir (get_absolute_path datadir path)).
  { apply in_root_join; [exact Hd|].
    destruct (hexdigest_shape (body f))
      as (c0 & c1 & c2 & rest & E & _ & H0 & _).
    unfold path, h, file_hash. rewrite E. cbn [Py.take String.append].
    now apply startswith_slash_cons. }
  destruct (post_single_spec subprocess_file mimetypes_guess_extension datadir
              req fld f w Hf Hnb Hmk Hok)
    as (res & w' & Hrun & Hcase & _).
  assert (Hwf : write_fails datadir w [] f = false).
  { unfold write_fails. cbv zeta. fold h.
    rewrite (bool_decide_eq_false_2 _ Hw), Htr.
    rewrite (bool_decide_eq_false_2 (is_Some None))
      by (intros [? ?]; discriminate).
    apply andb_false_r. }
  rewrite Hwf in Hrun, Hcase. fold h in Hcase.
  destruct Hcase as (_ & Hnew & r & _ & Hc & _).
  specialize (Hnew Hnone).
  rewrite Hrun. cbn [snd]. rewrite Habs in Hroot |- *. split; [exact Hnew|].
  assert (Hct : ∃ ct w2,
             get_content_type subprocess_file (object_path datadir h) w'
             = (Ok ct, w2) ∧ fs w2 = fs w' ∧ procs w2 = procs w').
  { unfold get_content_type, bind.
    rewrite (guess_mime_hit subprocess_file _ _ _ Hc).
    destruct r as [m [e|]]; [destruct (String.eqb e "gzip")|]; eauto. }
  destruct Hct as (ct & w2 & Hct & Hfs2 & Hp2).
  assert (Hrun' : ∀ x, rt_get greq path ext ib w' = x →
    (∃ v, fst x = Ok (mkStatic v (SuperGet path ib))) ∨
    (∃ v, fst x = Ok (mkStatic v (SuperGet (path +:+ ".png") ib))) ∨
    (∃ out code,
       subprocess_dwebp (length (procs w'))
         (dwebp_cmd (object_path datadir h)) (fs w') = Some (out, code) ∧
       code ≠ 0 ∧ fst x = Raise (CalledProcessError code)) ∨
    (subprocess_dwebp (length (procs w'))
       (dwebp_cmd (object_path datadir h)) (fs w') = None ∧
     fst x = Raise IOError)).
  { intros x. unfold MyStaticFileHandler_get, parse_url_path.
    rewrite Habs. unfold bind at 1.
    rewrite (validate_stored datadir _ _ _ Hroot Hnew).
    unfold bind at 1. rewrite Hct.
    destruct (_ || _ || _); [intros <-; left; eauto|].
    destruct (_ && _); [intros <-; left; eauto|].
    unfold bind, os_path_exists, gets, ret.
    destruct (negb _).
    - unfold convert_webp. fold (dwebp_cmd (object_path datadir h)).
      rewrite Hfs2, Hp2.
      destruct (subprocess_dwebp _ _ _) as [[out code]|] eqn:Hrun2.
      + destruct (Z.eqb_spec code 0) as [->|Hcode]; intros <-; cbn [fst].
        * right. left. eauto.
        * right. right. left. eauto.
      + intros <-. right. right. right. split; reflexivity.
    - intros <-. right. left. eauto. }
  exact (Hrun' _ eq_refl).
Qed.

End RoundTrip.

(** ** The routes *)

Section RouteFacts.

Variable re_word : ascii → bool.
Variable datadir : string.

Lemma re_end_long (a b : ascii) (s : string) :
  re_end (String a (String b s)) = false.
Proof.
  unfold re_end, Py.nl. cbn [String.eqb orb].
  now destruct (Ascii.eqb a "010").
Qed.

Lemma re_span_all (p : ascii → bool) (s : string) :
  all_chars p s = true → re_span p s = (s, EmptyString).
Proof.
  induction s as [|c s IH]; cbn [all_chars re_span]; [reflexivity|].
  intros H. apply andb_true_iff in H as [-> H]. now rewrite (IH H).
Qed.

Lemma re_span_stop (p : ascii → bool) (s : string) (c : ascii) (r : string) :
  all_chars p s = true → p c = false →
  re_span p (s +:+ String c r) = (s, String c r).
Proof.
  intros Hs Hc. induction s as [|a s IH]; cbn [String.append re_span].
  - now rewrite Hc.
  - cbn [all_chars] in Hs. apply andb_true_iff in Hs as [-> Hs].
    now rewrite (IH Hs).
Qed.

Lemma all_chars_app (p : ascii → bool) (x y : string) :
  all_chars p (x +:+ y) = all_chars p x && all_chars p y.
Proof.
  induction x as [|c x IH]; cbn [String.append all_chars]; [reflexivity|].
  now rewrite IH, andb_assoc.
Qed.

Lemma all_chars_snoc (p : ascii → bool) (s : string) :
  s ≠ EmptyString → all_chars p s = true →
  ∃ y c, s = y +:+ String c EmptyString ∧ p c = true.
Proof.
  induction s as [|a s IH]; [congruence|]. intros _ H.
  cbn [all_chars] in H. apply andb_true_iff in H as [Ha Hs].
  destruct s as [|b s].
  - exists EmptyString, a. now split.
  - destruct (IH ltac:(discriminate) Hs) as (y & c & -> & Hc).
    exists (String a y), c. now split.
Qed.

(** A path that ends with a character other than [g] does not end with
    [.png]. *)
Lemma endswith_png_last (x : string) (c : ascii) :
  c ≠ "g"%char → Py.endswith ".png" (x +:+ String c EmptyString) = false.
Proof.
  intros Hc. destruct (Py.endswith _ _) eqn:E; [|reflexivity].
  apply PyFacts.endswith_spec in E as [a E].
  apply (f_equal (λ s, Py.drop (String.length s - 1) s)) in E.
  cbn beta in E.
  replace (a +:+ ".png") with ((a +:+ ".pn") +:+ "g") in E
    by now rewrite PyFacts.append_assoc.
  rewrite !PyFacts.length_append in E. cbn [String.length] in E.
  replace (String.length x + 1 - 1)%nat
    with (String.length x + 0)%nat in E by lia.
  replace (String.length a + 3 + 1 - 1)%nat
    with (String.length (a +:+ ".pn") + 0)%nat in E
    by (rewrite PyFacts.length_append; cbn [String.length]; lia).
  rewrite !drop_append_more in E. cbn [Py.drop] in E. congruence.
Qed.

(** The layout for any name of 40 hexadecimal digits. *)
Lemma static_path_of_hex (h : string) :
  String.length h = 40%nat → all_chars is_hex h = true →
  get_absolute_path datadir (Py.take 2 h +:+ "/" +:+ Py.drop 2 h)
  = object_path datadir h ∧
  Py.endswith ".png" (object_path datadir h) = false ∧
  (datadir ≠ EmptyString → in_root datadir (object_path datadir h)).
Proof.
  intros Hl Hhex.
  destruct h as [|c0 [|c1 [|c2 rest]]]; try discriminate Hl.
  cbn [all_chars] in Hhex.
  apply andb_true_iff in Hhex as [Hc0 Hhex].
  apply andb_true_iff in Hhex as [Hc1 Hhex].
  assert (Hc2 := Hhex). apply andb_true_iff in Hc2 as [Hc2 _].
  assert (H0 : c0 ≠ "/"%char) by (intros ->; discriminate).
  assert (H1 : c1 ≠ "/"%char) by (intros ->; discriminate).
  assert (H2 : c2 ≠ "/"%char) by (intros ->; discriminate).
  assert (Hobj : get_absolute_path datadir
                   (String c0 (String c1 (String "/" (String c2 rest))))
                 = object_path datadir (String c0 (String c1 (String c2 rest)))).
  { unfold get_absolute_path, object_path, shard_dir. cbn [Py.take Py.drop].
    rewrite (os_path_join_rel datadir (String c0 (String c1 EmptyString)))
      by now apply startswith_slash_cons.
    rewrite (os_path_join_rel datadir) by now apply startswith_slash_cons.
    set (sep := if String.eqb datadir "" || Py.endswith "/" datadir
                then EmptyString else "/").
    rewrite os_path_join_rel by now apply startswith_slash_cons.
    assert (Hne : String.eqb
                    (datadir +:+ sep +:+ String c0 (String c1 EmptyString))
                    "" = false).
    { apply String.eqb_neq. intros H. apply (f_equal String.length) in H.
      rewrite !PyFacts.length_append in H. simpl in H. lia. }
    assert (Hend : Py.endswith "/"
                     (datadir +:+ sep +:+ String c0 (String c1 EmptyString))
                   = false).
    { replace (datadir +:+ sep +:+ String c0 (String c1 EmptyString))
        with ((datadir +:+ sep +:+ String c0 EmptyString)
              +:+ String c1 EmptyString)
        by (rewrite !PyFacts.append_assoc; reflexivity).
      now apply endswith_slash_last. }
    rewrite Hne, Hend. cbn [orb].
    rewrite !PyFacts.append_assoc. reflexivity. }
  cbn [Py.take Py.drop String.append]. split; [exact Hobj|]. split.
  - rewrite <- Hobj. unfold get_absolute_path.
    rewrite os_path_join_rel by now apply startswith_slash_cons.
    destruct (all_chars_snoc is_hex (String c2 rest) ltac:(discriminate) Hhex)
      as (y & c & E & Hc).
    rewrite E.
    replace (String c0 (String c1 (String "/" (y +:+ String c EmptyString))))
      with (String c0 (String c1 (String "/" y)) +:+ String c EmptyString)
      by reflexivity.
    rewrite <- !PyFacts.append_assoc. apply endswith_png_last.
    intros ->. discriminate.
  - intros Hd. rewrite <- Hobj. apply in_root_join; [exact Hd|].
    now apply startswith_slash_cons.
Qed.

Lemma route_static (u path : string) (ext : option string) :
  route re_word u = Some (ToStatic path ext) →
  match_static re_word u = Some (path, ext).
Proof.
  unfold route.
  destruct (strip_prefix "/i" u) as [r|]; [|discriminate].
  destruct (re_end r); [discriminate|].
  assert (H : match match_static re_word u with
              | Some (path0, ext0) => Some (ToStatic path0 ext0)
              | None => option_map ToHash (match_hash re_word u)
              end = Some (ToStatic path ext) →
              match_static re_word u = Some (path, ext)).
  { destruct (match_static re_word u) as [[p0 e0]|].
    - now intros [= -> ->].
    - destruct (match_hash re_word u); discriminate. }
  destruct (strip_prefix "/i/elimage" u) as [r'|]; [|exact H].
  destruct (re_end r'); [discriminate | exact H].
Qed.

Lemma re_opt_ext_shape (s : string) (ext : option string) :
  re_opt_ext re_word s = Some ext →
  match ext with
  | None => True
  | Some e => ∃ w, e = String "." w ∧ all_chars re_word w = true
  end.
Proof.
  assert (Hspan : ∀ s w r, re_span re_word s = (w, r) →
                           all_chars re_word w = true).
  { clear. intros s. induction s as [|c s IH]; cbn [re_span].
    - now intros w r [= <- <-].
    - intros w r. destruct (re_word c) eqn:Hc.
      + destruct (re_span re_word s) as [w0 r0]. intros [= <- <-].
        cbn [all_chars]. now rewrite Hc, (IH _ _ eq_refl).
      + now intros [= <- <-]. }
  unfold re_opt_ext. destruct s as [|c s]; [now intros [= <-]|].
  destruct (Ascii.eqb c ".").
  - destruct (re_span re_word s) as [w r] eqn:E.
    destruct (re_end r); [|discriminate]. intros [= <-].
    exists w. split; [reflexivity | eapply Hspan; eauto].
  - destruct (re_end _); [|discriminate]. now intros [= <-].
Qed.

(** X16. The static handler is reached only with the path of an object:
    the first argument the rule gives it is [h[:2]/h[2:]] for a name [h]
    of 40 hexadecimal digits, and the second is absent or a dot and
    word characters. The absolute path of such a request is the object
    path of [h], it does not end in [.png], and it lies in a data
    directory that has a name. *)
Theorem static_route_sound (u path : string) (ext : option string) :
  route re_word u = Some (ToStatic path ext) →
  ∃ h, String.length h = 40%nat ∧ all_chars is_hex h = true ∧
       path = Py.take 2 h +:+ "/" +:+ Py.drop 2 h ∧
       match ext with
       | None => True
       | Some e => ∃ w, e = String "." w ∧ all_chars re_word w = true
       end ∧
       get_absolute_path datadir (parse_url_path path)
       = object_path datadir h ∧
       Py.endswith ".png" (get_absolute_path datadir (parse_url_path path))
       = false ∧
       (datadir ≠ EmptyString →
        in_root datadir (get_absolute_path datadir (parse_url_path path))).
Proof.
  intros H. apply route_static in H. unfold match_static in H.
  destruct (strip_prefix "/i/" u) as [s|]; [|discriminate].
  destruct (Py.drop 2 s) as [|c s2]; [discriminate|].
  cbv zeta in H.
  remember (Py.take 2 s) as d eqn:Ed. remember (Py.take 38 s2) as f eqn:Ef.
  destruct (_ && _) eqn:Hc in H; [|discriminate].
  destruct (re_opt_ext re_word _) as [e|] eqn:He; [|discriminate].
  injection H as <- <-.
  repeat (apply andb_true_iff in Hc as [Hc ?]).
  repeat match goal with
         | H : (_ =? _)%nat = true |- _ => apply Nat.eqb_eq in H
         end.
  assert (Ht : Py.take 2 (d +:+ f) = d)
    by (replace 2%nat with (String.length d); apply take_append_length).
  assert (Hd : Py.drop 2 (d +:+ f) = f).
  { replace 2%nat with (String.length d + 0)%nat by lia.
    now rewrite drop_append_more. }
  assert (Hl : String.length (d +:+ f) = 40%nat)
    by (rewrite PyFacts.length_append; lia).
  assert (Hx : all_chars is_hex (d +:+ f) = true)
    by (rewrite all_chars_app; now apply andb_true_iff).
  destruct (static_path_of_hex _ Hl Hx) as (Hobj & Hpng & Hroot).
  rewrite Ht, Hd in Hobj. unfold parse_url_path.
  exists (d +:+ f). rewrite Ht, Hd.
  change (d +:+ String "/" f) with (d +:+ "/" +:+ f). rewrite Hobj.
  repeat split; try assumption.
  eapply re_opt_ext_shape; eauto.
Qed.

Lemma strip_prefix_app (p s : string) : strip_prefix p (p +:+ s) = Some s.
Proof.
  unfold strip_prefix.
  assert (H : Py.startswith p (p +:+ s) = true)
    by (apply PyFacts.startswith_spec; now exists s).
  rewrite H. f_equal.
  replace (String.length p) with (String.length p + 0)%nat by lia.
  now rewrite drop_append_more.
Qed.

(** Below [/i/], a path whose second character is a hexadecimal digit
    is left to the two rules with groups. *)
Lemma route_under (s : string) :
  (∃ c0 c1 rest, s = String c0 (String c1 rest) ∧ is_hex c1 = true) →
  route re_word ("/i/" +:+ s) =
  match match_static re_word ("/i/" +:+ s) with
  | Some (path, ext) => Some (ToStatic path ext)
  | None => option_map ToHash (match_hash re_word ("/i/" +:+ s))
  end.
Proof.
  intros (c0 & c1 & rest & -> & H1). unfold route.
  change (strip_prefix "/i" _)
    with (Some (String "/" (String c0 (String c1 rest)))).
  cbv beta iota. rewrite re_end_long.
  assert (E : strip_prefix "/i/elimage"
                ("/i/" +:+ String c0 (String c1 rest)) = None).
  { unfold strip_prefix. cbn [Py.startswith String.append].
    destruct (Ascii.eqb_spec "l" c1) as [<-|_]; [discriminate H1|].
    now rewrite !andb_false_r. }
  now rewrite E.
Qed.

(** The rule of the static handler on a path of the layout. *)
Lemma match_static_app (d f r : string) :
  String.length d = 2%nat → String.length f = 38%nat →
  all_chars is_hex d = true → all_chars is_hex f = true →
  match_static re_word ("/i/" +:+ d +:+ "/" +:+ f +:+ r)
  = match re_opt_ext re_word r with
    | Some ext => Some (d +:+ "/" +:+ f, ext)
    | None => None
    end.
Proof.
  intros Ld Lf Hd Hf. unfold match_static. rewrite strip_prefix_app.
  assert (E1 : Py.take 2 (d +:+ "/" +:+ f +:+ r) = d)
    by (rewrite <- Ld; apply take_append_length).
  assert (E2 : Py.drop 2 (d +:+ "/" +:+ f +:+ r) = String "/" (f +:+ r)).
  { replace 2%nat with (String.length d + 0)%nat by lia.
    now rewrite drop_append_more. }
  assert (E3 : Py.take 38 (f +:+ r) = f)
    by (rewrite <- Lf; apply take_append_length).
  assert (E4 : Py.drop 38 (f +:+ r) = r).
  { replace 38%nat with (String.length f + 0)%nat by lia.
    now rewrite drop_append_more. }
  rewrite E2. cbv zeta. rewrite E1, E3, E4, Ld, Lf, Hd, Hf. reflexivity.
Qed.

(** X17. The address of an upload is served by the static handler: for
    a name [h] of 40 hexadecimal digits, as a digest is, and an extension
    that is empty or a dot and word characters, the path
    [/i/h[:2]/h[2:]] and the extension are routed to the static handler,
    with the path of the object and the extension as arguments. *)
Theorem upload_url_routed (h e : string) :
  String.length h = 40%nat → all_chars is_hex h = true →
  (e = EmptyString ∨ ∃ w, e = String "." w ∧ all_chars re_word w = true) →
  route re_word ("/i/" +:+ Py.take 2 h +:+ "/" +:+ Py.drop 2 h +:+ e)
  = Some (ToStatic (Py.take 2 h +:+ "/" +:+ Py.drop 2 h)
                   (if String.eqb e "" then None else Some e)).
Proof.
  intros Hl Hhex He.
  rewrite route_under.
  2:{ destruct h as [|c0 [|c1 rest]]; try discriminate Hl.
      cbn [all_chars] in Hhex.
      apply andb_true_iff in Hhex as [_ Hhex].
      apply andb_true_iff in Hhex as [Hc1 _].
      destruct rest; cbn [Py.take String.append]; eauto. }
  rewrite match_static_app.
  - destruct He as [-> | (w & -> & Hw)]; cbn [re_opt_ext String.eqb].
    + reflexivity.
    + rewrite Ascii.eqb_refl, (re_span_all _ _ Hw). reflexivity.
  - rewrite PyFacts.length_take. lia.
  - rewrite PyFacts.length_drop. lia.
  - now apply all_chars_take.
  - now apply all_chars_drop.
Qed.

(** X18. The address of a flat hash is sent on: for a name [h] of 40
    hexadecimal digits and an extension as above, the path [/i/h] and
    the extension are routed to the redirecting handler, which answers
    with the permanent redirect to [/h[:2]/h[2:]] and the extension. *)
Theorem flat_hash_redirected (h e : string) :
  String.length h = 40%nat → all_chars is_hex h = true →
  (e = EmptyString ∨ ∃ w, e = String "." w ∧ all_chars re_word w = true) →
  route re_word ("/i/" +:+ h +:+ e) = Some (ToHash (h +:+ e)) ∧
  HashHandler_get (h +:+ e)
  = Redirect true ("/" +:+ Py.take 2 h +:+ "/" +:+ Py.drop 2 h +:+ e).
Proof.
  intros Hl Hhex He. split.
  - assert (Hspan : re_span (λ a, is_hex a || Ascii.eqb a "/") (h +:+ e)
                    = (h, e)).
    { assert (Hh : all_chars (λ a, is_hex a || Ascii.eqb a "/") h = true).
      { clear -Hhex. induction h as [|c h IH]; [reflexivity|].
        cbn [all_chars] in *. apply andb_true_iff in Hhex as [-> Hh].
        now rewrite (IH Hh). }
      destruct He as [-> | (w & -> & _)].
      - rewrite PyFacts.append_nil_r. now apply re_span_all.
      - now apply re_span_stop. }
    assert (Hu : ∃ c0 c1 rest,
               h +:+ e = String c0 (String c1 rest) ∧ is_hex c1 = true).
    { destruct h as [|c0 [|c1 rest]]; try discriminate Hl.
      cbn [all_chars] in Hhex.
      apply andb_true_iff in Hhex as [_ Hhex].
      apply andb_true_iff in Hhex as [Hc1 _].
      cbn [String.append]. eauto. }
    assert (Hms : match_static re_word ("/i/" +:+ h +:+ e) = None).
    { unfold match_static. rewrite strip_prefix_app.
      destruct h as [|c0 [|c1 [|c2 rest]]]; try discriminate Hl.
      cbn [all_chars] in Hhex.
      apply andb_true_iff in Hhex as [_ Hhex].
      apply andb_true_iff in Hhex as [_ Hhex].
      apply andb_true_iff in Hhex as [Hc2 _].
      cbn [String.append Py.drop]. cbv zeta.
      destruct (Ascii.eqb_spec c2 "/") as [->|_]; [discriminate Hc2|].
      reflexivity. }
    rewrite (route_under _ Hu), Hms.
    unfold match_hash. rewrite strip_prefix_app, Hspan.
    destruct h as [|c h']; [discriminate Hl|]. cbv beta iota.
    destruct He as [-> | (w & -> & Hw)]; cbn [re_opt_ext option_map].
    + now rewrite PyFacts.append_nil_r.
    + rewrite Ascii.eqb_refl, (re_span_all _ _ Hw). reflexivity.
  - assert (Hdot : Py.in_char "." h = false)
      by (apply (all_chars_in_char is_hex); [exact Hhex | reflexivity]).
    assert (Hsl : Py.in_char "/" h = false)
      by (apply (all_chars_in_char is_hex); [exact Hhex | reflexivity]).
    rewrite HashHandler_get_split;
      [|exact Hdot | destruct He as [-> | (w & -> & _)]; eauto].
    cbv zeta. rewrite (delete_char_absent _ _ Hsl), Hl. reflexivity.
Qed.

(** X19. The redirect leaves the application: whatever the raw path, the
    address of a permanent redirect of [HashHandler.get] is matched by
    none of the four rules. *)
Theorem redirect_target_unrouted (p url : string) (b : bool) :
  HashHandler_get p = Redirect b url → route re_word url = None.
Proof.
  destruct (raw_path_split p) as (h & e & -> & Hh & He).
  rewrite (HashHandler_get_split h e Hh He). cbv zeta.
  pose proof (PyFacts.delete_char_clean "/" h) as Hclean.
  destruct (String.length _ =? 40)%nat eqn:Hl; [|discriminate].
  apply Nat.eqb_eq in Hl. intros [= _ <-].
  destruct (Py.delete_char "/" h) as [|c0 [|c1 [|c2 rest]]];
    try discriminate Hl.
  cbn [Py.in_char] in Hclean.
  apply orb_false_iff in Hclean as [_ Hclean].
  apply orb_false_iff in Hclean as [H1 _].
  cbn [Py.take Py.drop String.append].
  unfold route, strip_prefix at 1. cbn [Py.startswith].
  destruct (Ascii.eqb "i" c0); [|reflexivity].
  rewrite Ascii.eqb_refl. cbn [andb String.length Py.drop].
  rewrite re_end_long.
  unfold match_static, match_hash, strip_prefix. cbn [Py.startswith].
  rewrite (Ascii.eqb_sym "/" c1), H1.
  now rewrite !andb_false_r.
Qed.

End RouteFacts.

(** ** [ToolHandler.get] *)

(** X20. The script is rendered with the address of the upload form:
    when the address of the request is some [base] followed by the name
    of the script, the handler renders the template of that name with
    [base] as its [url], as [text/x-python]. *)
Theorem ToolHandler_get_base (req : Request) (base : string) :
  full_url req = base +:+ SCRIPT_PATH →
  ToolHandler_get req = mkTool "text/x-python" SCRIPT_PATH base.
Proof.
  intros H. unfold ToolHandler_get, slice_until_neg. rewrite H.
  unfold SCRIPT_PATH. cbn [String.length]. f_equal.
  rewrite PyFacts.length_append. cbn [String.length].
  replace (String.length base + 7 - 7)%nat with (String.length base) by lia.
  apply take_append_length.
Qed.

(** ** The further properties on the concrete installation *)

Module FixtureExtras.
Import Fixture ExtraFixture FixtureFacts.

(** The second inspection of the stored WebP object is answered from the
    memo table. *)
Lemma guess_mime_memoized_witness :
  fst (guess_mime_using_file file_program webp_path
         (snd (guess_mime_using_file file_program webp_path webp_world)))
    = Ok ("image/webp", None) ∧
  procs (snd (guess_mime_using_file file_program webp_path
                (snd (guess_mime_using_file file_program webp_path
                        webp_world))))
    = procs (snd (guess_mime_using_file file_program webp_path webp_world)).
Proof.
  destruct (guess_mime_memoized file_program webp_path webp_world
              (snd (guess_mime_using_file file_program webp_path webp_world))
              (snd (guess_mime_using_file file_program webp_path webp_world))
              ("image/webp", None))
    as (H1 & H2 & _);
    [vm_compute; reflexivity | reflexivity |].
  split; [exact H1 | exact H2].
Defined.

(** An inspection program that exits with status 1. *)
Lemma guess_mime_failures_witness :
  fst (guess_mime_using_file file_missing "/data/x" empty_world)
    = Raise (CalledProcessError 1) ∧
  mime_cache (snd (guess_mime_using_file file_missing "/data/x" empty_world))
    = [].
Proof.
  destruct (guess_mime_failures file_missing "/data/x" empty_world 1
              EmptyString)
    as (H1 & _ & H3); [reflexivity | reflexivity |].
  pose proof (H1 ltac:(discriminate)) as E.
  split; [exact E|]. exact (proj1 (H3 _ E)).
Defined.

Lemma mime_cache_bounded_witness :
  (length (mime_cache
             (snd (guess_mime_using_file file_program webp_path webp_world)))
   ≤ lru_maxsize)%nat.
Proof.
  apply (mime_cache_bounded file_program webp_path webp_world).
  - apply Nat.le_0_l.
  - constructor.
Defined.

Lemma blocked_caller_rejected_witness :
  post note_upload blocked_world = (Raise (PyHTTPError 403), blocked_world).
Proof.
  apply (blocked_caller_rejected file_program extension_table datadir
           note_upload blocked_world (User 1 true));
    [vm_compute; reflexivity | reflexivity].
Defined.

Lemma no_files_rejected_witness :
  fst (post empty_upload empty_world) = Raise (PyHTTPError 400) ∧
  fs (snd (post empty_upload empty_world)) = fs empty_world.
Proof.
  destruct (no_files_rejected file_program extension_table datadir
              empty_upload empty_world)
    as (H1 & H2 & _); [reflexivity | now apply nobody_blocked |].
  split; [exact H1 | exact H2].
Defined.

(** The stored WebP object is still there after the upload of a note. *)
Lemma upload_never_overwrites_witness :
  fs (snd (post note_upload webp_world)) !! webp_path
    = Some (File webp_body).
Proof.
  apply (upload_never_overwrites file_program extension_table datadir
           note_upload webp_world webp_path (File webp_body)).
  vm_compute. reflexivity.
Defined.

Lemma upload_stores_body_witness :
  fs (snd (post note_upload empty_world))
    !! object_path datadir (file_hash note_file)
  = Some (File note_body).
Proof.
  destruct (upload_stores_body file_program extension_table datadir
              note_upload "file" note_file empty_world)
    as (H & _); [reflexivity | now apply nobody_blocked |].
  destruct H as [Hs _];
    [vm_compute; reflexivity | apply lookup_empty | apply not_elem_of_empty
    | apply lookup_empty |].
  exact Hs.
Defined.

Lemma upload_results_by_name_witness :
  ∃ d st' w',
    post three_upload empty_world = (Ok (mkResponse st' (render d)), w') ∧
    NoDup (fst <$> d) ∧
    ∀ k, k ∈ (fst <$> d) ↔ k ∈ (filename <$> all_files three_upload).
Proof.
  destruct (upload_results_by_name file_program extension_table datadir
              three_upload empty_world)
    as (results & d & st' & w' & Hrun & _ & Hnd & Hk & _);
    [now apply nobody_blocked | discriminate | by_computation
    | exact sniff_ok_three |].
  exists d, st', w'. split; [exact Hrun|]. split; [exact Hnd | exact Hk].
Defined.

(** The WebP object is uploaded into the empty store and asked for by a
    browser that cannot show it. *)
Lemma uploaded_object_is_found_witness :
  fs (snd (post webp_upload empty_world))
    !! get_absolute_path datadir
         (Py.take 2 (file_hash webp_file) +:+ "/"
          +:+ Py.drop 2 (file_hash webp_file))
  = Some (File webp_body).
Proof.
  destruct (uploaded_object_is_found file_program dwebp_program
              extension_table datadir webp_upload gecko_request "file"
              webp_file empty_world None true)
    as (H & _);
    [discriminate | reflexivity | now apply nobody_blocked
    | vm_compute; reflexivity
    | apply lookup_empty | apply not_elem_of_empty | apply lookup_empty
    | at_path webp_path; exact sniff_ok_webp |].
  exact H.
Defined.

(** A HEAD request for the stored WebP object. *)
Lemma static_pass_through_witness :
  fst (MyStaticFileHandler_get file_program dwebp_program datadir
         head_request webp_url_path None false webp_world)
    = Ok (mkStatic None (SuperGet webp_url_path false)).
Proof.
  destruct (static_pass_through file_program dwebp_program datadir
              head_request webp_url_path None false webp_world
              (snd (get_content_type file_program webp_path webp_world))
              webp_body "image/webp")
    as (H & _);
    [vm_compute; reflexivity | vm_compute; reflexivity
    | vm_compute; reflexivity | left; discriminate |].
  now rewrite H.
Defined.

Lemma static_not_found_witness :
  get gecko_request webp_url_path None true empty_world
    = (Raise (PyHTTPError 404), empty_world).
Proof.
  destruct (static_not_found file_program dwebp_program datadir
              gecko_request webp_url_path None true empty_world)
    as (H & _); [vm_compute; reflexivity |].
  apply H. vm_compute. reflexivity.
Defined.

Lemma static_route_sound_witness :
  ∃ h, String.length h = 40%nat ∧
       "de/adbeefdeadbeefdeadbeefdeadbeefdeadbeef"
         = Py.take 2 h +:+ "/" +:+ Py.drop 2 h ∧
       Py.endswith ".png"
         (get_absolute_path datadir
            (parse_url_path "de/adbeefdeadbeefdeadbeefdeadbeefdeadbeef"))
         = false.
Proof.
  destruct (static_route_sound ascii_word datadir
              "/i/de/adbeefdeadbeefdeadbeefdeadbeefdeadbeef.png"
              "de/adbeefdeadbeefdeadbeefdeadbeefdeadbeef" (Some ".png"))
    as (h & Hl & _ & Hp & _ & _ & Hpng & _); [vm_compute; reflexivity |].
  exists h. split; [exact Hl|]. split; [exact Hp | exact Hpng].
Defined.

Lemma upload_url_routed_witness :
  route ascii_word
    ("/i/" +:+ Py.take 2 beef +:+ "/" +:+ Py.drop 2 beef +:+ ".jpg")
  = Some (ToStatic (Py.take 2 beef +:+ "/" +:+ Py.drop 2 beef)
                   (Some ".jpg")).
Proof.
  apply (upload_url_routed ascii_word beef ".jpg");
    [reflexivity | reflexivity | right; exists "jpg"; now split].
Defined.

Lemma flat_hash_redirected_witness :
  route ascii_word ("/i/" +:+ beef +:+ ".jpg")
    = Some (ToHash (beef +:+ ".jpg")) ∧
  HashHandler_get (beef +:+ ".jpg")
    = Redirect true
        ("/" +:+ Py.take 2 beef +:+ "/" +:+ Py.drop 2 beef +:+ ".jpg").
Proof.
  apply (flat_hash_redirected ascii_word beef ".jpg");
    [reflexivity | reflexivity | right; exists "jpg"; now split].
Defined.

Lemma redirect_target_unrouted_witness :
  route ascii_word "/de/adbeefdeadbeefdeadbeefdeadbeefdeadbeef.jpg" = None.
Proof.
  apply (redirect_target_unrouted ascii_word
           "deadbeefdeadbeefdeadbeefdeadbeefdeadbeef.jpg"
           "/de/adbeefdeadbeefdeadbeefdeadbeefdeadbeef.jpg" true).
  reflexivity.
Defined.

Lemma ToolHandler_get_base_witness :
  ToolHandler_get tool_request
    = mkTool "text/x-python" SCRIPT_PATH "http://img.example/i/".
Proof.
  apply (ToolHandler_get_base tool_request "http://img.example/i/").
  reflexivity.
Defined.

End FixtureExtras.
